(** * A shallow embedding of [vm.py]: the [Frame] interpreter and its
      calling convention.

    The development follows the Python source top to bottom: runtime
    values, the operand stack ([top], [pop], [push], [popn]), the opcode
    handlers, the function object built by [make_function_op], the
    [run] loop, and [VirtualMachine.run].

    Python dictionaries that are shared between frames ([locals],
    [globals], [builtins]) live in a store and are addressed by
    reference, so that aliasing is visible in the model. *)

From Stdlib Require Import ZArith List String Bool Lia.
From stdpp Require Import base gmap strings list fin_maps.

Open Scope string_scope.
Open Scope Z_scope.
Open Scope list_scope.

Local Set Warnings "-register-all".

(** ** Runtime values, code objects, instructions *)

(** [CO_VARARGS] and [CO_VARKEYWORDS], the two flag bits read by the
    function object. *)
Definition CO_VARARGS : Z := 4.
Definition CO_VARKEYWORDS : Z := 8.

(** The fragment of Python objects the handlers below act on.  A function
    object records what the closure [f] of [make_function_op] captures:
    the popped name, code and defaults and the defining frame, of which
    only the three dictionaries are ever read (by reference). *)
Inductive Value : Type :=
| VNone
| VBool (b : bool)
| VInt (z : Z)
| VStr (s : string)
| VTuple (items : list Value)
| VDict (items : list (Value * Value))
| VExcClass (name : string)
| VExcInst (cls : string) (args : list Value)
| VCode (c : Code)
| VFunc (qualname : string) (fcode : Value) (defaults : list Value)
        (fbuiltins fglobals flocals : nat)
with Code : Type :=
| mkCode (co_instructions : list Instr) (co_varnames : list string)
         (co_argcount co_posonlyargcount co_kwonlyargcount : nat)
         (co_flags : Z)
with Instr : Type :=
| NOP
| LOAD_CONST (c : Value)
| LOAD_NAME (name : string)
| LOAD_GLOBAL (name : string)
| LOAD_FAST (name : string)
| STORE_NAME (name : string)
| STORE_FAST (name : string)
| STORE_GLOBAL (name : string)
| DELETE_NAME (name : string)
| DELETE_FAST (name : string)
| POP_TOP
| DUP_TOP
| DUP_TOP_TWO
| ROT_TWO
| ROT_THREE
| UNARY_NOT
| POP_JUMP_IF_TRUE (target : Z)
| POP_JUMP_IF_FALSE (target : Z)
| JUMP_IF_TRUE_OR_POP (target : Z)
| JUMP_IF_FALSE_OR_POP (target : Z)
| JUMP_FORWARD (delta : Z)
| JUMP_ABSOLUTE (target : Z)
| BUILD_TUPLE (count : Z)
| BUILD_MAP (count : Z)
| BUILD_CONST_KEY_MAP (count : Z)
| CALL_FUNCTION (argc : Z)
| CALL_FUNCTION_KW (argc : Z)
| MAKE_FUNCTION (argc : Z)
| RAISE_VARARGS (argc : Z)
| RETURN_VALUE.

Definition co_instructions (c : Code) : list Instr :=
  match c with mkCode i _ _ _ _ _ => i end.
Definition co_varnames (c : Code) : list string :=
  match c with mkCode _ v _ _ _ _ => v end.
Definition co_argcount (c : Code) : nat :=
  match c with mkCode _ _ n _ _ _ => n end.
Definition co_posonlyargcount (c : Code) : nat :=
  match c with mkCode _ _ _ n _ _ => n end.
Definition co_kwonlyargcount (c : Code) : nat :=
  match c with mkCode _ _ _ _ n _ => n end.
Definition co_flags (c : Code) : Z :=
  match c with mkCode _ _ _ _ _ f => f end.

(** Python exceptions that leave the interpreter through native control
    flow.  [Unmodelled] marks an object of the host outside the fragment
    (iterators, host callables, identity-hashed keys). *)
Inductive PyExc : Type :=
| NameError | UnboundLocalError | KeyError | IndexError
| TypeError | ValueError | AttributeError | Unmodelled.

Inductive Result (A : Type) : Type :=
| Ok (a : A)
| Raise (e : PyExc)
| OutOfFuel.
Arguments Ok {A} a.
Arguments Raise {A} e.
Arguments OutOfFuel {A}.

(** ** Python primitives used by the handlers *)

(** [bool(v)]: the truth test behind [if v:] and [not v]. *)
Definition truthy (v : Value) : bool :=
  match v with
  | VNone => false
  | VBool b => b
  | VInt z => negb (z =? 0)
  | VStr s => negb (String.eqb s "")
  | VTuple l => match l with [] => false | _ => true end
  | VDict l => match l with [] => false | _ => true end
  | _ => true
  end.

(** [isinstance(v, BaseException)] and [type(v)] on an instance. *)
Definition is_exception_instance (v : Value) : bool :=
  match v with VExcInst _ _ => true | _ => false end.

Definition type_of_instance (v : Value) : Value :=
  match v with VExcInst cls _ => VExcClass cls | _ => VNone end.

(** Index normalisation of a slice bound against a length. *)
Definition slice_bound (i len : Z) : Z :=
  if i <? 0 then Z.max (i + len) 0 else Z.min i len.

(** [l[start:stop]] with integer bounds, negative ones counting from the
    end. *)
Definition py_slice {A : Type} (start stop : Z) (l : list A) : list A :=
  let len := Z.of_nat (length l) in
  let a := slice_bound start len in
  let b := slice_bound stop len in
  take (Z.to_nat (b - a)) (drop (Z.to_nat a) l).

(** [l[start:]]. *)
Definition py_slice_from {A : Type} (start : Z) (l : list A) : list A :=
  drop (Z.to_nat (slice_bound start (Z.of_nat (length l)))) l.

(** [l[i]]: [None] stands for [IndexError]. *)
Definition py_index {A : Type} (l : list A) (i : Z) : option A :=
  let len := Z.of_nat (length l) in
  let j := if i <? 0 then i + len else i in
  if (0 <=? j) && (j <? len) then l !! Z.to_nat j else None.

(** Equality of dictionary keys ([True == 1], tuples element-wise). *)
Fixpoint key_eqb (a b : Value) {struct a} : bool :=
  match a, b with
  | VNone, VNone => true
  | VBool x, VBool y => Bool.eqb x y
  | VBool x, VInt y => Z.b2z x =? y
  | VInt x, VBool y => x =? Z.b2z y
  | VInt x, VInt y => x =? y
  | VStr x, VStr y => String.eqb x y
  | VExcClass x, VExcClass y => String.eqb x y
  | VTuple xs, VTuple ys =>
      (fix go (xs ys : list Value) : bool :=
         match xs, ys with
         | [], [] => true
         | x :: xs', y :: ys' => key_eqb x y && go xs' ys'
         | _, _ => false
         end) xs ys
  | _, _ => false
  end.

(** Whether a value may be used as a dictionary key: [Ok] for the
    hashable, value-compared objects, [TypeError] for a dict, and
    [Unmodelled] for objects hashed by identity. *)
Fixpoint check_hashable (v : Value) : Result unit :=
  match v with
  | VNone | VBool _ | VInt _ | VStr _ | VExcClass _ => Ok tt
  | VTuple l =>
      (fix go (l : list Value) : Result unit :=
         match l with
         | [] => Ok tt
         | x :: l' =>
             match check_hashable x with
             | Ok _ => go l'
             | r => r
             end
         end) l
  | VDict _ => Raise TypeError
  | _ => Raise Unmodelled
  end.

(** [d[k] = v] on a value dictionary kept in insertion order. *)
Fixpoint dict_setitem (k v : Value) (d : list (Value * Value))
  : list (Value * Value) :=
  match d with
  | [] => [(k, v)]
  | (k', v') :: d' =>
      if key_eqb k' k then (k', v) :: d' else (k', v') :: dict_setitem k v d'
  end.

(** The same on a dictionary with string keys (keyword arguments). *)
Fixpoint kw_setitem (k : string) (v : Value) (d : list (string * Value))
  : list (string * Value) :=
  match d with
  | [] => [(k, v)]
  | (k', v') :: d' =>
      if String.eqb k' k then (k', v) :: d' else (k', v') :: kw_setitem k v d'
  end.

(** [dict(zip(names, values))] as a name space: [zip] stops at the
    shorter sequence and a later pair overrides an earlier one. *)
Definition dict_zip (names : list string) (values : list Value)
  : gmap string Value :=
  foldl (fun m kv => <[kv.1 := kv.2]> m) ∅ (zip names values).

(** ** The store of shared dictionaries *)

(** Name spaces are Python dicts with string keys, held by reference:
    a reference is an index into the store. *)
Abbreviation Store := (list (gmap string Value)).

Definition alloc (st : Store) (d : gmap string Value) : nat * Store :=
  (length st, st ++ [d]).

(** ** [class Frame] *)

Record Frame : Type := mkFrame {
  code : Code;
  builtins : nat;
  globals : nat;
  locals : nat;
  data_stack : list Value;
  return_value : Value;
  counter : Z;
  last_exception : list Value;
  jump : option Z;
  bytecode_len : Z;
  load_comprehension : bool
}.

(** [Frame.__init__]. *)
Definition Frame_init (frame_code : Code)
    (frame_builtins frame_globals frame_locals : nat) : Frame :=
  {| code := frame_code;
     builtins := frame_builtins;
     globals := frame_globals;
     locals := frame_locals;
     data_stack := [];
     return_value := VNone;
     counter := 0;
     last_exception := [];
     jump := None;
     bytecode_len := 0;
     load_comprehension := false |}.

Definition set_data_stack (s : list Value) (fr : Frame) : Frame :=
  {| code := code fr; builtins := builtins fr; globals := globals fr;
     locals := locals fr; data_stack := s;
     return_value := return_value fr; counter := counter fr;
     last_exception := last_exception fr; jump := jump fr;
     bytecode_len := bytecode_len fr;
     load_comprehension := load_comprehension fr |}.

Definition set_return_value (v : Value) (fr : Frame) : Frame :=
  {| code := code fr; builtins := builtins fr; globals := globals fr;
     locals := locals fr; data_stack := data_stack fr;
     return_value := v; counter := counter fr;
     last_exception := last_exception fr; jump := jump fr;
     bytecode_len := bytecode_len fr;
     load_comprehension := load_comprehension fr |}.

Definition set_counter (c : Z) (fr : Frame) : Frame :=
  {| code := code fr; builtins := builtins fr; globals := globals fr;
     locals := locals fr; data_stack := data_stack fr;
     return_value := return_value fr; counter := c;
     last_exception := last_exception fr; jump := jump fr;
     bytecode_len := bytecode_len fr;
     load_comprehension := load_comprehension fr |}.

Definition set_last_exception (e : list Value) (fr : Frame) : Frame :=
  {| code := code fr; builtins := builtins fr; globals := globals fr;
     locals := locals fr; data_stack := data_stack fr;
     return_value := return_value fr; counter := counter fr;
     last_exception := e; jump := jump fr;
     bytecode_len := bytecode_len fr;
     load_comprehension := load_comprehension fr |}.

Definition set_jump (j : option Z) (fr : Frame) : Frame :=
  {| code := code fr; builtins := builtins fr; globals := globals fr;
     locals := locals fr; data_stack := data_stack fr;
     return_value := return_value fr; counter := counter fr;
     last_exception := last_exception fr; jump := j;
     bytecode_len := bytecode_len fr;
     load_comprehension := load_comprehension fr |}.

Definition set_bytecode_len (n : Z) (fr : Frame) : Frame :=
  {| code := code fr; builtins := builtins fr; globals := globals fr;
     locals := locals fr; data_stack := data_stack fr;
     return_value := return_value fr; counter := counter fr;
     last_exception := last_exception fr; jump := jump fr;
     bytecode_len := n;
     load_comprehension := load_comprehension fr |}.

(** ** The handler monad: a frame and the store threaded through,
       Python exceptions as an early exit *)

Definition M (A : Type) : Type := Frame -> Store -> Result (A * Frame * Store).

Definition ret {A : Type} (a : A) : M A := fun fr st => Ok (a, fr, st).

Definition bind {A B : Type} (m : M A) (k : A -> M B) : M B :=
  fun fr st =>
    match m fr st with
    | Ok (a, fr', st') => k a fr' st'
    | Raise e => Raise e
    | OutOfFuel => OutOfFuel
    end.

Definition throw {A : Type} (e : PyExc) : M A := fun _ _ => Raise e.

Definition get_frame : M Frame := fun fr st => Ok (fr, fr, st).
Definition modify_frame (f : Frame -> Frame) : M unit :=
  fun fr st => Ok (tt, f fr, st).
Definition get_store : M Store := fun fr st => Ok (st, fr, st).
Definition put_store (st' : Store) : M unit := fun fr _ => Ok (tt, fr, st').

Definition lift_result {A : Type} (r : Result A) : M A :=
  fun fr st =>
    match r with
    | Ok a => Ok (a, fr, st)
    | Raise e => Raise e
    | OutOfFuel => OutOfFuel
    end.

Declare Scope vm_scope.
Delimit Scope vm_scope with vm.
Notation "'let!' x ':=' m 'in' k" := (bind m (fun x => k))
  (at level 10, x name, m at level 100, k at level 200) : vm_scope.
Notation "'do!' m 'in' k" := (bind m (fun _ => k))
  (at level 10, m at level 100, k at level 200) : vm_scope.
Open Scope vm_scope.

(** Reading and writing a shared dictionary through its reference. *)
Definition read_dict (r : nat) : M (gmap string Value) :=
  let! st := get_store in
  match st !! r with
  | Some d => ret d
  | None => throw Unmodelled
  end.

Definition write_dict (r : nat) (d : gmap string Value) : M unit :=
  let! st := get_store in
  match st !! r with
  | Some _ => put_store (<[r := d]> st)
  | None => throw Unmodelled
  end.

(** ** The operand stack: the top is the last element of the list *)

Definition top : M Value :=
  let! fr := get_frame in
  match last (data_stack fr) with
  | Some v => ret v
  | None => throw IndexError
  end.

Definition pop : M Value :=
  let! fr := get_frame in
  match last (data_stack fr) with
  | Some v =>
      do! modify_frame (set_data_stack (removelast (data_stack fr))) in
      ret v
  | None => throw IndexError
  end.

Definition push (values : list Value) : M unit :=
  modify_frame (fun fr => set_data_stack (data_stack fr ++ values) fr).

Definition popn (n : Z) : M (list Value) :=
  if 0 <? n then
    let! fr := get_frame in
    let returned := py_slice_from (- n) (data_stack fr) in
    let k := Z.to_nat (slice_bound (- n) (Z.of_nat (length (data_stack fr)))) in
    do! modify_frame (set_data_stack (take k (data_stack fr))) in
    ret returned
  else ret [].

(** ** Opcode handlers.  Each returns what the Python method returns
       ([None] unless stated). *)

(** [a, b, c = l]. *)
Definition unpack3 (l : list Value) : M (Value * Value * Value) :=
  match l with
  | [a; b; c] => ret (a, b, c)
  | _ => throw ValueError
  end.

Definition nop_op : M Value := ret VNone.

Definition load_name_op (arg : string) : M Value :=
  let! fr := get_frame in
  let! l := read_dict (locals fr) in
  match l !! arg with
  | Some v => do! push [v] in ret VNone
  | None =>
      let! g := read_dict (globals fr) in
      match g !! arg with
      | Some v => do! push [v] in ret VNone
      | None =>
          let! b := read_dict (builtins fr) in
          match b !! arg with
          | Some v => do! push [v] in ret VNone
          | None => throw NameError
          end
      end
  end.

Definition dup_top_op : M Value :=
  let! v := top in
  do! push [v] in ret VNone.

Definition dup_top_two_op : M Value :=
  let! l := popn 2 in
  do! push (l ++ l) in ret VNone.

Definition delete_name_op (namei : string) : M Value :=
  let! fr := get_frame in
  let! g := read_dict (globals fr) in
  match g !! namei with
  | Some _ => do! write_dict (globals fr) (delete namei g) in ret VNone
  | None => throw KeyError
  end.

Definition delete_fast_op (namei : string) : M Value :=
  let! fr := get_frame in
  let! l := read_dict (locals fr) in
  match l !! namei with
  | Some _ => do! write_dict (locals fr) (delete namei l) in ret VNone
  | None => throw KeyError
  end.

Definition store_global_op (arg : string) : M Value :=
  let! v := pop in
  let! fr := get_frame in
  let! g := read_dict (globals fr) in
  do! write_dict (globals fr) (<[arg := v]> g) in
  ret VNone.

Definition pop_jump_if_true_op (target : Z) : M Value :=
  let! v := pop in
  if truthy v then do! modify_frame (set_jump (Some target)) in ret VNone
  else ret VNone.

Definition pop_jump_if_false_op (target : Z) : M Value :=
  let! v := pop in
  if negb (truthy v) then do! modify_frame (set_jump (Some target)) in ret VNone
  else ret VNone.

Definition jump_if_true_or_pop_op (target : Z) : M Value :=
  let! v := top in
  if truthy v then do! modify_frame (set_jump (Some target)) in ret VNone
  else do! pop in ret VNone.

Definition jump_if_false_or_pop_op (target : Z) : M Value :=
  let! v := top in
  if negb (truthy v) then do! modify_frame (set_jump (Some target)) in ret VNone
  else do! pop in ret VNone.

Definition jump_forward_op (delta : Z) : M Value :=
  do! modify_frame (set_jump (Some delta)) in ret VNone.

Definition jump_absolute_op (target : Z) : M Value :=
  do! modify_frame (set_jump (Some target)) in ret VNone.

Definition unary_not_op : M Value :=
  let! v := pop in
  do! push [VBool (negb (truthy v))] in ret VNone.

Definition raise_varargs_op (argc : Z) : M Value :=
  let! evt :=
    (if argc =? 0 then
       let! fr := get_frame in
       unpack3 (last_exception fr)
     else if argc =? 1 then
       let! exctype := pop in
       ret (exctype, VNone, VNone)
     else if argc =? 2 then
       let! val := pop in
       let! exctype := pop in
       ret (exctype, val, VNone)
     else if argc =? 3 then
       let! tb := pop in
       let! val := pop in
       let! exctype := pop in
       ret (exctype, val, tb)
     else ret (VNone, VNone, VNone)) in
  let '(exctype, val, tb) := evt in
  let '(exctype, val) :=
    if is_exception_instance exctype
    then (type_of_instance exctype, exctype)
    else (exctype, val) in
  do! modify_frame (set_last_exception [exctype; val; tb]) in
  if truthy tb then ret (VStr "reraise") else ret (VStr "exception").

Definition build_tuple_op (count : Z) : M Value :=
  let! l := popn count in
  do! push [VTuple l] in ret VNone.

Definition rot_two_op : M Value :=
  let! l := popn 2 in
  do! push (rev l) in ret VNone.

Definition rot_three_op : M Value :=
  let! l := popn 3 in
  let! t := unpack3 l in
  let '(tos2, tos1, tos) := t in
  do! push [tos; tos2; tos1] in ret VNone.

(** [range(n)]. *)
Definition py_range (n : Z) : list Z :=
  map Z.of_nat (seq 0 (Z.to_nat n)).

(** The comprehension [{toses[i]: toses[i + 1] for i in indices}]. *)
Fixpoint map_comprehension (toses : list Value) (indices : list Z)
    (d : list (Value * Value)) : Result (list (Value * Value)) :=
  match indices with
  | [] => Ok d
  | i :: rest =>
      match py_index toses i with
      | None => Raise IndexError
      | Some k =>
          match py_index toses (i + 1) with
          | None => Raise IndexError
          | Some v =>
              match check_hashable k with
              | Ok _ => map_comprehension toses rest (dict_setitem k v d)
              | Raise e => Raise e
              | OutOfFuel => OutOfFuel
              end
          end
      end
  end.

Definition build_map_op (count : Z) : M Value :=
  let! toses := popn (2 * count) in
  let! d := lift_result (map_comprehension toses (py_range (2 * count - 1)) []) in
  do! push [VDict d] in ret VNone.

(** Iterating a value ([zip], [len]): the items of a tuple, the keys of a
    dict, the characters of a string. *)
Definition py_iter (v : Value) : Result (list Value) :=
  match v with
  | VTuple l => Ok l
  | VDict d => Ok (map fst d)
  | VStr s => Ok (map (fun a => VStr (String a EmptyString)) (list_ascii_of_string s))
  | _ => Raise TypeError
  end.

(** The comprehension [{k: v for k, v in pairs}]. *)
Fixpoint dict_of_pairs (pairs : list (Value * Value))
    (d : list (Value * Value)) : Result (list (Value * Value)) :=
  match pairs with
  | [] => Ok d
  | (k, v) :: rest =>
      match check_hashable k with
      | Ok _ => dict_of_pairs rest (dict_setitem k v d)
      | Raise e => Raise e
      | OutOfFuel => OutOfFuel
      end
  end.

Definition build_const_key_map_op (count : Z) : M Value :=
  let! const_keys := pop in
  let! values := popn count in
  let! keys := lift_result (py_iter const_keys) in
  let! d := lift_result (dict_of_pairs (zip keys values) []) in
  do! push [VDict d] in ret VNone.

Definition load_global_op (arg : string) : M Value :=
  let! fr := get_frame in
  let! g := read_dict (globals fr) in
  match g !! arg with
  | Some v => do! push [v] in ret VNone
  | None =>
      let! b := read_dict (builtins fr) in
      match b !! arg with
      | Some v => do! push [v] in ret VNone
      | None => throw NameError
      end
  end.

Definition load_fast_op (arg : string) : M Value :=
  if bool_decide (arg ∈ [".0"; ".1"; ".2"]) then
    (* [iter(self.top())]: iterator objects are outside the fragment *)
    do! top in throw Unmodelled
  else
    let! fr := get_frame in
    let! l := read_dict (locals fr) in
    match l !! arg with
    | Some v => do! push [v] in ret VNone
    | None => throw UnboundLocalError
    end.

Definition load_const_op (arg : Value) : M Value :=
  do! push [arg] in ret VNone.

Definition return_value_op : M Value :=
  let! v := pop in
  do! modify_frame (set_return_value v) in
  do! modify_frame (fun fr => set_counter (bytecode_len fr) fr) in
  ret VNone.

Definition pop_top_op : M Value :=
  do! pop in ret VNone.

Definition store_fast_op (arg : string) : M Value :=
  let! v := pop in
  let! fr := get_frame in
  let! l := read_dict (locals fr) in
  do! write_dict (locals fr) (<[arg := v]> l) in
  ret VNone.

Definition store_name_op (arg : string) : M Value :=
  let! const := pop in
  let! fr := get_frame in
  let! l := read_dict (locals fr) in
  do! write_dict (locals fr) (<[arg := const]> l) in
  ret VNone.

(** ** The function object built by [make_function_op] *)

(** What calling a callable value does: positional arguments, keyword
    arguments (a dict with string keys, in insertion order), the store. *)
Definition Callee : Type :=
  Value -> list Value -> list (string * Value) -> Store ->
  Result (Value * Store).

Definition has_varargs (c : Code) : bool :=
  negb (Z.land (co_flags c) CO_VARARGS =? 0).

Definition has_varkwargs (c : Code) : bool :=
  negb (Z.land (co_flags c) CO_VARKEYWORDS =? 0).

(** [code.co_varnames[defaults_slice]]. *)
Definition defaults_names (c : Code) (defaults : list Value) : list string :=
  py_slice (Z.of_nat (co_kwonlyargcount c) - Z.of_nat (length defaults))
           (Z.of_nat (co_argcount c)) (co_varnames c).

(** [default = dict(zip(defaults_names, defaults))]. *)
Definition default_mapping (c : Code) (defaults : list Value)
  : gmap string Value :=
  dict_zip (defaults_names c defaults) defaults.

Definition posonly_names (c : Code) : list string :=
  py_slice 0 (Z.of_nat (co_posonlyargcount c)) (co_varnames c).

Definition pos_or_kw_names (c : Code) : list string :=
  py_slice (Z.of_nat (co_posonlyargcount c)) (Z.of_nat (co_argcount c))
           (co_varnames c).

Definition kwonly_names (c : Code) : list string :=
  py_slice (Z.of_nat (co_argcount c))
           (Z.of_nat (co_argcount c) + Z.of_nat (co_kwonlyargcount c))
           (co_varnames c).

(** The loop [for k, v in kwargs.items()], producing [parsed_kwargs],
    [parsed_kwonlyargs] and [varkwargs]. *)
Definition distribute_kwargs (c : Code) (kwargs : list (string * Value))
  : gmap string Value * gmap string Value * list (string * Value) :=
  foldl (fun acc kv =>
           let '(pk, ko, vk) := acc in
           if bool_decide (kv.1 ∈ pos_or_kw_names c)
           then (<[kv.1 := kv.2]> pk, ko, vk)
           else if bool_decide (kv.1 ∈ kwonly_names c)
           then (pk, <[kv.1 := kv.2]> ko, vk)
           else (pk, ko, kw_setitem kv.1 kv.2 vk))
        (∅, ∅, []) kwargs.

(** [parsed_args] after [parsed_args.update(...)]: the defaults, under
    the positional bindings, under the keyword bindings. *)
Definition merged_args (c : Code) (defaults args : list Value)
    (kwargs : list (string * Value)) : gmap string Value :=
  let default := default_mapping c defaults in
  let parsed_posonlyargs :=
    dict_zip (posonly_names c)
             (py_slice 0 (Z.of_nat (co_posonlyargcount c)) args) in
  let parsed_posargs :=
    dict_zip (pos_or_kw_names c)
             (py_slice (Z.of_nat (co_posonlyargcount c))
                       (Z.of_nat (co_argcount c)) args) in
  let '(parsed_kwargs, parsed_kwonlyargs, _) := distribute_kwargs c kwargs in
  (parsed_kwonlyargs ∪ (parsed_kwargs ∪ (parsed_posargs ∪ parsed_posonlyargs)))
    ∪ default.

(** [if has_varargs: parsed_args[varargs_name] = varargs]. *)
Definition bind_varargs (c : Code) (args : list Value)
    (parsed_args : gmap string Value) : Result (gmap string Value) :=
  let varargs := py_slice_from (Z.of_nat (co_argcount c)) args in
  if has_varargs c then
    match py_index (co_varnames c)
            (Z.of_nat (co_argcount c) + Z.of_nat (co_kwonlyargcount c)) with
    | Some varargs_name => Ok (<[varargs_name := VTuple varargs]> parsed_args)
    | None => Raise IndexError
    end
  else Ok parsed_args.

(** [if has_varkwargs: parsed_args[varkwargs_name] = varkwargs]. *)
Definition bind_varkwargs (c : Code) (kwargs : list (string * Value))
    (parsed_args : gmap string Value) : Result (gmap string Value) :=
  let varkwargs := (distribute_kwargs c kwargs).2 in
  if has_varkwargs c then
    match py_index (co_varnames c)
            (Z.of_nat (co_argcount c) + Z.of_nat (co_kwonlyargcount c)
             + Z.b2z (has_varargs c)) with
    | Some varkwargs_name =>
        Ok (<[varkwargs_name :=
                VDict (map (fun kv => (VStr kv.1, kv.2)) varkwargs)]>
              parsed_args)
    | None => Raise IndexError
    end
  else Ok parsed_args.

(** The body of [f] up to [parsed_args], the bindings of the call. *)
Definition parse_args (c : Code) (defaults args : list Value)
    (kwargs : list (string * Value)) : Result (gmap string Value) :=
  match bind_varargs c args (merged_args c defaults args kwargs) with
  | Ok parsed_args => bind_varkwargs c kwargs parsed_args
  | r => r
  end.

(** [f_locals = dict(self.locals); f_locals.update(parsed_args)]: a new
    dictionary, filled from the defining frame's locals as they are when
    the statement runs. *)
Definition seed_locals (defining_locals : nat)
    (parsed_args : gmap string Value) (st : Store)
  : Result (nat * Store) :=
  match st !! defining_locals with
  | Some l => Ok (alloc st (parsed_args ∪ l))
  | None => Raise Unmodelled
  end.

(** The closure [f], called with positional [args] and keyword
    [kwargs]; [run] is [Frame.run]. *)
Definition function_call (run : Frame -> Store -> Result (Value * Store))
    (fcode : Value) (defaults : list Value)
    (fbuiltins fglobals flocals : nat)
    (args : list Value) (kwargs : list (string * Value)) (st : Store)
  : Result (Value * Store) :=
  match fcode with
  | VCode c =>
      match parse_args c defaults args kwargs with
      | Ok parsed_args =>
          match seed_locals flocals parsed_args st with
          | Ok (f_locals, st') =>
              run (Frame_init c fbuiltins fglobals f_locals) st'
          | Raise e => Raise e
          | OutOfFuel => OutOfFuel
          end
      | Raise e => Raise e
      | OutOfFuel => OutOfFuel
      end
  | _ => Raise AttributeError
  end.

(** Calling a value popped from the stack: a function object runs [f];
    an exception class of the host builds an instance; anything else of
    the fragment is not callable. *)
Definition call_value (run : Frame -> Store -> Result (Value * Store))
  : Callee :=
  fun fn args kwargs st =>
    match fn with
    | VFunc _ fcode defaults b g l =>
        function_call run fcode defaults b g l args kwargs st
    | VExcClass cls =>
        match kwargs with
        | [] => Ok (VExcInst cls args, st)
        | _ => Raise TypeError
        end
    | _ => Raise TypeError
    end.

Definition invoke (call : Callee) (fn : Value) (args : list Value)
    (kwargs : list (string * Value)) : M Value :=
  fun fr st =>
    match call fn args kwargs st with
    | Ok (v, st') => Ok (v, fr, st')
    | Raise e => Raise e
    | OutOfFuel => OutOfFuel
    end.

Definition call_function_op (call : Callee) (arg : Z) : M Value :=
  let! arguments := popn arg in
  let! f := pop in
  let! r := invoke call f arguments [] in
  do! push [r] in ret VNone.

(** Keyword unpacking at a call accepts string keys only. *)
Fixpoint keywords_of_dict (d : list (Value * Value))
  : Result (list (string * Value)) :=
  match d with
  | [] => Ok []
  | (VStr k, v) :: d' =>
      match keywords_of_dict d' with
      | Ok r => Ok ((k, v) :: r)
      | e => e
      end
  | _ => Raise TypeError
  end.

Definition call_function_kw_op (call : Callee) (arg : Z) : M Value :=
  let! kw_names := pop in
  let! names := lift_result (py_iter kw_names) in
  let len := Z.of_nat (length names) in
  let! kw_values := popn len in
  let! kwargs := lift_result (dict_of_pairs (zip names kw_values) []) in
  let! posargs := popn (arg - len) in
  let! f := pop in
  let! kw := lift_result (keywords_of_dict kwargs) in
  let! r := invoke call f posargs kw in
  do! push [r] in ret VNone.

Definition make_function_op (arg : Z) : M Value :=
  let! name := pop in
  let! fcode := pop in
  let! defaults := popn arg in
  let! fr := get_frame in
  match name with
  | VStr qualname =>
      do! push [VFunc qualname fcode defaults
                      (builtins fr) (globals fr) (locals fr)] in
      ret VNone
  | _ => throw TypeError
  end.

(** ** Dispatch and the [run] loop *)

(** [getattr(self, opname.lower() + "_op")(argval)]. *)
Definition dispatch (call : Callee) (ins : Instr) : M Value :=
  match ins with
  | NOP => nop_op
  | LOAD_CONST c => load_const_op c
  | LOAD_NAME n => load_name_op n
  | LOAD_GLOBAL n => load_global_op n
  | LOAD_FAST n => load_fast_op n
  | STORE_NAME n => store_name_op n
  | STORE_FAST n => store_fast_op n
  | STORE_GLOBAL n => store_global_op n
  | DELETE_NAME n => delete_name_op n
  | DELETE_FAST n => delete_fast_op n
  | POP_TOP => pop_top_op
  | DUP_TOP => dup_top_op
  | DUP_TOP_TWO => dup_top_two_op
  | ROT_TWO => rot_two_op
  | ROT_THREE => rot_three_op
  | UNARY_NOT => unary_not_op
  | POP_JUMP_IF_TRUE t => pop_jump_if_true_op t
  | POP_JUMP_IF_FALSE t => pop_jump_if_false_op t
  | JUMP_IF_TRUE_OR_POP t => jump_if_true_or_pop_op t
  | JUMP_IF_FALSE_OR_POP t => jump_if_false_or_pop_op t
  | JUMP_FORWARD d => jump_forward_op d
  | JUMP_ABSOLUTE t => jump_absolute_op t
  | BUILD_TUPLE n => build_tuple_op n
  | BUILD_MAP n => build_map_op n
  | BUILD_CONST_KEY_MAP n => build_const_key_map_op n
  | CALL_FUNCTION n => call_function_op call n
  | CALL_FUNCTION_KW n => call_function_kw_op call n
  | MAKE_FUNCTION n => make_function_op n
  | RAISE_VARARGS n => raise_varargs_op n
  | RETURN_VALUE => return_value_op
  end.

(** The tail of one loop iteration, after the handler has returned
    [returned]: take the pending jump or move to the next instruction. *)
Definition after_handler (returned : Value) (fr : Frame) : Frame :=
  match jump fr with
  | Some target => set_jump None (set_counter target fr)
  | None => set_counter (counter fr + 2) fr
  end.

(** One iteration of the [while] loop of [run]. *)
Definition loop_iteration (call : Callee) (fr : Frame) (st : Store)
  : Result (Frame * Store) :=
  match py_index (co_instructions (code fr)) (counter fr / 2) with
  | None => Raise IndexError
  | Some instruction =>
      match dispatch call instruction fr st with
      | Ok (returned, fr', st') => Ok (after_handler returned fr', st')
      | Raise e => Raise e
      | OutOfFuel => OutOfFuel
      end
  end.

(** The first two assignments of [run]. *)
Definition run_prologue (fr : Frame) : Frame :=
  set_counter 0
    (set_bytecode_len (2 * Z.of_nat (length (co_instructions (code fr)))) fr).

(** The [while] loop of [run] and its [return self.return_value]; every
    iteration, in this frame or in a frame it calls, costs one unit of
    fuel. *)
Fixpoint run_loop (fuel : nat) (fr : Frame) (st : Store)
  : Result (Value * Store) :=
  match fuel with
  | O => OutOfFuel
  | S fuel' =>
      if counter fr <? bytecode_len fr then
        match loop_iteration
                (call_value (fun fr0 st0 => run_loop fuel' (run_prologue fr0) st0))
                fr st with
        | Ok (fr', st') => run_loop fuel' fr' st'
        | Raise e => Raise e
        | OutOfFuel => OutOfFuel
        end
      else Ok (return_value fr, st)
  end.

(** [Frame.run]. *)
Definition run (fuel : nat) (fr : Frame) (st : Store)
  : Result (Value * Store) :=
  run_loop fuel (run_prologue fr) st.

(** The callable semantics available to a frame that has [fuel] left. *)
Definition callee (fuel : nat) : Callee := call_value (run fuel).

(** ** [class VirtualMachine] *)

(** [VirtualMachine.run]: the builtins of the host are the first
    dictionary of the store, [globals_context] the second; the frame
    receives [globals_context] twice. *)
Definition VirtualMachine_frame (code_obj : Code)
    (host_builtins : gmap string Value) : Frame * Store :=
  let '(b, st) := alloc [] host_builtins in
  let '(globals_context, st) := alloc st ∅ in
  (Frame_init code_obj b globals_context globals_context, st).

Definition VirtualMachine_run (fuel : nat) (code_obj : Code)
    (host_builtins : gmap string Value) : Result Value :=
  let '(frame, st) := VirtualMachine_frame code_obj host_builtins in
  match run fuel frame st with
  | Ok (v, _) => Ok v
  | Raise e => Raise e
  | OutOfFuel => OutOfFuel
  end.

(** ** Notions used in the statements *)

(** [n] successive calls of [pop], the results in the order of the
    calls. *)
Fixpoint pop_times (n : nat) : M (list Value) :=
  match n with
  | O => ret []
  | S n' =>
      let! v := pop in
      let! vs := pop_times n' in
      ret (v :: vs)
  end.

(** Relations between the frame before and after a handler. *)
Definition same_env (fr fr' : Frame) : Prop :=
  code fr' = code fr /\ builtins fr' = builtins fr /\
  globals fr' = globals fr /\ locals fr' = locals fr.

Definition same_control (fr fr' : Frame) : Prop :=
  jump fr' = jump fr /\ counter fr' = counter fr /\
  bytecode_len fr' = bytecode_len fr /\ same_env fr fr'.

(** A preorder on frames that stack updates respect. *)
Class FrameRel (R : Frame -> Frame -> Prop) : Prop := {
  frame_rel_refl : forall fr, R fr fr;
  frame_rel_trans : forall a b c, R a b -> R b c -> R a c;
  frame_rel_stack : forall s fr, R fr (set_data_stack s fr)
}.

(** A computation whose successful runs relate the frames by [R]. *)
Definition keeps {A : Type} (R : Frame -> Frame -> Prop) (m : M A) : Prop :=
  forall fr st a fr' st', m fr st = Ok (a, fr', st') -> R fr fr'.

(** A computation whose successful runs return a value satisfying [P]. *)
Definition returns {A : Type} (P : A -> Prop) (m : M A) : Prop :=
  forall fr st a fr' st', m fr st = Ok (a, fr', st') -> P a.

(** ** Sample code objects, frames and stores *)

(** A frame of an empty code object holding a given operand stack; the
    builtins are dictionary 0, globals and locals dictionary 1. *)
Definition empty_code : Code := mkCode [] [] 0 0 0 0.

Definition frame_with_stack (s : list Value) : Frame :=
  set_data_stack s (Frame_init empty_code 0 1 1).

(** A top-level program: build an exception instance, raise it, then
    return 7. *)
Definition raise_then_return : Code :=
  mkCode [LOAD_NAME "ValueError"; LOAD_CONST (VStr "boom"); CALL_FUNCTION 1;
          RAISE_VARARGS 1; LOAD_CONST (VInt 7); RETURN_VALUE]
         [] 0 0 0 0.

Definition host_with_ValueError : gmap string Value :=
  {[ "ValueError" := VExcClass "ValueError" ]}.

(** Its frame when the loop reaches the raise instruction. *)
Definition frame_at_raise : Frame :=
  set_counter 6
    (set_data_stack [VExcInst "ValueError" [VStr "boom"]]
       (run_prologue (Frame_init raise_then_return 0 1 1))).

(** The code object of the specification's binding example: [a]
    positional-only, [b] positional-or-keyword, [c] keyword-only, varargs
    [args]; its body returns [b]. *)
Definition abc_code : Code :=
  mkCode [LOAD_FAST "b"; RETURN_VALUE] ["a"; "b"; "c"; "args"] 2 1 1 CO_VARARGS.

(** A top-level program that builds the function with the one default 5
    and calls it with the positional 1 and the keyword [c=9]. *)
Definition abc_program : Code :=
  mkCode [LOAD_CONST (VInt 5); LOAD_CONST (VCode abc_code);
          LOAD_CONST (VStr "f"); MAKE_FUNCTION 1; STORE_NAME "f";
          LOAD_NAME "f"; LOAD_CONST (VInt 1); LOAD_CONST (VInt 9);
          LOAD_CONST (VTuple [VStr "c"]); CALL_FUNCTION_KW 2; RETURN_VALUE]
         [] 0 0 0 0.

(** A function of one parameter [a] whose body returns 0 without reading
    it. *)
Definition const_zero_code : Code :=
  mkCode [LOAD_CONST (VInt 0); RETURN_VALUE] ["a"] 1 0 0 0.

(** A function without parameters whose body returns its local [x], and
    a top-level program that builds it, binds [x] afterwards and then
    calls it. *)
Definition reads_x_code : Code :=
  mkCode [LOAD_FAST "x"; RETURN_VALUE] [] 0 0 0 0.

Definition late_binding_program : Code :=
  mkCode [LOAD_CONST (VCode reads_x_code); LOAD_CONST (VStr "f");
          MAKE_FUNCTION 0; STORE_NAME "f";
          LOAD_CONST (VInt 1); STORE_NAME "x";
          LOAD_NAME "f"; CALL_FUNCTION 0; RETURN_VALUE]
         [] 0 0 0 0.

(** A store without builtins in which [x] is bound in dictionary 1. *)
Definition store_with_x : Store := [∅; {[ "x" := VInt 1 ]}].

(** ** Further methods of [Frame] *)

(** [peek]: [self.data_stack[i]]. *)
Definition peek (i : Z) : M Value :=
  let! fr := get_frame in
  match py_index (data_stack fr) i with
  | Some v => ret v
  | None => throw IndexError
  end.

(** [a, b = l]. *)
Definition unpack2 (l : list Value) : M (Value * Value) :=
  match l with
  | [a; b] => ret (a, b)
  | _ => throw ValueError
  end.

Definition rot_n_op (count : Z) : M Value :=
  let! tos := pop in
  let! toses := popn count in
  do! push [tos] in
  do! push toses in
  ret VNone.

(** [packed[::-1]] on the values that can be sliced. *)
Definition reversed_items (packed : Value) : Result (list Value) :=
  match packed with
  | VTuple l => Ok (rev l)
  | VStr s =>
      Ok (rev (map (fun a => VStr (String a EmptyString))
                   (list_ascii_of_string s)))
  | _ => Raise TypeError
  end.

Definition unpack_sequence_op : M Value :=
  let! packed := pop in
  let! items := lift_result (reversed_items packed) in
  do! push items in
  ret VNone.

(** An [int] operand; [bool] is a subclass of [int]. *)
Definition as_int (v : Value) : option Z :=
  match v with
  | VInt z => Some z
  | VBool b => Some (Z.b2z b)
  | _ => None
  end.

(** [a + b]: integer addition, concatenation of two strings or of two
    tuples. *)
Definition py_add (a b : Value) : Result Value :=
  match as_int a, as_int b with
  | Some x, Some y => Ok (VInt (x + y))
  | _, _ =>
      match a, b with
      | VStr x, VStr y => Ok (VStr (String.append x y))
      | VTuple x, VTuple y => Ok (VTuple (x ++ y))
      | _, _ => Raise TypeError
      end
  end.

(** [a - b]: defined on integers only in this fragment. *)
Definition py_sub (a b : Value) : Result Value :=
  match as_int a, as_int b with
  | Some x, Some y => Ok (VInt (x - y))
  | _, _ => Raise TypeError
  end.

Definition binary_add_op : M Value :=
  let! l := popn 2 in
  let! p := unpack2 l in
  let '(tos1, tos) := p in
  let! r := lift_result (py_add tos1 tos) in
  do! push [r] in
  ret VNone.

Definition binary_subtract_op : M Value :=
  let! l := popn 2 in
  let! p := unpack2 l in
  let '(tos1, tos) := p in
  let! r := lift_result (py_sub tos1 tos) in
  do! push [r] in
  ret VNone.

(** A frame ready to execute the instruction at [counter]: what [run]
    guarantees at the head of its loop. *)
Definition frame_at (c : Code) (b g l : nat) (pc : Z) (s : list Value) : Frame :=
  set_data_stack s (set_counter pc (run_prologue (Frame_init c b g l))).

(** Slots of a frame that a handler may leave as they are. *)
Definition same_program (fr fr' : Frame) : Prop :=
  bytecode_len fr' = bytecode_len fr /\ same_env fr fr'.

Definition same_return_value (fr fr' : Frame) : Prop :=
  return_value fr' = return_value fr.

Definition same_last_exception (fr fr' : Frame) : Prop :=
  last_exception fr' = last_exception fr.

(** Two function bodies without parameters: one binds a local and
    returns it, the other binds a global and returns [None]. *)
Definition local_setter (x : string) (v : Value) : Code :=
  mkCode [LOAD_CONST v; STORE_FAST x; LOAD_FAST x; RETURN_VALUE] [] 0 0 0 0.

Definition global_setter (x : string) (v : Value) : Code :=
  mkCode [LOAD_CONST v; STORE_GLOBAL x; LOAD_CONST VNone; RETURN_VALUE]
         [] 0 0 0 0.

(** The iterations of the [while] loop of [run]: the loop condition
    holds and the body turns a frame and store into the next ones (the
    calls made by the body run with some amount of fuel). *)
Inductive loop_reaches : Frame * Store -> Frame * Store -> Prop :=
| loop_reaches_here (fs : Frame * Store) : loop_reaches fs fs
| loop_reaches_iteration (fuel : nat) (fr fr1 : Frame) (st st1 : Store)
    (fs : Frame * Store) :
    counter fr < bytecode_len fr ->
    loop_iteration (callee fuel) fr st = Ok (fr1, st1) ->
    loop_reaches (fr1, st1) fs ->
    loop_reaches (fr, st) fs.

(** * Properties *)

(** ** The operand stack *)

Section Stack.
Variables (fr : Frame) (st : Store).

Lemma top_snoc (s : list Value) (v : Value) :
  top (set_data_stack (s ++ [v]) fr) st
  = Ok (v, set_data_stack (s ++ [v]) fr, st).
Proof.
  unfold top, bind, get_frame, ret. cbn. rewrite last_snoc. reflexivity.
Qed.

Lemma pop_snoc (s : list Value) (v : Value) :
  pop (set_data_stack (s ++ [v]) fr) st = Ok (v, set_data_stack s fr, st).
Proof.
  unfold pop, bind, get_frame, modify_frame, ret. cbn.
  rewrite last_snoc. cbn. rewrite removelast_last. reflexivity.
Qed.

End Stack.

Lemma set_data_stack_id (fr : Frame) : set_data_stack (data_stack fr) fr = fr.
Proof. destruct fr; reflexivity. Qed.

Lemma pop_times_snoc (returned rest : list Value) (fr : Frame) (st : Store) :
  pop_times (length returned) (set_data_stack (rest ++ returned) fr) st
  = Ok (rev returned, set_data_stack rest fr, st).
Proof.
  induction returned as [| v returned IH] using rev_ind.
  - cbn. rewrite app_nil_r. reflexivity.
  - rewrite length_app, Nat.add_comm. cbn [length Nat.add pop_times].
    unfold bind at 1. rewrite app_assoc, pop_snoc.
    unfold bind at 1. rewrite IH. cbn. rewrite rev_app_distr. reflexivity.
Qed.

Lemma slice_bound_neg (n len : Z) :
  0 < n <= len -> slice_bound (- n) len = len - n.
Proof.
  intros H. unfold slice_bound.
  destruct (Z.ltb_spec (- n) 0); lia.
Qed.

(** [popn] splits the stack where Python's [data_stack[-n:]] does. *)
Lemma popn_split (n : Z) (fr : Frame) (st : Store) :
  0 < n <= Z.of_nat (length (data_stack fr)) ->
  let k := (length (data_stack fr) - Z.to_nat n)%nat in
  popn n fr st
  = Ok (drop k (data_stack fr), set_data_stack (take k (data_stack fr)) fr, st).
Proof.
  intros H k. unfold popn.
  destruct (Z.ltb_spec 0 n) as [_ | ?]; [| lia].
  unfold bind, get_frame, modify_frame, ret, py_slice_from. cbn.
  rewrite slice_bound_neg by lia.
  replace (Z.to_nat (Z.of_nat (length (data_stack fr)) - n)) with k by lia.
  reflexivity.
Qed.

(** C8. [popn(0)] returns the empty list and leaves the frame as it is;
    for [0 < n <= depth], [popn(n)] cuts the stack into [rest ++ returned]
    with [returned] of length [n], hands back [returned] (deepest value
    first) and keeps [rest], and [returned] is the reverse of the list
    produced by [n] successive [pop()] calls, which leave the same
    stack. *)
Theorem popn_matches_reversed_pops :
  (forall (fr : Frame) (st : Store), popn 0 fr st = Ok ([], fr, st)) /\
  (forall (n : Z) (fr : Frame) (st : Store),
      0 < n <= Z.of_nat (length (data_stack fr)) ->
      exists returned rest : list Value,
        popn n fr st = Ok (returned, set_data_stack rest fr, st) /\
        data_stack fr = rest ++ returned /\
        Z.of_nat (length returned) = n /\
        Z.of_nat (length rest) = Z.of_nat (length (data_stack fr)) - n /\
        pop_times (Z.to_nat n) fr st
        = Ok (rev returned, set_data_stack rest fr, st)).
Proof.
  split; [reflexivity |].
  intros n fr st H.
  set (k := (length (data_stack fr) - Z.to_nat n)%nat).
  exists (drop k (data_stack fr)), (take k (data_stack fr)).
  assert (Hlen : length (drop k (data_stack fr)) = Z.to_nat n)
    by (rewrite length_drop; lia).
  repeat split.
  - apply popn_split, H.
  - symmetry. apply take_drop.
  - lia.
  - rewrite length_take. lia.
  - pose proof (pop_times_snoc (drop k (data_stack fr))
                  (take k (data_stack fr)) fr st) as Hp.
    rewrite take_drop, set_data_stack_id, Hlen in Hp. exact Hp.
Qed.

Lemma popn_matches_reversed_pops_witness :
  0 < 2 <= Z.of_nat (length (data_stack (frame_with_stack [VInt 1; VInt 2; VInt 3]))) /\
  exists returned rest : list Value,
    popn 2 (frame_with_stack [VInt 1; VInt 2; VInt 3]) []
    = Ok (returned,
          set_data_stack rest (frame_with_stack [VInt 1; VInt 2; VInt 3]), []) /\
    data_stack (frame_with_stack [VInt 1; VInt 2; VInt 3]) = rest ++ returned /\
    Z.of_nat (length returned) = 2 /\
    Z.of_nat (length rest)
    = Z.of_nat (length (data_stack (frame_with_stack [VInt 1; VInt 2; VInt 3]))) - 2 /\
    pop_times (Z.to_nat 2) (frame_with_stack [VInt 1; VInt 2; VInt 3]) []
    = Ok (rev returned,
          set_data_stack rest (frame_with_stack [VInt 1; VInt 2; VInt 3]), []).
Proof.
  split; [simpl; lia |].
  apply (proj2 popn_matches_reversed_pops 2
           (frame_with_stack [VInt 1; VInt 2; VInt 3]) []).
  simpl. lia.
Defined.

(** ** Conditional jumps that keep or pop the tested value *)

(** C3, as stated, fails for both handlers: [jump_if_true_or_pop_op] on a
    true value jumps and keeps it, [jump_if_false_or_pop_op] on a false
    value jumps and keeps it. *)
Lemma or_pop_claim_as_stated_fails :
  ~ (forall (target : Z) (fr : Frame) (st : Store)
            (r : Value) (fr' : Frame) (st' : Store),
        jump fr = None ->
        jump_if_true_or_pop_op target fr st = Ok (r, fr', st') ->
        (jump fr' = None -> data_stack fr' = data_stack fr) /\
        (jump fr' = Some target ->
         data_stack fr' = removelast (data_stack fr))) /\
  ~ (forall (target : Z) (fr : Frame) (st : Store)
            (r : Value) (fr' : Frame) (st' : Store),
        jump fr = None ->
        jump_if_false_or_pop_op target fr st = Ok (r, fr', st') ->
        (jump fr' = None -> data_stack fr' = data_stack fr) /\
        (jump fr' = Some target ->
         data_stack fr' = removelast (data_stack fr))).
Proof.
  split; intros H.
  - destruct (H 6 (frame_with_stack [VInt 1]) [] _ _ _ eq_refl eq_refl)
      as [_ H2].
    specialize (H2 eq_refl). discriminate H2.
  - destruct (H 6 (frame_with_stack [VInt 0]) [] _ _ _ eq_refl eq_refl)
      as [_ H2].
    specialize (H2 eq_refl). discriminate H2.
Qed.

(** C3, amended.  With the tested value [v] on top of the stack [s]:
    [jump_if_true_or_pop_op] sets the pending jump and leaves [v] on the
    stack when [v] is true, and pops [v] without jumping when it is false;
    [jump_if_false_or_pop_op] does the same with the test negated. *)
Theorem or_pop_keeps_on_jump_pops_otherwise
    (target : Z) (s : list Value) (v : Value) (fr : Frame) (st : Store) :
  jump_if_true_or_pop_op target (set_data_stack (s ++ [v]) fr) st
  = Ok (VNone,
        if truthy v
        then set_jump (Some target) (set_data_stack (s ++ [v]) fr)
        else set_data_stack s fr,
        st) /\
  jump_if_false_or_pop_op target (set_data_stack (s ++ [v]) fr) st
  = Ok (VNone,
        if truthy v
        then set_data_stack s fr
        else set_jump (Some target) (set_data_stack (s ++ [v]) fr),
        st).
Proof.
  unfold jump_if_true_or_pop_op, jump_if_false_or_pop_op.
  split; unfold bind at 1; rewrite top_snoc;
    destruct (truthy v); cbn [negb]; try reflexivity;
    unfold bind; rewrite pop_snoc; reflexivity.
Qed.

(** ** [raise_varargs_op] *)

Lemma pop_snoc2 (fr : Frame) (st : Store) (s : list Value) (a b : Value) :
  pop (set_data_stack (s ++ [a; b]) fr) st
  = Ok (b, set_data_stack (s ++ [a]) fr, st).
Proof. change (s ++ [a; b]) with (s ++ [a] ++ [b]). rewrite app_assoc. apply pop_snoc. Qed.

Lemma pop_snoc3 (fr : Frame) (st : Store) (s : list Value) (a b c : Value) :
  pop (set_data_stack (s ++ [a; b; c]) fr) st
  = Ok (c, set_data_stack (s ++ [a; b]) fr, st).
Proof. change (s ++ [a; b; c]) with (s ++ [a; b] ++ [c]). rewrite app_assoc. apply pop_snoc. Qed.

(** C7.  For [argc] 1, 2 and 3 the handler pops exactly [argc] values,
    read from the deepest as type, value, traceback; a popped type that
    is an exception instance becomes the value and its class the type;
    [last_exception] receives the three; the handler returns ["reraise"]
    exactly when the traceback slot holds a true value (it holds [None]
    unless [argc] is 3) and ["exception"] otherwise. *)
Theorem raise_varargs_pops_normalises_records
    (s : list Value) (exctype val tb : Value) (fr : Frame) (st : Store) :
  let typ :=
    if is_exception_instance exctype then type_of_instance exctype
    else exctype in
  let value (popped : Value) :=
    if is_exception_instance exctype then exctype else popped in
  raise_varargs_op 1 (set_data_stack (s ++ [exctype]) fr) st
  = Ok (VStr "exception",
        set_last_exception [typ; value VNone; VNone] (set_data_stack s fr),
        st) /\
  raise_varargs_op 2 (set_data_stack (s ++ [exctype; val]) fr) st
  = Ok (VStr "exception",
        set_last_exception [typ; value val; VNone] (set_data_stack s fr),
        st) /\
  raise_varargs_op 3 (set_data_stack (s ++ [exctype; val; tb]) fr) st
  = Ok (VStr (if truthy tb then "reraise" else "exception"),
        set_last_exception [typ; value val; tb] (set_data_stack s fr),
        st).
Proof.
  cbv zeta. unfold raise_varargs_op. cbn [Z.eqb Pos.eqb].
  repeat split.
  - unfold bind. rewrite pop_snoc. cbn.
    destruct (is_exception_instance exctype); reflexivity.
  - unfold bind. rewrite pop_snoc2, pop_snoc. cbn.
    destruct (is_exception_instance exctype); reflexivity.
  - unfold bind. rewrite pop_snoc3, pop_snoc2, pop_snoc. cbn.
    destruct (is_exception_instance exctype), (truthy tb); reflexivity.
Qed.

(** ** What a handler may change in its frame *)

#[export] Instance same_env_rel : FrameRel same_env.
Proof.
  split; unfold same_env.
  - intros fr. repeat split.
  - intros a b c (? & ? & ? & ?) (? & ? & ? & ?). repeat split; congruence.
  - intros s fr. repeat split.
Qed.

#[export] Instance same_control_rel : FrameRel same_control.
Proof.
  split; unfold same_control, same_env.
  - intros fr. repeat split.
  - intros a b c (? & ? & ? & ? & ? & ? & ?) (? & ? & ? & ? & ? & ? & ?).
    repeat split; congruence.
  - intros s fr. repeat split.
Qed.

Section Keeps.
Context (R : Frame -> Frame -> Prop) `{!FrameRel R}.

Lemma keeps_ret {A : Type} (a : A) : keeps R (ret a).
Proof. intros fr st a' fr' st' [= _ <- _]. apply frame_rel_refl. Qed.

Lemma keeps_throw {A : Type} (e : PyExc) : keeps R (@throw A e).
Proof. intros fr st a fr' st' H. discriminate H. Qed.

Lemma keeps_bind {A B : Type} (m : M A) (k : A -> M B) :
  keeps R m -> (forall a, keeps R (k a)) -> keeps R (bind m k).
Proof.
  intros Hm Hk fr st b fr' st' H. unfold bind in H.
  destruct (m fr st) as [[[a fr1] st1] | e |] eqn:E; try discriminate.
  eapply frame_rel_trans; [eapply Hm, E | eapply Hk, H].
Qed.

Lemma keeps_get_frame : keeps R get_frame.
Proof. intros fr st a fr' st' [= _ <- _]. apply frame_rel_refl. Qed.

Lemma keeps_get_store : keeps R get_store.
Proof. intros fr st a fr' st' [= _ <- _]. apply frame_rel_refl. Qed.

Lemma keeps_put_store (s : Store) : keeps R (put_store s).
Proof. intros fr st a fr' st' [= _ <- _]. apply frame_rel_refl. Qed.

Lemma keeps_lift_result {A : Type} (r : Result A) : keeps R (lift_result r).
Proof.
  intros fr st a fr' st' H. unfold lift_result in H.
  destruct r; inversion H; subst. apply frame_rel_refl.
Qed.

Lemma keeps_modify_frame (f : Frame -> Frame) :
  (forall fr, R fr (f fr)) -> keeps R (modify_frame f).
Proof. intros Hf fr st a fr' st' [= _ <- _]. apply Hf. Qed.

Lemma keeps_invoke (call : Callee) fn args kwargs :
  keeps R (invoke call fn args kwargs).
Proof.
  intros fr st a fr' st' H. unfold invoke in H.
  destruct (call fn args kwargs st) as [[v s1] | |]; inversion H; subst.
  apply frame_rel_refl.
Qed.
End Keeps.

(** Case analysis on the shape of a handler body. *)
Ltac keeps_step :=
  first
    [ match goal with |- FrameRel _ => exact _ end
    | match goal with |- forall _, _ => intros ? end
    | apply keeps_ret | apply keeps_throw | apply keeps_get_frame
    | apply keeps_get_store | apply keeps_put_store
    | apply keeps_lift_result | apply keeps_invoke
    | apply keeps_bind
    | match goal with
      | |- keeps _ (modify_frame (set_data_stack _)) =>
          apply keeps_modify_frame; try exact _; intros; apply frame_rel_stack
      | |- keeps _ (modify_frame (fun fr => set_data_stack _ fr)) =>
          apply keeps_modify_frame; try exact _; intros; apply frame_rel_stack
      | |- keeps _ (match ?x with _ => _ end) => destruct x
      end ].

Ltac keeps_tac := repeat keeps_step.

Section KeepsStack.
Context (R : Frame -> Frame -> Prop) `{!FrameRel R}.

Lemma keeps_top : keeps R top.
Proof. unfold top. keeps_tac. Qed.

Lemma keeps_pop : keeps R pop.
Proof. unfold pop. keeps_tac. Qed.

Lemma keeps_push (values : list Value) : keeps R (push values).
Proof. unfold push. keeps_tac. Qed.

Lemma keeps_popn (n : Z) : keeps R (popn n).
Proof. unfold popn. keeps_tac. Qed.

Lemma keeps_unpack3 (l : list Value) : keeps R (unpack3 l).
Proof. unfold unpack3. keeps_tac. Qed.

Lemma keeps_read_dict (r : nat) : keeps R (read_dict r).
Proof. unfold read_dict. keeps_tac. Qed.

Lemma keeps_write_dict (r : nat) d : keeps R (write_dict r d).
Proof. unfold write_dict. keeps_tac. Qed.
End KeepsStack.

Ltac keeps_handler :=
  repeat first
    [ apply keeps_top | apply keeps_pop | apply keeps_push | apply keeps_popn
    | apply keeps_unpack3 | apply keeps_read_dict | apply keeps_write_dict
    | keeps_step ].

(** [raise_varargs_op] touches the stack and [last_exception] only. *)
Lemma raise_varargs_keeps_control (argc : Z) :
  keeps same_control (raise_varargs_op argc).
Proof.
  unfold raise_varargs_op. keeps_handler.
  all: try (apply keeps_modify_frame; try exact _; intros; repeat split).
  all: keeps_handler.
Qed.

Lemma returns_bind {A B : Type} (P : B -> Prop) (m : M A) (k : A -> M B) :
  (forall a, returns P (k a)) -> returns P (bind m k).
Proof.
  intros Hk fr st b fr' st' H. unfold bind in H.
  destruct (m fr st) as [[[a fr1] st1] | e |]; try discriminate.
  eapply Hk, H.
Qed.

Lemma returns_ret {A : Type} (P : A -> Prop) (a : A) : P a -> returns P (ret a).
Proof. intros Ha fr st a' fr' st' [= <- _ _]. exact Ha. Qed.

(** The raise handler returns one of its two outcome strings. *)
Lemma raise_varargs_outcome (argc : Z) :
  returns (fun r => r = VStr "reraise" \/ r = VStr "exception")
          (raise_varargs_op argc).
Proof.
  unfold raise_varargs_op.
  apply returns_bind. intros [[exctype val] tb].
  destruct (is_exception_instance exctype);
    apply returns_bind; intros _;
    destruct (truthy tb); apply returns_ret; auto.
Qed.

(** Every handler leaves the code and the three dictionary references of
    its frame in place. *)
Lemma dispatch_keeps_env (call : Callee) (ins : Instr) :
  keeps same_env (dispatch call ins).
Proof.
  destruct ins; cbn [dispatch];
    unfold nop_op, load_const_op, load_name_op, load_global_op, load_fast_op,
      store_name_op, store_fast_op, store_global_op, delete_name_op,
      delete_fast_op, pop_top_op, dup_top_op, dup_top_two_op, rot_two_op,
      rot_three_op, unary_not_op, pop_jump_if_true_op, pop_jump_if_false_op,
      jump_if_true_or_pop_op, jump_if_false_or_pop_op, jump_forward_op,
      jump_absolute_op, build_tuple_op, build_map_op, build_const_key_map_op,
      call_function_op, call_function_kw_op, make_function_op,
      raise_varargs_op, return_value_op.
  all: keeps_handler.
  all: try (apply keeps_modify_frame; try exact _; intros; repeat split).
  all: keeps_handler.
  all: try (apply keeps_modify_frame; try exact _; intros; repeat split).
  all: keeps_handler.
Qed.

#[export] Instance same_return_value_rel : FrameRel same_return_value.
Proof.
  split; unfold same_return_value.
  - reflexivity.
  - intros a b c ? ?. congruence.
  - reflexivity.
Qed.

(** [raise_varargs_op] does not write the [return_value] slot. *)
Lemma raise_varargs_keeps_return_value (argc : Z) :
  keeps same_return_value (raise_varargs_op argc).
Proof.
  unfold raise_varargs_op. keeps_handler.
  all: try (apply keeps_modify_frame; try exact _; intros; reflexivity).
  all: keeps_handler.
Qed.

(** ** The [run] loop *)

Lemma run_loop_exit (fuel : nat) (fr : Frame) (st : Store) :
  bytecode_len fr <= counter fr ->
  run_loop (S fuel) fr st = Ok (return_value fr, st).
Proof.
  intros H. cbn [run_loop].
  destruct (Z.ltb_spec (counter fr) (bytecode_len fr)); [lia | reflexivity].
Qed.

Lemma run_loop_step (fuel : nat) (fr fr' : Frame) (st st' : Store) :
  counter fr < bytecode_len fr ->
  loop_iteration (callee fuel) fr st = Ok (fr', st') ->
  run_loop (S fuel) fr st = run_loop fuel fr' st'.
Proof.
  intros Hc H. cbn [run_loop].
  destruct (Z.ltb_spec (counter fr) (bytecode_len fr)); [| lia].
  unfold callee, run in H. rewrite H. reflexivity.
Qed.

Lemma loop_iteration_keeps_env (call : Callee) (fr fr' : Frame)
    (st st' : Store) :
  loop_iteration call fr st = Ok (fr', st') -> same_env fr fr'.
Proof.
  unfold loop_iteration. intros H.
  destruct (py_index _ _) as [ins |]; [| discriminate H].
  destruct (dispatch call ins fr st) as [[[r fr1] st1] | |] eqn:E;
    inversion H; subst.
  eapply (frame_rel_trans (R := same_env));
    [eapply dispatch_keeps_env, E |].
  unfold after_handler. destruct (jump fr1); repeat split.
Qed.

(** Whatever [run] returns is the [return_value] slot of the frame that
    the iterations of the loop reach when the loop condition fails. *)
Lemma run_loop_reaches_exit (fuel : nat) (fr : Frame) (st : Store)
    (v : Value) (st' : Store) :
  run_loop fuel fr st = Ok (v, st') ->
  exists fr_end : Frame,
    loop_reaches (fr, st) (fr_end, st') /\
    same_env fr fr_end /\
    bytecode_len fr_end <= counter fr_end /\
    v = return_value fr_end.
Proof.
  revert fr st. induction fuel as [| fuel IH]; intros fr st H;
    [discriminate H |].
  cbn [run_loop] in H.
  destruct (Z.ltb_spec (counter fr) (bytecode_len fr)) as [Hlt | Hge].
  - destruct (loop_iteration _ fr st) as [[fr1 st1] | |] eqn:E;
      try discriminate H.
    destruct (IH _ _ H) as (fr_end & Hreach & Henv & Hend & Hv).
    exists fr_end. split; [| split; [| split; assumption]].
    + eapply (loop_reaches_iteration fuel); [exact Hlt | exact E | exact Hreach].
    + eapply (frame_rel_trans (R := same_env));
        [eapply loop_iteration_keeps_env, E | exact Henv].
  - inversion H; subst. exists fr. split; [apply loop_reaches_here |].
    split; [apply frame_rel_refl |].
    split; [exact Hge | reflexivity].
Qed.

(** The iteration that executes a raise instruction. *)
Lemma raise_varargs_iteration (call : Callee) (fr : Frame) (st : Store)
    (argc : Z) (outcome : Value) (fr' : Frame) (st' : Store) :
  jump fr = None ->
  py_index (co_instructions (code fr)) (counter fr / 2)
  = Some (RAISE_VARARGS argc) ->
  raise_varargs_op argc fr st = Ok (outcome, fr', st') ->
  loop_iteration call fr st = Ok (set_counter (counter fr + 2) fr', st').
Proof.
  intros Hj Hi Hr.
  destruct (raise_varargs_keeps_control argc _ _ _ _ _ Hr) as (Hj' & Hc' & _).
  unfold loop_iteration. rewrite Hi. cbn [dispatch]. rewrite Hr.
  unfold after_handler. rewrite Hj', Hj, Hc'. reflexivity.
Qed.

(** The iteration that executes a return instruction, and the exit of
    the loop after it. *)
Lemma run_loop_return_at (fuel : nat) (fr : Frame) (st : Store)
    (s : list Value) (v : Value) :
  jump fr = None ->
  counter fr < bytecode_len fr ->
  py_index (co_instructions (code fr)) (counter fr / 2) = Some RETURN_VALUE ->
  run_loop (S (S fuel)) (set_data_stack (s ++ [v]) fr) st = Ok (v, st).
Proof.
  intros Hj Hlt Hi.
  erewrite run_loop_step; [| exact Hlt |].
  2:{ unfold loop_iteration. cbn [code counter set_data_stack].
      rewrite Hi. cbn [dispatch].
      unfold return_value_op. unfold bind at 1. rewrite pop_snoc.
      cbn [bind modify_frame ret]. unfold after_handler.
      cbn [jump set_counter set_return_value set_data_stack]. rewrite Hj.
      reflexivity. }
  rewrite run_loop_exit by (cbn; lia). reflexivity.
Qed.

(** C9.  The loop drops what a handler returns: the frame after an
    iteration is computed from the frame and store the handler leaves,
    whatever value it returned.  For the raise handler in particular: it
    returns one of its two outcome strings, sets no jump and leaves the
    [return_value] slot alone, and the iteration that executes it ends
    on the frame the handler left with the counter advanced by 2, so
    that the loop goes on with the next instruction.  When the loop
    condition fails the loop returns the [return_value] slot, and every
    value the loop returns is the [return_value] slot of the frame its
    iterations have reached at that point.  Hence a raise that is the
    last instruction makes the run return the [return_value] slot as it
    was before the raise, and a raise followed by [LOAD_CONST c;
    RETURN_VALUE] makes the run return [c]: never the outcome. *)
Theorem run_discards_handler_results :
  (forall (call : Callee) (fr : Frame) (st : Store) (ins : Instr)
          (returned : Value) (fr' : Frame) (st' : Store),
      py_index (co_instructions (code fr)) (counter fr / 2) = Some ins ->
      dispatch call ins fr st = Ok (returned, fr', st') ->
      loop_iteration call fr st = Ok (after_handler VNone fr', st')) /\
  (forall (call : Callee) (fuel : nat) (fr : Frame) (st : Store) (argc : Z)
          (outcome : Value) (fr' : Frame) (st' : Store),
      jump fr = None ->
      py_index (co_instructions (code fr)) (counter fr / 2)
      = Some (RAISE_VARARGS argc) ->
      raise_varargs_op argc fr st = Ok (outcome, fr', st') ->
      (outcome = VStr "reraise" \/ outcome = VStr "exception") /\
      jump fr' = None /\
      return_value fr' = return_value fr /\
      loop_iteration call fr st
      = Ok (set_counter (counter fr + 2) fr', st') /\
      (counter fr < bytecode_len fr ->
       run_loop (S fuel) fr st
       = run_loop fuel (set_counter (counter fr + 2) fr') st')) /\
  (forall (fuel : nat) (fr : Frame) (st : Store),
      bytecode_len fr <= counter fr ->
      run_loop (S fuel) fr st = Ok (return_value fr, st)) /\
  (forall (fuel : nat) (fr : Frame) (st : Store) (v : Value) (st' : Store),
      run_loop fuel fr st = Ok (v, st') ->
      exists fr_end : Frame,
        loop_reaches (fr, st) (fr_end, st') /\
        same_env fr fr_end /\
        bytecode_len fr_end <= counter fr_end /\
        v = return_value fr_end) /\
  (forall (fuel : nat) (fr : Frame) (st : Store) (argc : Z)
          (outcome : Value) (fr' : Frame) (st' : Store),
      jump fr = None ->
      counter fr < bytecode_len fr <= counter fr + 2 ->
      py_index (co_instructions (code fr)) (counter fr / 2)
      = Some (RAISE_VARARGS argc) ->
      raise_varargs_op argc fr st = Ok (outcome, fr', st') ->
      run_loop (S (S fuel)) fr st = Ok (return_value fr, st')) /\
  (forall (fuel : nat) (fr : Frame) (st : Store) (argc : Z) (c : Value)
          (outcome : Value) (fr' : Frame) (st' : Store),
      jump fr = None ->
      counter fr + 4 < bytecode_len fr ->
      py_index (co_instructions (code fr)) (counter fr / 2)
      = Some (RAISE_VARARGS argc) ->
      py_index (co_instructions (code fr)) ((counter fr + 2) / 2)
      = Some (LOAD_CONST c) ->
      py_index (co_instructions (code fr)) ((counter fr + 4) / 2)
      = Some RETURN_VALUE ->
      raise_varargs_op argc fr st = Ok (outcome, fr', st') ->
      run_loop (S (S (S (S fuel)))) fr st = Ok (c, st')).
Proof.
  split; [| split; [| split; [| split; [| split]]]].
  - intros call fr st ins returned fr' st' Hi Hd.
    unfold loop_iteration. rewrite Hi, Hd. reflexivity.
  - intros call fuel fr st argc outcome fr' st' Hj Hi Hr.
    destruct (raise_varargs_keeps_control argc _ _ _ _ _ Hr)
      as (Hj' & Hc' & _).
    split; [exact (raise_varargs_outcome argc _ _ _ _ _ Hr) |].
    split; [congruence |].
    split; [exact (raise_varargs_keeps_return_value argc _ _ _ _ _ Hr) |].
    split; [eapply raise_varargs_iteration; eassumption |].
    intros Hc. apply run_loop_step; [exact Hc |].
    eapply raise_varargs_iteration; eassumption.
  - apply run_loop_exit.
  - apply run_loop_reaches_exit.
  - intros fuel fr st argc outcome fr' st' Hj [Hlt Hlast] Hi Hr.
    destruct (raise_varargs_keeps_control argc _ _ _ _ _ Hr)
      as (_ & _ & Hlen & _).
    erewrite run_loop_step;
      [| exact Hlt | eapply raise_varargs_iteration; eassumption].
    rewrite run_loop_exit by (cbn [counter bytecode_len set_counter]; lia).
    cbn [return_value set_counter].
    rewrite (raise_varargs_keeps_return_value argc _ _ _ _ _ Hr).
    reflexivity.
  - intros fuel fr st argc c outcome fr' st' Hj Hlt Hi Hload Hret Hr.
    destruct (raise_varargs_keeps_control argc _ _ _ _ _ Hr)
      as (Hj' & Hc' & Hlen & Hcode & _).
    rewrite Hj in Hj'.
    erewrite run_loop_step;
      [| lia | eapply raise_varargs_iteration; eassumption].
    erewrite run_loop_step
      with (fr' := set_data_stack (data_stack fr' ++ [c])
                     (set_counter (counter fr + 4) fr'));
      [| cbn [counter bytecode_len set_counter]; lia |].
    2:{ unfold loop_iteration. cbn [code counter set_counter].
        rewrite Hcode, Hload. cbn [dispatch].
        unfold load_const_op, bind, push, modify_frame, ret, after_handler.
        cbn [jump set_counter set_data_stack data_stack counter].
        rewrite Hj'.
        replace (counter fr + 2 + 2) with (counter fr + 4) by lia.
        reflexivity. }
    apply run_loop_return_at; cbn [jump counter bytecode_len code set_counter].
    + exact Hj'.
    + lia.
    + rewrite Hcode. exact Hret.
Qed.

Lemma run_discards_handler_results_witness :
  (jump frame_at_raise = None /\
   counter frame_at_raise + 4 < bytecode_len frame_at_raise /\
   py_index (co_instructions (code frame_at_raise))
            (counter frame_at_raise / 2) = Some (RAISE_VARARGS 1) /\
   py_index (co_instructions (code frame_at_raise))
            ((counter frame_at_raise + 2) / 2) = Some (LOAD_CONST (VInt 7)) /\
   py_index (co_instructions (code frame_at_raise))
            ((counter frame_at_raise + 4) / 2) = Some RETURN_VALUE /\
   raise_varargs_op 1 frame_at_raise [host_with_ValueError; ∅]
   = Ok (VStr "exception",
         set_last_exception
           [VExcClass "ValueError"; VExcInst "ValueError" [VStr "boom"]; VNone]
           (set_data_stack [] frame_at_raise),
         [host_with_ValueError; ∅])) /\
  run_loop 4 frame_at_raise [host_with_ValueError; ∅]
  = Ok (VInt 7, [host_with_ValueError; ∅]).
Proof.
  assert (H : jump frame_at_raise = None /\
   counter frame_at_raise + 4 < bytecode_len frame_at_raise /\
   py_index (co_instructions (code frame_at_raise))
            (counter frame_at_raise / 2) = Some (RAISE_VARARGS 1) /\
   py_index (co_instructions (code frame_at_raise))
            ((counter frame_at_raise + 2) / 2) = Some (LOAD_CONST (VInt 7)) /\
   py_index (co_instructions (code frame_at_raise))
            ((counter frame_at_raise + 4) / 2) = Some RETURN_VALUE /\
   raise_varargs_op 1 frame_at_raise [host_with_ValueError; ∅]
   = Ok (VStr "exception",
         set_last_exception
           [VExcClass "ValueError"; VExcInst "ValueError" [VStr "boom"]; VNone]
           (set_data_stack [] frame_at_raise),
         [host_with_ValueError; ∅])).
  { repeat split. }
  split; [exact H |].
  destruct H as (H1 & H2 & H3 & H4 & H5 & H6).
  exact (proj2 (proj2 (proj2 (proj2 (proj2 run_discards_handler_results))))
           0%nat _ _ _ _ _ _ _ H1 H2 H3 H4 H5 H6).
Defined.

(** The program above runs past its raise instruction and returns 7. *)
Example raise_then_return_runs :
  VirtualMachine_run 7 raise_then_return host_with_ValueError = Ok (VInt 7).
Proof. vm_compute. reflexivity. Qed.

(** ** Shared dictionaries *)

Lemma read_dict_ok (r : nat) (d : gmap string Value) (fr : Frame) (st : Store) :
  st !! r = Some d -> read_dict r fr st = Ok (d, fr, st).
Proof. intros H. unfold read_dict, bind, get_store, ret. rewrite H. reflexivity. Qed.

Lemma write_dict_ok (r : nat) (d d' : gmap string Value)
    (fr : Frame) (st : Store) :
  st !! r = Some d -> write_dict r d' fr st = Ok (tt, fr, <[r := d']> st).
Proof.
  intros H. unfold write_dict, bind, get_store, put_store. rewrite H.
  reflexivity.
Qed.

Lemma store_lookup_insert (r : nat) (d d' : gmap string Value) (st : Store) :
  st !! r = Some d -> <[r := d']> st !! r = Some d'.
Proof. intros H. apply list_lookup_insert_eq. eapply lookup_lt_Some, H. Qed.

Section NameHandlers.
Variables (fr : Frame) (st : Store).

Lemma store_name_ok (x : string) (s : list Value) (v : Value)
    (d : gmap string Value) :
  st !! locals fr = Some d ->
  store_name_op x (set_data_stack (s ++ [v]) fr) st
  = Ok (VNone, set_data_stack s fr, <[locals fr := <[x := v]> d]> st).
Proof.
  intros H. unfold store_name_op.
  unfold bind at 1. rewrite pop_snoc.
  unfold bind at 1. cbn [get_frame locals set_data_stack].
  unfold bind at 1. rewrite (read_dict_ok _ d) by exact H.
  unfold bind. rewrite (write_dict_ok _ d) by exact H. reflexivity.
Qed.

Lemma store_global_ok (x : string) (s : list Value) (v : Value)
    (d : gmap string Value) :
  st !! globals fr = Some d ->
  store_global_op x (set_data_stack (s ++ [v]) fr) st
  = Ok (VNone, set_data_stack s fr, <[globals fr := <[x := v]> d]> st).
Proof.
  intros H. unfold store_global_op.
  unfold bind at 1. rewrite pop_snoc.
  unfold bind at 1. cbn [get_frame globals set_data_stack].
  unfold bind at 1. rewrite (read_dict_ok _ d) by exact H.
  unfold bind. rewrite (write_dict_ok _ d) by exact H. reflexivity.
Qed.

Lemma load_global_ok (x : string) (v : Value) (d : gmap string Value) :
  st !! globals fr = Some d -> d !! x = Some v ->
  load_global_op x fr st
  = Ok (VNone, set_data_stack (data_stack fr ++ [v]) fr, st).
Proof.
  intros H Hx. unfold load_global_op.
  unfold bind at 1. cbn [get_frame].
  unfold bind at 1. rewrite (read_dict_ok _ d) by exact H.
  rewrite Hx. reflexivity.
Qed.

Lemma load_fast_ok (x : string) (v : Value) (d : gmap string Value) :
  x ∉ [".0"; ".1"; ".2"] ->
  st !! locals fr = Some d -> d !! x = Some v ->
  load_fast_op x fr st
  = Ok (VNone, set_data_stack (data_stack fr ++ [v]) fr, st).
Proof.
  intros Hn H Hx. unfold load_fast_op.
  rewrite bool_decide_eq_false_2 by exact Hn.
  unfold bind at 1. cbn [get_frame].
  unfold bind at 1. rewrite (read_dict_ok _ d) by exact H.
  rewrite Hx. reflexivity.
Qed.

Lemma delete_name_ok (x : string) (v : Value) (d : gmap string Value) :
  st !! globals fr = Some d -> d !! x = Some v ->
  delete_name_op x fr st = Ok (VNone, fr, <[globals fr := delete x d]> st).
Proof.
  intros H Hx. unfold delete_name_op.
  unfold bind at 1. cbn [get_frame].
  unfold bind at 1. rewrite (read_dict_ok _ d) by exact H.
  rewrite Hx. unfold bind. rewrite (write_dict_ok _ d) by exact H.
  reflexivity.
Qed.

Lemma delete_fast_ok (x : string) (v : Value) (d : gmap string Value) :
  st !! locals fr = Some d -> d !! x = Some v ->
  delete_fast_op x fr st = Ok (VNone, fr, <[locals fr := delete x d]> st).
Proof.
  intros H Hx. unfold delete_fast_op.
  unfold bind at 1. cbn [get_frame].
  unfold bind at 1. rewrite (read_dict_ok _ d) by exact H.
  rewrite Hx. unfold bind. rewrite (write_dict_ok _ d) by exact H.
  reflexivity.
Qed.
End NameHandlers.

(** C10.  [VirtualMachine.run] hands one dictionary reference to the
    frame as both [globals] and [locals], and no handler changes either
    reference.  In a frame where the two coincide, whose dictionary is
    [d]: [store_name x] of a value [v] writes [x] into [d]; [load_global
    x] then pushes [v]; [delete_name x] then succeeds and removes [x];
    and in the other direction a name written by [store_global] is read
    by [load_fast] and deleted by [delete_fast], after which [load_fast]
    finds it unbound. *)
Theorem toplevel_globals_are_locals :
  (forall (code_obj : Code) (host_builtins : gmap string Value),
      let '(frame, st) := VirtualMachine_frame code_obj host_builtins in
      locals frame = globals frame /\ st !! globals frame = Some ∅) /\
  (forall (call : Callee) (ins : Instr) (fr : Frame) (st : Store)
          (r : Value) (fr' : Frame) (st' : Store),
      locals fr = globals fr ->
      dispatch call ins fr st = Ok (r, fr', st') ->
      locals fr' = globals fr') /\
  (forall (fr : Frame) (st : Store) (d : gmap string Value)
          (x : string) (v : Value) (s : list Value),
      locals fr = globals fr ->
      st !! globals fr = Some d ->
      let bound := <[globals fr := <[x := v]> d]> st in
      let unbound := <[globals fr := delete x d]> st in
      store_name_op x (set_data_stack (s ++ [v]) fr) st
      = Ok (VNone, set_data_stack s fr, bound) /\
      store_global_op x (set_data_stack (s ++ [v]) fr) st
      = Ok (VNone, set_data_stack s fr, bound) /\
      load_global_op x (set_data_stack s fr) bound
      = Ok (VNone, set_data_stack (s ++ [v]) fr, bound) /\
      (x ∉ [".0"; ".1"; ".2"] ->
       load_fast_op x (set_data_stack s fr) bound
       = Ok (VNone, set_data_stack (s ++ [v]) fr, bound)) /\
      delete_name_op x (set_data_stack s fr) bound
      = Ok (VNone, set_data_stack s fr, unbound) /\
      delete_fast_op x (set_data_stack s fr) bound
      = Ok (VNone, set_data_stack s fr, unbound) /\
      (x ∉ [".0"; ".1"; ".2"] ->
       load_fast_op x (set_data_stack s fr) unbound
       = Raise UnboundLocalError)).
Proof.
  split; [| split].
  - intros code_obj host_builtins. cbn. split; reflexivity.
  - intros call ins fr st r fr' st' Heq H.
    destruct (dispatch_keeps_env call ins _ _ _ _ _ H) as (_ & _ & Hg & Hl).
    congruence.
  - intros fr st d x v s Heq Hd. cbv zeta.
    assert (Hb : <[globals fr := <[x := v]> d]> st !! globals fr
                 = Some (<[x := v]> d))
      by (eapply store_lookup_insert, Hd).
    assert (Hu : <[globals fr := delete x d]> st !! globals fr
                 = Some (delete x d))
      by (eapply store_lookup_insert, Hd).
    assert (Hdel : <[globals fr := delete x (<[x := v]> d)]>
                     (<[globals fr := <[x := v]> d]> st)
                   = <[globals fr := delete x d]> st).
    { rewrite list_insert_insert_eq, delete_insert_eq. reflexivity. }
    repeat split.
    + rewrite (store_name_ok _ _ _ _ _ d) by (rewrite Heq; exact Hd).
      rewrite Heq. reflexivity.
    + apply store_global_ok, Hd.
    + erewrite load_global_ok; [reflexivity | exact Hb | apply lookup_insert_eq].
    + intros Hx. erewrite load_fast_ok;
        [reflexivity | exact Hx | cbn [locals set_data_stack]; rewrite Heq; exact Hb
        | apply lookup_insert_eq].
    + erewrite delete_name_ok;
        [cbn [globals set_data_stack]; rewrite Hdel; reflexivity
        | exact Hb | apply lookup_insert_eq].
    + erewrite delete_fast_ok;
        [cbn [locals set_data_stack]; rewrite Heq, Hdel; reflexivity
        | cbn [locals set_data_stack]; rewrite Heq; exact Hb
        | apply lookup_insert_eq].
    + intros Hx. unfold load_fast_op. rewrite bool_decide_eq_false_2 by exact Hx.
      unfold bind at 1. cbn [get_frame].
      unfold bind at 1. cbn [locals set_data_stack].
      rewrite (read_dict_ok _ (delete x d)) by (rewrite Heq; exact Hu).
      rewrite lookup_delete_eq. reflexivity.
Qed.

Lemma toplevel_globals_are_locals_witness :
  (locals (frame_with_stack []) = globals (frame_with_stack []) /\
   [∅; ∅] !! globals (frame_with_stack []) = Some (∅ : gmap string Value)) /\
  store_name_op "x" (set_data_stack ([] ++ [VInt 1]) (frame_with_stack []))
    [∅; ∅]
  = Ok (VNone, set_data_stack [] (frame_with_stack []),
        <[globals (frame_with_stack []) := <["x" := VInt 1]> ∅]> [∅; ∅]) /\
  load_global_op "x" (set_data_stack [] (frame_with_stack []))
    (<[globals (frame_with_stack []) := <["x" := VInt 1]> ∅]> [∅; ∅])
  = Ok (VNone, set_data_stack ([] ++ [VInt 1]) (frame_with_stack []),
        <[globals (frame_with_stack []) := <["x" := VInt 1]> ∅]> [∅; ∅]).
Proof.
  assert (H : locals (frame_with_stack []) = globals (frame_with_stack []) /\
     [∅; ∅] !! globals (frame_with_stack []) = Some (∅ : gmap string Value))
    by (split; reflexivity).
  split; [exact H |].
  destruct H as [H1 H2].
  destruct (proj2 (proj2 toplevel_globals_are_locals)
              (frame_with_stack []) [∅; ∅] ∅ "x" (VInt 1) [] H1 H2)
    as (Hs & _ & Hl & _).
  split; [exact Hs | exact Hl].
Defined.

(** ** [build_map_op] *)

Lemma popn_snoc (returned rest : list Value) (fr : Frame) (st : Store) :
  returned <> [] ->
  popn (Z.of_nat (length returned)) (set_data_stack (rest ++ returned) fr) st
  = Ok (returned, set_data_stack rest fr, st).
Proof.
  intros Hne.
  assert (0 < length returned)%nat by (destruct returned; [done | cbn; lia]).
  rewrite popn_split by (cbn [data_stack set_data_stack]; rewrite length_app; lia).
  cbn [data_stack set_data_stack]. rewrite length_app.
  replace (length rest + length returned - Z.to_nat (Z.of_nat (length returned)))%nat
    with (length rest) by lia.
  rewrite drop_app_length, take_app_length. reflexivity.
Qed.

(** C4 at [count = 2].  On the stack [.. "a" 1 "b" 2] the handler pops the
    four values and pushes a dictionary with three entries: the pair
    [(1, "b")], made of the first value and the second key, sits between
    the two expected ones.  When the first value is not hashable (an
    empty dict here) the handler raises [TypeError]. *)
Theorem build_map_pairs_overlap (s : list Value) (fr : Frame) (st : Store) :
  build_map_op 2
    (set_data_stack (s ++ [VStr "a"; VInt 1; VStr "b"; VInt 2]) fr) st
  = Ok (VNone,
        set_data_stack
          (s ++ [VDict [(VStr "a", VInt 1); (VInt 1, VStr "b");
                        (VStr "b", VInt 2)]]) fr,
        st) /\
  build_map_op 2
    (set_data_stack (s ++ [VStr "a"; VDict []; VStr "b"; VInt 2]) fr) st
  = Raise TypeError.
Proof.
  unfold build_map_op. split; unfold bind at 1.
  - rewrite (popn_snoc [VStr "a"; VInt 1; VStr "b"; VInt 2]) by discriminate.
    reflexivity.
  - rewrite (popn_snoc [VStr "a"; VDict []; VStr "b"; VInt 2]) by discriminate.
    reflexivity.
Qed.

(** ** Default values *)

(** C1 at the input the specification gives.  The one default is paired with
    [a], not with [b]: the names are cut from
    [co_kwonlyargcount - len(defaults)], which is 0 here.  The call with
    positional [(1,)] and keyword [c=9] therefore binds [a], [c] and
    [args] and leaves [b] unbound, and the body, which loads [b], raises
    [UnboundLocalError]; the call with positional [(1, 2, 3)] binds all
    four names. *)
Theorem default_paired_with_first_name :
  defaults_names abc_code [VInt 5] = ["a"; "b"] /\
  default_mapping abc_code [VInt 5] = {[ "a" := VInt 5 ]} /\
  parse_args abc_code [VInt 5] [VInt 1] [("c", VInt 9)]
  = Ok (<["a" := VInt 1]> (<["c" := VInt 9]> {[ "args" := VTuple [] ]})) /\
  (<["a" := VInt 1]> (<["c" := VInt 9]> {[ "args" := VTuple [] ]})
   : gmap string Value) !! "b" = None /\
  parse_args abc_code [VInt 5] [VInt 1; VInt 2; VInt 3] [("c", VInt 9)]
  = Ok (<["a" := VInt 1]> (<["b" := VInt 2]> (<["c" := VInt 9]>
          {[ "args" := VTuple [VInt 3] ]}))) /\
  VirtualMachine_run 20 abc_program ∅ = Raise UnboundLocalError.
Proof.
  repeat split; vm_compute; reflexivity.
Qed.

(** ** Slices and indices at natural-number bounds *)

Lemma py_slice_nat {A : Type} (a b : nat) (l : list A) :
  py_slice (Z.of_nat a) (Z.of_nat b) l = take (b - a) (drop a l).
Proof.
  unfold py_slice, slice_bound.
  destruct (Z.ltb_spec (Z.of_nat a) 0); [lia |].
  destruct (Z.ltb_spec (Z.of_nat b) 0); [lia |].
  destruct (Nat.le_gt_cases (length l) a) as [Hge | Hlt].
  - rewrite (drop_ge l a) by exact Hge.
    rewrite drop_ge by lia. rewrite !take_nil. reflexivity.
  - replace (Z.to_nat (Z.min (Z.of_nat a) (Z.of_nat (length l)))) with a by lia.
    destruct (Nat.le_gt_cases b (length l)).
    + f_equal. lia.
    + rewrite !take_ge by (rewrite length_drop; lia). reflexivity.
Qed.

Lemma py_slice_from_nat {A : Type} (a : nat) (l : list A) :
  py_slice_from (Z.of_nat a) l = drop a l.
Proof.
  unfold py_slice_from, slice_bound.
  destruct (Z.ltb_spec (Z.of_nat a) 0); [lia |].
  destruct (Nat.le_gt_cases (length l) a) as [Hge | Hlt].
  - rewrite (drop_ge l a) by exact Hge. apply drop_ge. lia.
  - f_equal. lia.
Qed.

Lemma py_index_nat {A : Type} (l : list A) (i : nat) :
  py_index l (Z.of_nat i) = l !! i.
Proof.
  unfold py_index.
  destruct (Z.ltb_spec (Z.of_nat i) 0); [lia |].
  destruct (Z.leb_spec 0 (Z.of_nat i)); [| lia].
  destruct (Z.ltb_spec (Z.of_nat i) (Z.of_nat (length l))); cbn [andb].
  - rewrite Nat2Z.id. reflexivity.
  - symmetry. apply lookup_ge_None. lia.
Qed.

Lemma take_drop_take {A : Type} (a b n : nat) (l : list A) :
  (b <= n)%nat -> take (b - a) (drop a (take n l)) = take (b - a) (drop a l).
Proof.
  intros Hb. destruct (Nat.le_gt_cases b a) as [Hle | Hlt].
  - replace (b - a)%nat with 0%nat by lia. reflexivity.
  - rewrite !take_drop_commute, take_take. do 2 f_equal. lia.
Qed.

Lemma elem_of_take_drop {A : Type} (x : A) (k a : nat) (l : list A) :
  x ∈ take k (drop a l) -> x ∈ take (a + k) l.
Proof.
  rewrite !elem_of_take. intros (i & Hi & Hlt).
  rewrite lookup_drop in Hi. exists (a + i)%nat. split; [exact Hi | lia].
Qed.

Lemma elem_of_take_le {A : Type} (x : A) (n m : nat) (l : list A) :
  (n <= m)%nat -> x ∈ take n l -> x ∈ take m l.
Proof.
  rewrite !elem_of_take. intros Hle (i & Hi & Hlt).
  exists i. split; [exact Hi | lia].
Qed.

(** ** Keys of the dictionaries built by [f] *)

Ltac not_in_strings :=
  let Hin := fresh "Hin" in
  intros Hin;
  repeat (apply elem_of_cons in Hin as [Hin | Hin]; [discriminate Hin |]);
  apply elem_of_nil in Hin; exact Hin.

Ltac nodup_strings :=
  repeat (apply NoDup_cons_2; [not_in_strings |]); apply NoDup_nil_2.

Lemma foldl_insert_lookup (pairs : list (string * Value))
    (acc : gmap string Value) (p : string) :
  is_Some (foldl (fun m kv => <[kv.1 := kv.2]> m) acc pairs !! p) ->
  is_Some (acc !! p) \/ p ∈ pairs.*1.
Proof.
  revert acc. induction pairs as [| [k v] pairs IH]; intros acc H; cbn in *.
  - left. exact H.
  - destruct (IH _ H) as [Hacc | Hin].
    + destruct (decide (k = p)) as [-> | Hne].
      * right. apply list_elem_of_here.
      * left. rewrite lookup_insert_ne in Hacc by exact Hne. exact Hacc.
    + right. apply list_elem_of_further, Hin.
Qed.

Lemma zip_fst_take {A B : Type} (l : list A) (k : list B) :
  (zip l k).*1 = take (length k) l.
Proof.
  revert k. induction l as [| x l IH]; intros [| y k]; cbn; try reflexivity.
  f_equal. apply IH.
Qed.

Lemma dict_zip_lookup (names : list string) (values : list Value) (p : string) :
  is_Some (dict_zip names values !! p) -> p ∈ take (length values) names.
Proof.
  intros H. unfold dict_zip in H.
  destruct (foldl_insert_lookup _ _ _ H) as [He | Hin].
  - rewrite lookup_empty in He. destruct He as [? He]. discriminate He.
  - rewrite zip_fst_take in Hin. exact Hin.
Qed.

Lemma distribute_kwargs_keys (c : Code) (kwargs : list (string * Value))
    (p : string) :
  is_Some ((distribute_kwargs c kwargs).1.1 !! p) \/
  is_Some ((distribute_kwargs c kwargs).1.2 !! p) ->
  p ∈ kwargs.*1.
Proof.
  unfold distribute_kwargs.
  assert (G : forall acc : gmap string Value * gmap string Value
                           * list (string * Value),
             is_Some ((foldl (fun acc kv =>
               let '(pk, ko, vk) := acc in
               if bool_decide (kv.1 ∈ pos_or_kw_names c)
               then (<[kv.1 := kv.2]> pk, ko, vk)
               else if bool_decide (kv.1 ∈ kwonly_names c)
               then (pk, <[kv.1 := kv.2]> ko, vk)
               else (pk, ko, kw_setitem kv.1 kv.2 vk)) acc kwargs).1.1 !! p) \/
             is_Some ((foldl (fun acc kv =>
               let '(pk, ko, vk) := acc in
               if bool_decide (kv.1 ∈ pos_or_kw_names c)
               then (<[kv.1 := kv.2]> pk, ko, vk)
               else if bool_decide (kv.1 ∈ kwonly_names c)
               then (pk, <[kv.1 := kv.2]> ko, vk)
               else (pk, ko, kw_setitem kv.1 kv.2 vk)) acc kwargs).1.2 !! p) ->
             is_Some (acc.1.1 !! p) \/ is_Some (acc.1.2 !! p) \/ p ∈ kwargs.*1).
  { induction kwargs as [| [k v] kwargs IH]; intros [[pk ko] vk] H; cbn in *.
    - tauto.
    - destruct (decide (k = p)) as [-> | Hne].
      { right. right. apply list_elem_of_here. }
      destruct (IH _ H) as [H1 | [H1 | H1]].
      + repeat case_bool_decide; cbn in H1;
          rewrite ?lookup_insert_ne in H1 by exact Hne; tauto.
      + repeat case_bool_decide; cbn in H1;
          rewrite ?lookup_insert_ne in H1 by exact Hne; tauto.
      + right. right. apply list_elem_of_further, H1. }
  intros H. destruct (G _ H) as [He | [He | Hin]]; [| | exact Hin];
    cbn in He; rewrite lookup_empty in He; destruct He as [? He];
    discriminate He.
Qed.

Lemma merged_args_lookup (c : Code) (defaults args : list Value)
    (kwargs : list (string * Value)) (p : string) :
  is_Some (merged_args c defaults args kwargs !! p) ->
  is_Some (default_mapping c defaults !! p) \/
  p ∈ take (length args `min` Nat.max (co_argcount c) (co_posonlyargcount c))
         (co_varnames c) \/
  p ∈ kwargs.*1.
Proof.
  unfold merged_args.
  pose proof (distribute_kwargs_keys c kwargs p) as Hkw.
  destruct (distribute_kwargs c kwargs) as [[pk ko] vk]. cbn in Hkw.
  rewrite !lookup_union_is_Some.
  intros [[Hko | [Hpk | [Hpos | Hposonly]]] | Hdef]; [tauto | tauto | | | tauto];
    right; left.
  - apply dict_zip_lookup in Hpos.
    unfold pos_or_kw_names in Hpos. rewrite !py_slice_nat in Hpos.
    rewrite take_take, length_take, length_drop in Hpos.
    destruct (Nat.le_gt_cases (length args) (co_posonlyargcount c)).
    + replace (length args - co_posonlyargcount c)%nat with 0%nat in Hpos by lia.
      rewrite Nat.min_0_r, Nat.min_0_l in Hpos. cbn [take] in Hpos.
      apply elem_of_nil in Hpos. destruct Hpos.
    + apply elem_of_take_drop in Hpos.
      eapply elem_of_take_le; [| exact Hpos]. lia.
  - apply dict_zip_lookup in Hposonly.
    unfold posonly_names in Hposonly.
    change 0 with (Z.of_nat 0) in Hposonly.
    rewrite !py_slice_nat in Hposonly.
    rewrite !drop_0, take_take, length_take in Hposonly.
    eapply elem_of_take_le; [| exact Hposonly]. lia.
Qed.

(** ** Calling a function object *)

Lemma function_call_runs (run : Frame -> Store -> Result (Value * Store))
    (c : Code) (defaults : list Value) (b g l : nat)
    (args : list Value) (kwargs : list (string * Value)) (st : Store)
    (parsed d : gmap string Value) :
  parse_args c defaults args kwargs = Ok parsed ->
  st !! l = Some d ->
  function_call run (VCode c) defaults b g l args kwargs st
  = run (Frame_init c b g (length st)) (st ++ [parsed ∪ d]).
Proof.
  intros Hp Hd. unfold function_call, seed_locals, alloc.
  rewrite Hp, Hd. reflexivity.
Qed.

Lemma bind_varargs_cases (c : Code) (args : list Value)
    (m : gmap string Value) :
  bind_varargs c args m = Raise IndexError \/
  bind_varargs c args m = Ok m \/
  exists name,
    co_varnames c !! (co_argcount c + co_kwonlyargcount c)%nat = Some name /\
    bind_varargs c args m = Ok (<[name := VTuple (drop (co_argcount c) args)]> m).
Proof.
  unfold bind_varargs. rewrite py_slice_from_nat, <- Nat2Z.inj_add, py_index_nat.
  destruct (has_varargs c); [| tauto].
  destruct (co_varnames c !! _) as [name |] eqn:E; [| tauto].
  right. right. exists name. split; reflexivity.
Qed.

Lemma bind_varkwargs_cases (c : Code) (kwargs : list (string * Value))
    (m : gmap string Value) :
  bind_varkwargs c kwargs m = Raise IndexError \/
  bind_varkwargs c kwargs m = Ok m \/
  exists name v,
    co_varnames c !! (co_argcount c + co_kwonlyargcount c
                      + (if has_varargs c then 1 else 0))%nat = Some name /\
    bind_varkwargs c kwargs m = Ok (<[name := v]> m).
Proof.
  unfold bind_varkwargs.
  replace (Z.of_nat (co_argcount c) + Z.of_nat (co_kwonlyargcount c)
           + Z.b2z (has_varargs c))
    with (Z.of_nat (co_argcount c + co_kwonlyargcount c
                    + (if has_varargs c then 1 else 0)))
    by (destruct (has_varargs c); cbn; lia).
  rewrite py_index_nat.
  destruct (has_varkwargs c); [| tauto].
  destruct (co_varnames c !! _) as [name |] eqn:E; [| tauto].
  right. right. eexists name, _. split; reflexivity.
Qed.

(** A declared parameter is none of the two collector names. *)
Lemma declared_not_collector (l : list string) (p name : string) (n k : nat) :
  NoDup l -> p ∈ take n l -> l !! (n + k)%nat = Some name -> name <> p.
Proof.
  intros Hnd Hin Hname ->.
  apply elem_of_take in Hin. destruct Hin as (i & Hi & Hlt).
  pose proof (NoDup_lookup _ _ _ _ Hnd Hi Hname). lia.
Qed.

Lemma parse_args_declared (c : Code) (defaults args : list Value)
    (kwargs : list (string * Value)) (parsed : gmap string Value) (p : string) :
  NoDup (co_varnames c) ->
  p ∈ take (co_argcount c + co_kwonlyargcount c) (co_varnames c) ->
  parse_args c defaults args kwargs = Ok parsed ->
  parsed !! p = merged_args c defaults args kwargs !! p.
Proof.
  intros Hnd Hin Hp. unfold parse_args in Hp.
  destruct (bind_varargs_cases c args (merged_args c defaults args kwargs))
    as [E | [E | (n1 & Hn1 & E)]]; rewrite E in Hp; try discriminate Hp.
  - destruct (bind_varkwargs_cases c kwargs (merged_args c defaults args kwargs))
      as [E2 | [E2 | (n2 & v2 & Hn2 & E2)]]; rewrite E2 in Hp;
      inversion Hp; subst; [reflexivity |].
    apply lookup_insert_ne.
    eapply declared_not_collector; [exact Hnd | exact Hin | exact Hn2].
  - assert (Hne1 : n1 <> p).
    { eapply declared_not_collector with (k := 0%nat);
        [exact Hnd | exact Hin | rewrite Nat.add_0_r; exact Hn1]. }
    destruct (bind_varkwargs_cases c kwargs
                (<[n1 := VTuple (drop (co_argcount c) args)]>
                   (merged_args c defaults args kwargs)))
      as [E2 | [E2 | (n2 & v2 & Hn2 & E2)]]; rewrite E2 in Hp;
      inversion Hp; subst.
    + apply lookup_insert_ne, Hne1.
    + rewrite lookup_insert_ne
        by (eapply declared_not_collector; [exact Hnd | exact Hin | exact Hn2]).
      apply lookup_insert_ne, Hne1.
Qed.

(** C5, as stated, fails: the function of one parameter [a], no default,
    called with no argument at all, returns 0.  (The positional arguments
    of a call reach the first
    [min (len(args), max (co_argcount, co_posonlyargcount))] names of
    [co_varnames], see [merged_args_lookup].) *)
Lemma missing_argument_claim_fails :
  ~ (forall (fuel : nat) (c : Code) (defaults : list Value) (b g l : nat)
            (args : list Value) (kwargs : list (string * Value))
            (st : Store) (p : string),
        p ∈ take (co_argcount c + co_kwonlyargcount c) (co_varnames c) ->
        default_mapping c defaults !! p = None ->
        p ∉ take (length args
                    `min` Nat.max (co_argcount c) (co_posonlyargcount c))
                 (co_varnames c) ->
        p ∉ kwargs.*1 ->
        forall (v : Value) (st' : Store),
          function_call (run fuel) (VCode c) defaults b g l args kwargs st
          <> Ok (v, st')).
Proof.
  intros H.
  apply (H 3%nat const_zero_code [] 0%nat 1%nat 1%nat [] [] [∅; ∅] "a")
    with (v := VInt 0) (st' := [∅; ∅; ∅]).
  - cbn. apply list_elem_of_here.
  - vm_compute. reflexivity.
  - cbn. apply not_elem_of_nil.
  - cbn. apply not_elem_of_nil.
  - vm_compute. reflexivity.
Qed.

(** C5, amended.  [f] checks no arity: its bindings are always computed,
    unless [co_varnames] is too short for a collector name
    ([IndexError]).  The positional arguments reach the first
    [min (len(args), max (co_argcount, co_posonlyargcount))] names of
    [co_varnames] and no other, since [zip] pairs
    [co_varnames[:co_posonlyargcount]] and
    [co_varnames[co_posonlyargcount:co_argcount]] with the same slices of
    [args]; for a compiled code object, whose [co_posonlyargcount] is
    within its [co_argcount], these are the first
    [min (len(args), co_argcount)] names, so that a keyword-only
    parameter is never among them, however many positional arguments are
    passed.  A declared parameter (names distinct) that the default
    mapping does not hold, that no positional argument reaches and that
    no keyword names has no entry in [parsed_args]; the frame is run all
    the same, and in its locals the name is whatever the defining frame's
    locals hold for it at the call. *)
Theorem missing_argument_left_unbound :
  (forall (c : Code) (defaults args : list Value)
          (kwargs : list (string * Value)),
      (exists parsed, parse_args c defaults args kwargs = Ok parsed) \/
      parse_args c defaults args kwargs = Raise IndexError) /\
  (forall (c : Code) (defaults args : list Value)
          (kwargs : list (string * Value))
          (parsed : gmap string Value) (p : string),
      NoDup (co_varnames c) ->
      p ∈ take (co_argcount c + co_kwonlyargcount c) (co_varnames c) ->
      default_mapping c defaults !! p = None ->
      p ∉ take (length args
                  `min` Nat.max (co_argcount c) (co_posonlyargcount c))
               (co_varnames c) ->
      p ∉ kwargs.*1 ->
      parse_args c defaults args kwargs = Ok parsed ->
      parsed !! p = None /\
      forall (run : Frame -> Store -> Result (Value * Store))
             (b g l : nat) (st : Store) (d : gmap string Value),
        st !! l = Some d ->
        function_call run (VCode c) defaults b g l args kwargs st
        = run (Frame_init c b g (length st)) (st ++ [parsed ∪ d]) /\
        (parsed ∪ d) !! p = d !! p).
Proof.
  split.
  - intros c defaults args kwargs. unfold parse_args.
    destruct (bind_varargs_cases c args (merged_args c defaults args kwargs))
      as [E | [E | (n1 & _ & E)]]; rewrite E; [tauto | |].
    + destruct (bind_varkwargs_cases c kwargs
                  (merged_args c defaults args kwargs))
        as [E2 | [E2 | (n2 & v2 & _ & E2)]]; rewrite E2; eauto.
    + destruct (bind_varkwargs_cases c kwargs
                  (<[n1 := VTuple (drop (co_argcount c) args)]>
                     (merged_args c defaults args kwargs)))
        as [E2 | [E2 | (n2 & v2 & _ & E2)]]; rewrite E2; eauto.
  - intros c defaults args kwargs parsed p Hnd Hdecl Hdef Hpos Hkw Hp.
    assert (Hnone : parsed !! p = None).
    { rewrite (parse_args_declared _ _ _ _ _ _ Hnd Hdecl Hp).
      apply eq_None_not_Some. intros Hsome.
      destruct (merged_args_lookup _ _ _ _ _ Hsome) as [H | [H | H]].
      - rewrite Hdef in H. destruct H as [? H]. discriminate H.
      - exact (Hpos H).
      - exact (Hkw H). }
    split; [exact Hnone |].
    intros run0 b g l st d Hd. split.
    + apply function_call_runs; assumption.
    + apply lookup_union_r, Hnone.
Qed.

Lemma missing_argument_left_unbound_witness :
  (NoDup (co_varnames abc_code) /\
   "c" ∈ take (co_argcount abc_code + co_kwonlyargcount abc_code)
          (co_varnames abc_code) /\
   default_mapping abc_code [] !! "c" = None /\
   ("c" ∉ take (length [VInt 1; VInt 2; VInt 3]
                  `min` Nat.max (co_argcount abc_code)
                                (co_posonlyargcount abc_code))
               (co_varnames abc_code)) /\
   ("c" ∉ ([] : list (string * Value)).*1) /\
   parse_args abc_code [] [VInt 1; VInt 2; VInt 3] []
   = Ok {[ "a" := VInt 1; "b" := VInt 2; "args" := VTuple [VInt 3] ]}) /\
  ({[ "a" := VInt 1; "b" := VInt 2; "args" := VTuple [VInt 3] ]}
     : gmap string Value) !! "c" = None.
Proof.
  assert (H : (NoDup (co_varnames abc_code) /\
   "c" ∈ take (co_argcount abc_code + co_kwonlyargcount abc_code)
          (co_varnames abc_code) /\
   default_mapping abc_code [] !! "c" = None /\
   ("c" ∉ take (length [VInt 1; VInt 2; VInt 3]
                  `min` Nat.max (co_argcount abc_code)
                                (co_posonlyargcount abc_code))
               (co_varnames abc_code)) /\
   ("c" ∉ ([] : list (string * Value)).*1) /\
   parse_args abc_code [] [VInt 1; VInt 2; VInt 3] []
   = Ok {[ "a" := VInt 1; "b" := VInt 2; "args" := VTuple [VInt 3] ]})).
  { split; [cbn; nodup_strings |].
    split; [cbn; do 2 apply list_elem_of_further; apply list_elem_of_here |].
    split; [vm_compute; reflexivity |].
    split; [cbn; not_in_strings |].
    split; [cbn; apply not_elem_of_nil |].
    vm_compute; reflexivity. }
  split; [exact H |].
  destruct H as (H1 & H2 & H3 & H4 & H5 & H6).
  exact (proj1 (proj2 missing_argument_left_unbound
                  abc_code [] [VInt 1; VInt 2; VInt 3] [] _ "c"
                  H1 H2 H3 H4 H5 H6)).
Defined.

(** ** Excess positional arguments *)

Lemma merged_args_take (c : Code) (defaults args : list Value)
    (kwargs : list (string * Value)) :
  (co_posonlyargcount c <= co_argcount c)%nat ->
  merged_args c defaults (take (co_argcount c) args) kwargs
  = merged_args c defaults args kwargs.
Proof.
  intros Hle. unfold merged_args.
  change 0 with (Z.of_nat 0). rewrite !py_slice_nat.
  rewrite !take_drop_take by lia. reflexivity.
Qed.

(** C6, as stated, fails: the function of one parameter and no varargs
    slot, called with three positional arguments, returns 0. *)
Lemma excess_positional_claim_fails :
  ~ (forall (fuel : nat) (c : Code) (defaults : list Value) (b g l : nat)
            (args : list Value) (kwargs : list (string * Value)) (st : Store),
        has_varargs c = false ->
        (co_argcount c < length args)%nat ->
        forall (v : Value) (st' : Store),
          function_call (run fuel) (VCode c) defaults b g l args kwargs st
          <> Ok (v, st')).
Proof.
  intros H.
  apply (H 3%nat const_zero_code [] 0%nat 1%nat 1%nat
           [VInt 1; VInt 2; VInt 3] [] [∅; ∅])
    with (v := VInt 0) (st' := [∅; ∅; {[ "a" := VInt 1 ]}]).
  - reflexivity.
  - cbn. lia.
  - vm_compute. reflexivity.
Qed.

(** C6, amended.  When the code object declares no varargs slot (and its
    positional-only count is within its positional count), the positional
    arguments beyond [co_argcount] are dropped: the bindings, and with
    them the whole call, are those of the call with the first
    [co_argcount] arguments. *)
Theorem excess_positional_dropped
    (c : Code) (defaults args : list Value) (kwargs : list (string * Value)) :
  has_varargs c = false ->
  (co_posonlyargcount c <= co_argcount c)%nat ->
  parse_args c defaults args kwargs
  = parse_args c defaults (take (co_argcount c) args) kwargs /\
  forall (run : Frame -> Store -> Result (Value * Store))
         (b g l : nat) (st : Store),
    function_call run (VCode c) defaults b g l args kwargs st
    = function_call run (VCode c) defaults b g l
        (take (co_argcount c) args) kwargs st.
Proof.
  intros Hv Hle.
  assert (E : parse_args c defaults args kwargs
              = parse_args c defaults (take (co_argcount c) args) kwargs).
  { unfold parse_args. rewrite merged_args_take by exact Hle.
    unfold bind_varargs. rewrite Hv. reflexivity. }
  split; [exact E |].
  intros run0 b g l st. unfold function_call. rewrite E. reflexivity.
Qed.

Lemma excess_positional_dropped_witness :
  (has_varargs const_zero_code = false /\
   (co_posonlyargcount const_zero_code <= co_argcount const_zero_code)%nat) /\
  parse_args const_zero_code [] [VInt 1; VInt 2; VInt 3] []
  = parse_args const_zero_code []
      (take (co_argcount const_zero_code) [VInt 1; VInt 2; VInt 3]) [].
Proof.
  assert (H : has_varargs const_zero_code = false /\
   (co_posonlyargcount const_zero_code <= co_argcount const_zero_code)%nat)
    by (split; [reflexivity | cbn; lia]).
  split; [exact H |].
  exact (proj1 (excess_positional_dropped const_zero_code []
                  [VInt 1; VInt 2; VInt 3] [] (proj1 H) (proj2 H))).
Defined.

(** ** The locals of a called function *)

(** C2, as stated, fails: a name stored in the defining frame's locals
    after [make_function_op] has run is part of the dictionary the called
    frame starts from. *)
Lemma snapshot_claim_fails :
  ~ (forall (arg : Z) (fr : Frame) (st : Store) (fr' : Frame) (st' : Store)
            (q : string) (fcode : Value) (defaults : list Value)
            (b g l : nat) (dc : gmap string Value),
        make_function_op arg fr st = Ok (VNone, fr', st') ->
        last (data_stack fr') = Some (VFunc q fcode defaults b g l) ->
        st' !! l = Some dc ->
        forall (x : string) (fr1 fr2 : Frame) (st_call : Store),
          locals fr1 = l ->
          store_name_op x fr1 st' = Ok (VNone, fr2, st_call) ->
          forall (parsed : gmap string Value) (r : nat) (st_new : Store),
            seed_locals l parsed st_call = Ok (r, st_new) ->
            st_new !! r = Some (parsed ∪ dc)).
Proof.
  intros H.
  specialize (H 0 (frame_with_stack [VCode reads_x_code; VStr "f"]) [∅; ∅]
                (frame_with_stack [VFunc "f" (VCode reads_x_code) [] 0 1 1])
                [∅; ∅] "f" (VCode reads_x_code) [] 0%nat 1%nat 1%nat ∅
                eq_refl eq_refl eq_refl
                "x" (frame_with_stack [VInt 1]) (frame_with_stack [])
                [∅; {[ "x" := VInt 1 ]}] eq_refl eq_refl
                ∅ 2%nat [∅; {[ "x" := VInt 1 ]}; {[ "x" := VInt 1 ]}] eq_refl).
  assert (E := f_equal (fun o : option (gmap string Value) =>
                          match o with Some m => m !! "x" | None => None end) H).
  vm_compute in E. discriminate E.
Qed.

(** The same on a whole program: the function is built before [x] is
    bound and still returns the value bound later. *)
Example late_binding_program_runs :
  VirtualMachine_run 12 late_binding_program ∅ = Ok (VInt 1).
Proof. vm_compute. reflexivity. Qed.

(** C2, amended.  [make_function_op] copies nothing: it leaves the store
    as it is and the function object it pushes holds the references of
    the defining frame's three dictionaries.  The copy is made by each
    call: the called frame's locals are a new dictionary, filled with the
    content the defining frame's locals have at the call and then with
    the bindings of the call; the defining frame's dictionary is a
    different one and is left as it is. *)
Theorem locals_copied_at_each_call :
  (forall (arg : Z) (s : list Value) (fcode : Value) (q : string)
          (fr : Frame) (st : Store) (r : Value) (fr' : Frame) (st' : Store),
      make_function_op arg (set_data_stack (s ++ [fcode; VStr q]) fr) st
      = Ok (r, fr', st') ->
      st' = st /\
      exists defaults,
        last (data_stack fr')
        = Some (VFunc q fcode defaults (builtins fr) (globals fr) (locals fr))) /\
  (forall (run : Frame -> Store -> Result (Value * Store))
          (c : Code) (defaults : list Value) (b g l : nat)
          (args : list Value) (kwargs : list (string * Value)) (st : Store)
          (parsed d : gmap string Value),
      parse_args c defaults args kwargs = Ok parsed ->
      st !! l = Some d ->
      function_call run (VCode c) defaults b g l args kwargs st
      = run (Frame_init c b g (length st)) (st ++ [parsed ∪ d]) /\
      (st ++ [parsed ∪ d]) !! length st = Some (parsed ∪ d) /\
      (st ++ [parsed ∪ d]) !! l = Some d /\
      l <> length st).
Proof.
  split.
  - intros arg s fcode q fr st r fr' st' H.
    unfold make_function_op in H.
    unfold bind at 1 in H. rewrite pop_snoc2 in H.
    unfold bind at 1 in H. rewrite pop_snoc in H.
    unfold bind at 1 in H. unfold popn in H.
    destruct (0 <? arg); cbn in H; inversion H; subst; cbn;
      (split; [reflexivity |]); eexists; rewrite last_snoc; reflexivity.
  - intros run0 c defaults b g l args kwargs st parsed d Hp Hd.
    pose proof (lookup_lt_Some _ _ _ Hd) as Hlt.
    repeat split.
    + apply function_call_runs; assumption.
    + rewrite lookup_app_r by lia. rewrite Nat.sub_diag. reflexivity.
    + rewrite lookup_app_l by exact Hlt. exact Hd.
    + lia.
Qed.

Lemma locals_copied_at_each_call_witness :
  (parse_args reads_x_code [] [] [] = Ok ∅ /\
   store_with_x !! 1%nat = Some ({[ "x" := VInt 1 ]} : gmap string Value)) /\
  function_call (run 3) (VCode reads_x_code) [] 0 1 1 [] [] store_with_x
  = run 3 (Frame_init reads_x_code 0 1 (length store_with_x))
      (store_with_x ++ [∅ ∪ {[ "x" := VInt 1 ]}]).
Proof.
  assert (H : parse_args reads_x_code [] [] [] = Ok ∅ /\
   store_with_x !! 1%nat = Some ({[ "x" := VInt 1 ]} : gmap string Value))
    by (split; [vm_compute; reflexivity | reflexivity]).
  split; [exact H |].
  exact (proj1 (proj2 locals_copied_at_each_call (run 3) reads_x_code []
                  0%nat 1%nat 1%nat [] [] store_with_x
                  ∅ {[ "x" := VInt 1 ]} (proj1 H) (proj2 H))).
Defined.

(** * Further properties of the interpreter *)

(** ** The operand stack, continued *)

Lemma slice_bound_deep (n len : Z) :
  0 < n -> 0 <= len <= n -> slice_bound (- n) len = 0.
Proof.
  intros Hn Hl. unfold slice_bound.
  destruct (Z.ltb_spec (- n) 0); lia.
Qed.

Lemma push_append (fr : Frame) (st : Store) (s values : list Value) :
  push values (set_data_stack s fr) st
  = Ok (tt, set_data_stack (s ++ values) fr, st).
Proof. reflexivity. Qed.

(** X1.  Pushing values and popping as many gives the values back, in
    the order pushed, and the frame as it was; [pop] and [top] on an
    empty stack raise [IndexError]. *)
Theorem push_then_pop_restores (fr : Frame) (st : Store) :
  (forall v : Value, (do! push [v] in pop) fr st = Ok (v, fr, st)) /\
  (forall values : list Value,
      (do! push values in popn (Z.of_nat (length values))) fr st
      = Ok (values, fr, st)) /\
  pop (set_data_stack [] fr) st = Raise IndexError /\
  top (set_data_stack [] fr) st = Raise IndexError.
Proof.
  split; [| split; [| split; reflexivity]].
  - intros v. unfold bind. rewrite <- (set_data_stack_id fr) at 1.
    rewrite push_append, pop_snoc, set_data_stack_id. reflexivity.
  - intros values. unfold bind. rewrite <- (set_data_stack_id fr) at 1.
    rewrite push_append.
    destruct values as [| v values].
    + cbn. rewrite app_nil_r, set_data_stack_id. reflexivity.
    + rewrite popn_snoc by discriminate. rewrite set_data_stack_id.
      reflexivity.
Qed.

Lemma popn_nonpositive (n : Z) (fr : Frame) (st : Store) :
  n <= 0 -> popn n fr st = Ok ([], fr, st).
Proof.
  intros Hn. unfold popn. destruct (Z.ltb_spec 0 n); [lia | reflexivity].
Qed.

Lemma popn_whole_stack (n : Z) (fr : Frame) (st : Store) :
  0 < n -> Z.of_nat (length (data_stack fr)) <= n ->
  popn n fr st = Ok (data_stack fr, set_data_stack [] fr, st).
Proof.
  intros Hn Hd. unfold popn. destruct (Z.ltb_spec 0 n); [| lia].
  unfold bind, get_frame, modify_frame, ret, py_slice_from. cbn.
  rewrite slice_bound_deep by lia. reflexivity.
Qed.

(** X2.  [popn] never fails: asked for at least as many values as the
    stack holds, it returns the whole stack and leaves it empty; asked
    for zero or a negative number, it returns the empty list and leaves
    the frame alone. *)
Theorem popn_beyond_depth (n : Z) (fr : Frame) (st : Store) :
  (0 < n -> Z.of_nat (length (data_stack fr)) <= n ->
   popn n fr st = Ok (data_stack fr, set_data_stack [] fr, st)) /\
  (n <= 0 -> popn n fr st = Ok ([], fr, st)).
Proof.
  split; [apply popn_whole_stack | apply popn_nonpositive].
Qed.

Lemma popn_beyond_depth_witness :
  (0 < 5 /\
   Z.of_nat (length (data_stack (frame_with_stack [VInt 1; VInt 2]))) <= 5) /\
  popn 5 (frame_with_stack [VInt 1; VInt 2]) []
  = Ok (data_stack (frame_with_stack [VInt 1; VInt 2]),
        set_data_stack [] (frame_with_stack [VInt 1; VInt 2]), []).
Proof.
  assert (H : 0 < 5 /\
    Z.of_nat (length (data_stack (frame_with_stack [VInt 1; VInt 2]))) <= 5)
    by (cbn; lia).
  split; [exact H |].
  exact (proj1 (popn_beyond_depth 5 (frame_with_stack [VInt 1; VInt 2]) [])
           (proj1 H) (proj2 H)).
Defined.

Lemma py_index_from_top {A : Type} (below above : list A) (v : A) :
  py_index (below ++ v :: above) (- (1 + Z.of_nat (length above))) = Some v.
Proof.
  unfold py_index. rewrite length_app. cbn [length].
  destruct (Z.ltb_spec (- (1 + Z.of_nat (length above))) 0); [| lia].
  match goal with |- context [Z.to_nat ?z] =>
    replace (Z.to_nat z) with (length below) by lia end.
  match goal with |- (if ?c then _ else _) = _ =>
    replace c with true by (symmetry; apply andb_true_intro; split;
                            [apply Z.leb_le | apply Z.ltb_lt]; lia) end.
  rewrite lookup_app_r by lia. rewrite Nat.sub_diag. reflexivity.
Qed.

(** X3.  [peek] reads without removing: a negative index counts from
    the top, so [peek(-1)] is the top and [peek(-(k+1))] the value under
    [k] others; an index outside the stack raises [IndexError]. *)
Theorem peek_reads_from_top
    (fr : Frame) (st : Store) (below above : list Value) (v : Value) :
  peek (- (1 + Z.of_nat (length above)))
       (set_data_stack (below ++ v :: above) fr) st
  = Ok (v, set_data_stack (below ++ v :: above) fr, st) /\
  peek (-1) (set_data_stack (below ++ [v]) fr) st
  = top (set_data_stack (below ++ [v]) fr) st /\
  (forall i : Z,
      Z.of_nat (length below) <= i \/ i < - Z.of_nat (length below) ->
      peek i (set_data_stack below fr) st = Raise IndexError).
Proof.
  split; [| split].
  - unfold peek, bind, get_frame. cbn [data_stack set_data_stack].
    rewrite py_index_from_top. reflexivity.
  - rewrite top_snoc. unfold peek, bind, get_frame.
    cbn [data_stack set_data_stack].
    change (-1) with (- (1 + Z.of_nat (length (@nil Value)))).
    rewrite (py_index_from_top below [] v). reflexivity.
  - intros i Hi. unfold peek, bind, get_frame.
    cbn [data_stack set_data_stack]. unfold py_index.
    destruct (Z.ltb_spec i 0).
    + destruct (Z.leb_spec 0 (i + Z.of_nat (length below))); [lia |].
      reflexivity.
    + destruct (Z.ltb_spec i (Z.of_nat (length below))); [lia |].
      rewrite andb_false_r. reflexivity.
Qed.

Lemma peek_reads_from_top_witness :
  (Z.of_nat (length [VInt 1]) <= 4 \/ 4 < - Z.of_nat (length [VInt 1])) /\
  peek 4 (set_data_stack [VInt 1] (frame_with_stack [])) [] = Raise IndexError.
Proof.
  assert (H : Z.of_nat (length [VInt 1]) <= 4 \/ 4 < - Z.of_nat (length [VInt 1]))
    by (left; cbn; lia).
  split; [exact H |].
  exact (proj2 (proj2 (peek_reads_from_top (frame_with_stack []) []
                         [VInt 1] [] VNone)) 4 H).
Defined.

(** ** Stack shuffling *)

Lemma popn2_snoc (fr : Frame) (st : Store) (s : list Value) (a b : Value) :
  popn 2 (set_data_stack (s ++ [a; b]) fr) st
  = Ok ([a; b], set_data_stack s fr, st).
Proof. apply (popn_snoc [a; b]). discriminate. Qed.

Lemma popn3_snoc (fr : Frame) (st : Store) (s : list Value) (a b c : Value) :
  popn 3 (set_data_stack (s ++ [a; b; c]) fr) st
  = Ok ([a; b; c], set_data_stack s fr, st).
Proof. apply (popn_snoc [a; b; c]). discriminate. Qed.

(** X4.  [rot_two_op] swaps the two top values and [rot_three_op] moves
    the top value under the next two; two swaps, or three rotations,
    give the stack back.  On a stack of one value [rot_two_op] changes
    nothing, and on a stack of two [rot_three_op] raises [ValueError]
    (the unpacking of the popped list fails). *)
Theorem rot_two_three_cycle
    (fr : Frame) (st : Store) (s : list Value) (a b c : Value) :
  rot_two_op (set_data_stack (s ++ [a; b]) fr) st
  = Ok (VNone, set_data_stack (s ++ [b; a]) fr, st) /\
  rot_three_op (set_data_stack (s ++ [a; b; c]) fr) st
  = Ok (VNone, set_data_stack (s ++ [c; a; b]) fr, st) /\
  (do! rot_two_op in rot_two_op) (set_data_stack (s ++ [a; b]) fr) st
  = Ok (VNone, set_data_stack (s ++ [a; b]) fr, st) /\
  (do! rot_three_op in do! rot_three_op in rot_three_op)
    (set_data_stack (s ++ [a; b; c]) fr) st
  = Ok (VNone, set_data_stack (s ++ [a; b; c]) fr, st) /\
  rot_two_op (set_data_stack [a] fr) st
  = Ok (VNone, set_data_stack [a] fr, st) /\
  rot_three_op (set_data_stack [a; b] fr) st = Raise ValueError.
Proof.
  assert (R2 : forall x y,
             rot_two_op (set_data_stack (s ++ [x; y]) fr) st
             = Ok (VNone, set_data_stack (s ++ [y; x]) fr, st)).
  { intros x y. unfold rot_two_op, bind. rewrite popn2_snoc. reflexivity. }
  assert (R3 : forall x y z,
             rot_three_op (set_data_stack (s ++ [x; y; z]) fr) st
             = Ok (VNone, set_data_stack (s ++ [z; x; y]) fr, st)).
  { intros x y z. unfold rot_three_op, bind. rewrite popn3_snoc. reflexivity. }
  repeat split.
  - apply R2.
  - apply R3.
  - unfold bind. rewrite R2. apply R2.
  - unfold bind. rewrite R3, R3. apply R3.
Qed.

(** X5.  [dup_top_op] pushes a second copy of the top value and
    [dup_top_two_op] a second copy of the top pair, in the same order;
    [dup_top_op] on an empty stack raises [IndexError], while
    [dup_top_two_op] on a stack of one value raises nothing and doubles
    that value. *)
Theorem dup_top_copies
    (fr : Frame) (st : Store) (s : list Value) (a b : Value) :
  dup_top_op (set_data_stack (s ++ [a]) fr) st
  = Ok (VNone, set_data_stack (s ++ [a; a]) fr, st) /\
  dup_top_two_op (set_data_stack (s ++ [a; b]) fr) st
  = Ok (VNone, set_data_stack (s ++ [a; b; a; b]) fr, st) /\
  dup_top_op (set_data_stack [] fr) st = Raise IndexError /\
  dup_top_two_op (set_data_stack [a] fr) st
  = Ok (VNone, set_data_stack [a; a] fr, st).
Proof.
  repeat split.
  - unfold dup_top_op, bind. rewrite top_snoc. cbn.
    rewrite <- app_assoc. reflexivity.
  - unfold dup_top_two_op, bind. rewrite popn2_snoc. reflexivity.
Qed.

(** X6.  [rot_n_op(count)] takes the top value and puts it under the
    [count] values below it, which keep their order: [count + 1] values
    take part.  With a count of zero or less the stack is left as it
    is. *)
Theorem rot_n_moves_top_under
    (fr : Frame) (st : Store) (s toses : list Value) (tos : Value) :
  rot_n_op (Z.of_nat (length toses))
    (set_data_stack (s ++ toses ++ [tos]) fr) st
  = Ok (VNone, set_data_stack (s ++ tos :: toses) fr, st) /\
  (forall count : Z,
      count <= 0 ->
      rot_n_op count (set_data_stack (s ++ [tos]) fr) st
      = Ok (VNone, set_data_stack (s ++ [tos]) fr, st)).
Proof.
  split.
  - unfold rot_n_op. unfold bind at 1.
    rewrite (app_assoc s toses [tos]), pop_snoc.
    unfold bind at 1.
    destruct toses as [| t toses].
    + rewrite popn_nonpositive by (cbn; lia). cbn.
      rewrite !app_nil_r. reflexivity.
    + rewrite popn_snoc by discriminate. cbn.
      rewrite <- app_assoc. reflexivity.
  - intros count Hc. unfold rot_n_op. unfold bind at 1. rewrite pop_snoc.
    unfold bind at 1.
    rewrite popn_nonpositive by exact Hc.
    cbn. rewrite app_nil_r. reflexivity.
Qed.

Lemma rot_n_moves_top_under_witness :
  (-1 <= 0) /\
  rot_n_op (-1) (set_data_stack ([VInt 1] ++ [VInt 2]) (frame_with_stack [])) []
  = Ok (VNone, set_data_stack ([VInt 1] ++ [VInt 2]) (frame_with_stack []), []).
Proof.
  assert (H : -1 <= 0) by lia.
  split; [exact H |].
  exact (proj2 (rot_n_moves_top_under (frame_with_stack []) []
                  [VInt 1] [] (VInt 2)) (-1) H).
Defined.

(** ** Name access *)

(** X7.  [load_name_op] looks a name up in the locals, then the globals,
    then the builtins, pushes the first value found and raises
    [NameError] when the three dictionaries lack the name. *)
Theorem load_name_resolution_order
    (fr : Frame) (st : Store) (l g b : gmap string Value) (x : string) :
  st !! locals fr = Some l ->
  st !! globals fr = Some g ->
  st !! builtins fr = Some b ->
  load_name_op x fr st
  = match l !! x, g !! x, b !! x with
    | Some v, _, _
    | None, Some v, _
    | None, None, Some v =>
        Ok (VNone, set_data_stack (data_stack fr ++ [v]) fr, st)
    | None, None, None => Raise NameError
    end.
Proof.
  intros Hl Hg Hb. unfold load_name_op.
  unfold bind at 1. cbn [get_frame].
  unfold bind at 1. rewrite (read_dict_ok _ l) by exact Hl.
  destruct (l !! x); [reflexivity |].
  unfold bind at 1. rewrite (read_dict_ok _ g) by exact Hg.
  destruct (g !! x); [reflexivity |].
  unfold bind at 1. rewrite (read_dict_ok _ b) by exact Hb.
  destruct (b !! x); reflexivity.
Qed.

Lemma load_name_resolution_order_witness :
  (store_with_x !! locals (frame_with_stack []) = Some {[ "x" := VInt 1 ]} /\
   store_with_x !! globals (frame_with_stack []) = Some {[ "x" := VInt 1 ]} /\
   store_with_x !! builtins (frame_with_stack []) = Some ∅) /\
  load_name_op "x" (frame_with_stack []) store_with_x
  = Ok (VNone, set_data_stack ([] ++ [VInt 1]) (frame_with_stack []),
        store_with_x).
Proof.
  assert (H : store_with_x !! locals (frame_with_stack [])
              = Some {[ "x" := VInt 1 ]} /\
              store_with_x !! globals (frame_with_stack [])
              = Some {[ "x" := VInt 1 ]} /\
              store_with_x !! builtins (frame_with_stack []) = Some ∅)
    by (repeat split).
  split; [exact H |].
  destruct H as (H1 & H2 & H3).
  exact (load_name_resolution_order (frame_with_stack []) store_with_x
           _ _ _ "x" H1 H2 H3).
Defined.

(** X8.  The two scoped loads.  [load_global_op] never reads the
    locals: it pushes the value of the globals, else that of the
    builtins, else raises [NameError].  [load_fast_op] reads the locals
    only: a name the locals lack raises [UnboundLocalError] even when
    the globals or the builtins bind it.  The names [.0], [.1] and [.2]
    are not looked up at all: with them [load_fast_op] reads the top of
    the stack, and raises [IndexError] when the stack is empty. *)
Theorem scoped_loads_ignore_other_dictionaries
    (fr : Frame) (st : Store) (l g b : gmap string Value) (x : string) :
  (st !! globals fr = Some g ->
   st !! builtins fr = Some b ->
   load_global_op x fr st
   = match g !! x, b !! x with
     | Some v, _
     | None, Some v =>
         Ok (VNone, set_data_stack (data_stack fr ++ [v]) fr, st)
     | None, None => Raise NameError
     end) /\
  (st !! locals fr = Some l ->
   x ∉ [".0"; ".1"; ".2"] ->
   load_fast_op x fr st
   = match l !! x with
     | Some v => Ok (VNone, set_data_stack (data_stack fr ++ [v]) fr, st)
     | None => Raise UnboundLocalError
     end) /\
  (x ∈ [".0"; ".1"; ".2"] ->
   load_fast_op x (set_data_stack [] fr) st = Raise IndexError).
Proof.
  split; [| split].
  - intros Hg Hb. unfold load_global_op.
    unfold bind at 1. cbn [get_frame].
    unfold bind at 1. rewrite (read_dict_ok _ g) by exact Hg.
    destruct (g !! x); [reflexivity |].
    unfold bind at 1. rewrite (read_dict_ok _ b) by exact Hb.
    destruct (b !! x); reflexivity.
  - intros Hl Hx. unfold load_fast_op.
    rewrite bool_decide_eq_false_2 by exact Hx.
    unfold bind at 1. cbn [get_frame].
    unfold bind at 1. rewrite (read_dict_ok _ l) by exact Hl.
    destruct (l !! x); reflexivity.
  - intros Hx. unfold load_fast_op.
    rewrite bool_decide_eq_true_2 by exact Hx. reflexivity.
Qed.

Lemma scoped_loads_ignore_other_dictionaries_witness :
  (store_with_x !! globals (Frame_init empty_code 0 0 1) = Some ∅ /\
   store_with_x !! builtins (Frame_init empty_code 0 0 1) = Some ∅) /\
  load_global_op "x" (Frame_init empty_code 0 0 1) store_with_x
  = Raise NameError.
Proof.
  assert (H : store_with_x !! globals (Frame_init empty_code 0 0 1) = Some ∅ /\
              store_with_x !! builtins (Frame_init empty_code 0 0 1) = Some ∅)
    by (split; reflexivity).
  split; [exact H |].
  exact (proj1 (scoped_loads_ignore_other_dictionaries
                  (Frame_init empty_code 0 0 1) store_with_x ∅ ∅ ∅ "x")
           (proj1 H) (proj2 H)).
Defined.

(** X9.  In a frame whose locals and globals are two dictionaries (the
    frame of a called function), [store_name_op] binds in the locals but
    [delete_name_op] deletes from the globals: deleting a name just
    stored raises [KeyError] when the globals lack it, whereas
    [delete_fast_op] removes it. *)
Theorem delete_name_misses_stored_name
    (fr : Frame) (st : Store) (l g : gmap string Value)
    (x : string) (v : Value) (s : list Value) :
  locals fr <> globals fr ->
  st !! locals fr = Some l ->
  st !! globals fr = Some g ->
  g !! x = None ->
  (do! store_name_op x in delete_name_op x)
    (set_data_stack (s ++ [v]) fr) st
  = Raise KeyError /\
  (do! store_name_op x in delete_fast_op x)
    (set_data_stack (s ++ [v]) fr) st
  = Ok (VNone, set_data_stack s fr, <[locals fr := delete x l]> st).
Proof.
  intros Hne Hl Hg Hx.
  assert (Hl' : <[locals fr := <[x := v]> l]> st !! locals fr
                = Some (<[x := v]> l))
    by (eapply store_lookup_insert, Hl).
  assert (Hg' : <[locals fr := <[x := v]> l]> st !! globals fr = Some g)
    by (rewrite list_lookup_insert_ne by exact Hne; exact Hg).
  split; unfold bind at 1; rewrite (store_name_ok _ _ _ _ _ l) by exact Hl.
  - unfold delete_name_op. unfold bind at 1. cbn [get_frame].
    unfold bind at 1. cbn [globals set_data_stack].
    rewrite (read_dict_ok _ g) by exact Hg'. rewrite Hx. reflexivity.
  - erewrite delete_fast_ok;
      [| cbn [locals set_data_stack]; exact Hl' | apply lookup_insert_eq].
    cbn [locals set_data_stack].
    rewrite list_insert_insert_eq, delete_insert_eq. reflexivity.
Qed.

Lemma delete_name_misses_stored_name_witness :
  (locals (Frame_init empty_code 0 0 1) <> globals (Frame_init empty_code 0 0 1) /\
   store_with_x !! locals (Frame_init empty_code 0 0 1)
   = Some {[ "x" := VInt 1 ]} /\
   store_with_x !! globals (Frame_init empty_code 0 0 1) = Some ∅ /\
   (∅ : gmap string Value) !! "y" = None) /\
  (do! store_name_op "y" in delete_name_op "y")
    (set_data_stack ([] ++ [VInt 2]) (Frame_init empty_code 0 0 1))
    store_with_x
  = Raise KeyError.
Proof.
  assert (H : locals (Frame_init empty_code 0 0 1)
              <> globals (Frame_init empty_code 0 0 1) /\
              store_with_x !! locals (Frame_init empty_code 0 0 1)
              = Some {[ "x" := VInt 1 ]} /\
              store_with_x !! globals (Frame_init empty_code 0 0 1) = Some ∅ /\
              (∅ : gmap string Value) !! "y" = None)
    by (split; [cbn; lia | repeat split]).
  split; [exact H |].
  destruct H as (H1 & H2 & H3 & H4).
  exact (proj1 (delete_name_misses_stored_name (Frame_init empty_code 0 0 1)
                  store_with_x _ _ "y" (VInt 2) [] H1 H2 H3 H4)).
Defined.

(** X10.  [delete_fast_op] and [delete_name_op] raise [KeyError] for a
    name their dictionary (the locals, the globals) lacks; for a name it
    holds they remove that name and leave every other name of the
    dictionary, the stack and the rest of the frame as they were. *)
Theorem delete_removes_one_name
    (fr : Frame) (st : Store) (d : gmap string Value) (x : string) :
  (st !! locals fr = Some d ->
   match d !! x with
   | None => delete_fast_op x fr st = Raise KeyError
   | Some _ =>
       exists st' d',
         delete_fast_op x fr st = Ok (VNone, fr, st') /\
         st' !! locals fr = Some d' /\
         d' !! x = None /\
         forall y, y <> x -> d' !! y = d !! y
   end) /\
  (st !! globals fr = Some d ->
   match d !! x with
   | None => delete_name_op x fr st = Raise KeyError
   | Some _ =>
       exists st' d',
         delete_name_op x fr st = Ok (VNone, fr, st') /\
         st' !! globals fr = Some d' /\
         d' !! x = None /\
         forall y, y <> x -> d' !! y = d !! y
   end).
Proof.
  split; intros Hd; destruct (d !! x) as [v |] eqn:Hx.
  - exists (<[locals fr := delete x d]> st), (delete x d).
    split; [eapply delete_fast_ok; eassumption |].
    split; [eapply store_lookup_insert, Hd |].
    split; [apply lookup_delete_eq |].
    intros y Hy. apply lookup_delete_ne. congruence.
  - unfold delete_fast_op. unfold bind at 1. cbn [get_frame].
    unfold bind at 1. rewrite (read_dict_ok _ d) by exact Hd.
    rewrite Hx. reflexivity.
  - exists (<[globals fr := delete x d]> st), (delete x d).
    split; [eapply delete_name_ok; eassumption |].
    split; [eapply store_lookup_insert, Hd |].
    split; [apply lookup_delete_eq |].
    intros y Hy. apply lookup_delete_ne. congruence.
  - unfold delete_name_op. unfold bind at 1. cbn [get_frame].
    unfold bind at 1. rewrite (read_dict_ok _ d) by exact Hd.
    rewrite Hx. reflexivity.
Qed.

Lemma delete_removes_one_name_witness :
  store_with_x !! locals (frame_with_stack []) = Some {[ "x" := VInt 1 ]} /\
  delete_fast_op "y" (frame_with_stack []) store_with_x = Raise KeyError.
Proof.
  assert (H : store_with_x !! locals (frame_with_stack [])
              = Some {[ "x" := VInt 1 ]}) by reflexivity.
  split; [exact H |].
  exact (proj1 (delete_removes_one_name (frame_with_stack []) store_with_x
                  {[ "x" := VInt 1 ]} "y") H).
Defined.

(** ** The loop of [run], continued *)

#[export] Instance same_program_rel : FrameRel same_program.
Proof.
  split; unfold same_program, same_env.
  - intros fr. repeat split.
  - intros a b c (? & ? & ? & ? & ?) (? & ? & ? & ? & ?).
    repeat split; congruence.
  - intros s fr. repeat split.
Qed.

#[export] Instance same_last_exception_rel : FrameRel same_last_exception.
Proof.
  split; unfold same_last_exception.
  - reflexivity.
  - intros a b c ? ?. congruence.
  - reflexivity.
Qed.

Ltac unfold_handlers :=
  cbn [dispatch];
  unfold nop_op, load_const_op, load_name_op, load_global_op, load_fast_op,
    store_name_op, store_fast_op, store_global_op, delete_name_op,
    delete_fast_op, pop_top_op, dup_top_op, dup_top_two_op, rot_two_op,
    rot_three_op, unary_not_op, pop_jump_if_true_op, pop_jump_if_false_op,
    jump_if_true_or_pop_op, jump_if_false_or_pop_op, jump_forward_op,
    jump_absolute_op, build_tuple_op, build_map_op, build_const_key_map_op,
    call_function_op, call_function_kw_op, make_function_op,
    raise_varargs_op, return_value_op.

Ltac keeps_all R_def :=
  keeps_handler;
  try (apply keeps_modify_frame; try exact _; intros;
       unfold R_def; repeat split);
  keeps_handler;
  try (apply keeps_modify_frame; try exact _; intros;
       unfold R_def; repeat split);
  keeps_handler.

Lemma dispatch_keeps_program (call : Callee) (ins : Instr) :
  keeps same_program (dispatch call ins).
Proof. destruct ins; unfold_handlers; keeps_all same_program. Qed.

Lemma dispatch_keeps_return_value (call : Callee) (ins : Instr) :
  ins <> RETURN_VALUE -> keeps same_return_value (dispatch call ins).
Proof.
  intros Hne. destruct ins; try congruence; unfold_handlers;
    keeps_all same_return_value.
Qed.

Lemma dispatch_keeps_last_exception (call : Callee) (ins : Instr) :
  (forall argc, ins <> RAISE_VARARGS argc) ->
  keeps same_last_exception (dispatch call ins).
Proof.
  intros Hne. destruct ins; try (exfalso; eapply Hne; reflexivity);
    unfold_handlers; keeps_all same_last_exception.
Qed.

(** X11.  One iteration of the loop, whatever the instruction: the
    pending jump is cleared; the code, the three dictionary references
    and [bytecode_len] are those of before; the [return_value] slot
    changes under no instruction but [RETURN_VALUE], and the
    [last_exception] slot under none but [RAISE_VARARGS]. *)
Theorem loop_iteration_invariants
    (call : Callee) (fr fr' : Frame) (st st' : Store) :
  loop_iteration call fr st = Ok (fr', st') ->
  jump fr' = None /\
  same_program fr fr' /\
  (py_index (co_instructions (code fr)) (counter fr / 2) <> Some RETURN_VALUE ->
   return_value fr' = return_value fr) /\
  ((forall argc,
       py_index (co_instructions (code fr)) (counter fr / 2)
       <> Some (RAISE_VARARGS argc)) ->
   last_exception fr' = last_exception fr).
Proof.
  unfold loop_iteration. intros H.
  destruct (py_index _ _) as [ins |]; [| discriminate H].
  destruct (dispatch call ins fr st) as [[[r fr1] st1] | |] eqn:E;
    inversion H; subst; clear H.
  assert (A : forall R : Frame -> Frame -> Prop,
             FrameRel R ->
             (forall f, R f (after_handler r f)) ->
             keeps R (dispatch call ins) -> R fr (after_handler r fr1)).
  { intros R HR Ha Hk. eapply frame_rel_trans; [eapply Hk, E | apply Ha]. }
  split; [| split; [| split]].
  - unfold after_handler. destruct (jump fr1) eqn:J; [reflexivity | exact J].
  - apply (A same_program _); [| apply dispatch_keeps_program].
    intros f. unfold after_handler. destruct (jump f); repeat split.
  - intros Hne. apply (A same_return_value _).
    + intros f. unfold after_handler. destruct (jump f); reflexivity.
    + apply dispatch_keeps_return_value. congruence.
  - intros Hne. apply (A same_last_exception _).
    + intros f. unfold after_handler. destruct (jump f); reflexivity.
    + apply dispatch_keeps_last_exception. intros argc ->.
      exact (Hne argc eq_refl).
Qed.

Lemma loop_iteration_invariants_witness :
  loop_iteration (callee 0) (frame_at raise_then_return 0 1 1 8 []) []
  = Ok (frame_at raise_then_return 0 1 1 10 [VInt 7], []) /\
  jump (frame_at raise_then_return 0 1 1 10 [VInt 7]) = None.
Proof.
  assert (H : loop_iteration (callee 0) (frame_at raise_then_return 0 1 1 8 []) []
              = Ok (frame_at raise_then_return 0 1 1 10 [VInt 7], []))
    by reflexivity.
  split; [exact H |].
  exact (proj1 (loop_iteration_invariants _ _ _ _ _ H)).
Defined.

Lemma instruction_at (l : list Instr) (k : nat) :
  py_index l (2 * Z.of_nat k / 2) = l !! k.
Proof.
  replace (2 * Z.of_nat k / 2) with (Z.of_nat k)
    by (rewrite Z.mul_comm, Z.div_mul; lia).
  apply py_index_nat.
Qed.

Lemma after_handler_next (r : Value) (fr : Frame) :
  jump fr = None -> after_handler r fr = set_counter (counter fr + 2) fr.
Proof. intros H. unfold after_handler. rewrite H. reflexivity. Qed.

Lemma after_handler_jump (r : Value) (target : Z) (fr : Frame) :
  jump fr = None ->
  after_handler r (set_jump (Some target) fr) = set_counter target fr.
Proof. intros H. destruct fr; cbn in *; subst; reflexivity. Qed.

(** X12.  Branching, as the loop sees it.  In a frame without pending
    jump whose current instruction is [POP_JUMP_IF_TRUE target], the
    iteration pops the tested value and continues at [target] when the
    value is true and at the next instruction (counter + 2) otherwise;
    [POP_JUMP_IF_FALSE] branches on the negated test.  [JUMP_FORWARD]
    and [JUMP_ABSOLUTE] both continue at their argument itself, the
    stack untouched. *)
Theorem jumps_set_the_counter
    (call : Callee) (fr : Frame) (st : Store)
    (s : list Value) (v : Value) (target : Z) :
  jump fr = None ->
  (py_index (co_instructions (code fr)) (counter fr / 2)
   = Some (POP_JUMP_IF_TRUE target) ->
   loop_iteration call (set_data_stack (s ++ [v]) fr) st
   = Ok (set_counter (if truthy v then target else counter fr + 2)
           (set_data_stack s fr), st)) /\
  (py_index (co_instructions (code fr)) (counter fr / 2)
   = Some (POP_JUMP_IF_FALSE target) ->
   loop_iteration call (set_data_stack (s ++ [v]) fr) st
   = Ok (set_counter (if truthy v then counter fr + 2 else target)
           (set_data_stack s fr), st)) /\
  (py_index (co_instructions (code fr)) (counter fr / 2)
   = Some (JUMP_FORWARD target) ->
   loop_iteration call fr st = Ok (set_counter target fr, st)) /\
  (py_index (co_instructions (code fr)) (counter fr / 2)
   = Some (JUMP_ABSOLUTE target) ->
   loop_iteration call fr st = Ok (set_counter target fr, st)).
Proof.
  intros Hj.
  assert (Hjs : jump (set_data_stack s fr) = None) by exact Hj.
  repeat split; intros Hi; unfold loop_iteration;
    cbn [code counter set_data_stack]; rewrite Hi; cbn [dispatch].
  - unfold pop_jump_if_true_op. unfold bind at 1. rewrite pop_snoc.
    destruct (truthy v); cbn [bind modify_frame ret].
    + rewrite after_handler_jump by exact Hjs. reflexivity.
    + rewrite after_handler_next by exact Hjs. reflexivity.
  - unfold pop_jump_if_false_op. unfold bind at 1. rewrite pop_snoc.
    destruct (truthy v); cbn [negb bind modify_frame ret].
    + rewrite after_handler_next by exact Hjs. reflexivity.
    + rewrite after_handler_jump by exact Hjs. reflexivity.
  - unfold jump_forward_op. cbn [bind modify_frame ret].
    rewrite after_handler_jump by exact Hj. reflexivity.
  - unfold jump_absolute_op. cbn [bind modify_frame ret].
    rewrite after_handler_jump by exact Hj. reflexivity.
Qed.

Lemma jumps_set_the_counter_witness :
  (jump (frame_at (mkCode [JUMP_FORWARD 6] [] 0 0 0 0) 0 1 1 0 []) = None /\
   py_index (co_instructions
               (code (frame_at (mkCode [JUMP_FORWARD 6] [] 0 0 0 0) 0 1 1 0 [])))
            (counter (frame_at (mkCode [JUMP_FORWARD 6] [] 0 0 0 0) 0 1 1 0 []) / 2)
   = Some (JUMP_FORWARD 6)) /\
  loop_iteration (callee 0)
    (frame_at (mkCode [JUMP_FORWARD 6] [] 0 0 0 0) 0 1 1 0 []) []
  = Ok (set_counter 6 (frame_at (mkCode [JUMP_FORWARD 6] [] 0 0 0 0) 0 1 1 0 []),
        []).
Proof.
  assert (H : jump (frame_at (mkCode [JUMP_FORWARD 6] [] 0 0 0 0) 0 1 1 0 [])
              = None /\
              py_index (co_instructions
                (code (frame_at (mkCode [JUMP_FORWARD 6] [] 0 0 0 0) 0 1 1 0 [])))
                (counter (frame_at (mkCode [JUMP_FORWARD 6] [] 0 0 0 0) 0 1 1 0 []) / 2)
              = Some (JUMP_FORWARD 6))
    by (split; reflexivity).
  split; [exact H |].
  exact (proj1 (proj2 (proj2 (jumps_set_the_counter (callee 0)
           (frame_at (mkCode [JUMP_FORWARD 6] [] 0 0 0 0) 0 1 1 0 []) []
           [] VNone 6 (proj1 H)))) (proj2 H)).
Defined.

Lemma run_loop_return (fuel : nat) (fr : Frame) (st : Store)
    (s : list Value) (v : Value) (k : nat) :
  jump fr = None ->
  counter fr = 2 * Z.of_nat k ->
  counter fr < bytecode_len fr ->
  co_instructions (code fr) !! k = Some RETURN_VALUE ->
  run_loop (S (S fuel)) (set_data_stack (s ++ [v]) fr) st = Ok (v, st).
Proof.
  intros Hj Hc Hlt Hi.
  erewrite run_loop_step; [| exact Hlt |].
  2:{ unfold loop_iteration. cbn [code counter set_data_stack].
      rewrite Hc, instruction_at, Hi. cbn [dispatch].
      unfold return_value_op. unfold bind at 1. rewrite pop_snoc.
      cbn [bind modify_frame ret]. rewrite after_handler_next by exact Hj.
      reflexivity. }
  rewrite run_loop_exit by (cbn; lia). reflexivity.
Qed.

(** X13.  [RETURN_VALUE] ends the run of its frame with the value on
    top of the stack, whatever instructions follow it; in particular a
    code object that begins with [LOAD_CONST c; RETURN_VALUE] makes
    [VirtualMachine.run] return [c].  On an empty stack [RETURN_VALUE]
    raises [IndexError]. *)
Theorem return_value_ends_the_run :
  (forall (fuel : nat) (fr : Frame) (st : Store)
          (s : list Value) (v : Value) (k : nat),
      jump fr = None ->
      counter fr = 2 * Z.of_nat k ->
      counter fr < bytecode_len fr ->
      co_instructions (code fr) !! k = Some RETURN_VALUE ->
      run_loop (S (S fuel)) (set_data_stack (s ++ [v]) fr) st = Ok (v, st)) /\
  (forall (fuel : nat) (c : Value) (rest : list Instr)
          (varnames : list string) (argcount posonly kwonly : nat) (flags : Z)
          (host_builtins : gmap string Value),
      VirtualMachine_run (S (S (S fuel)))
        (mkCode (LOAD_CONST c :: RETURN_VALUE :: rest)
                varnames argcount posonly kwonly flags)
        host_builtins
      = Ok c) /\
  (forall (fr : Frame) (st : Store),
      return_value_op (set_data_stack [] fr) st = Raise IndexError).
Proof.
  split; [exact run_loop_return | split; [| reflexivity]].
  intros fuel c rest varnames argcount posonly kwonly flags host_builtins.
  unfold VirtualMachine_run, VirtualMachine_frame, alloc, run.
  cbn [length app].
  set (code_obj := mkCode (LOAD_CONST c :: RETURN_VALUE :: rest)
                          varnames argcount posonly kwonly flags).
  set (fr0 := run_prologue (Frame_init code_obj 0 1 1)).
  assert (Hlen : bytecode_len fr0 = 2 * Z.of_nat (S (S (length rest))))
    by reflexivity.
  erewrite run_loop_step with (fr' := set_data_stack ([] ++ [c]) (set_counter 2 fr0));
    [| rewrite Hlen; cbn [counter fr0 run_prologue set_counter]; lia |].
  2:{ unfold loop_iteration.
      change (counter fr0 / 2) with (2 * Z.of_nat 0 / 2).
      rewrite instruction_at. reflexivity. }
  rewrite (run_loop_return fuel (set_counter 2 fr0) _ [] c 1);
    [reflexivity | reflexivity | reflexivity | | reflexivity].
  cbn [counter set_counter bytecode_len]. rewrite Hlen. lia.
Qed.

Lemma return_value_ends_the_run_witness :
  (jump (frame_at raise_then_return 0 1 1 10 []) = None /\
   counter (frame_at raise_then_return 0 1 1 10 []) = 2 * Z.of_nat 5 /\
   counter (frame_at raise_then_return 0 1 1 10 [])
   < bytecode_len (frame_at raise_then_return 0 1 1 10 []) /\
   co_instructions (code (frame_at raise_then_return 0 1 1 10 [])) !! 5%nat
   = Some RETURN_VALUE) /\
  run_loop 2
    (set_data_stack ([] ++ [VInt 7]) (frame_at raise_then_return 0 1 1 10 []))
    []
  = Ok (VInt 7, []).
Proof.
  assert (H : jump (frame_at raise_then_return 0 1 1 10 []) = None /\
   counter (frame_at raise_then_return 0 1 1 10 []) = 2 * Z.of_nat 5 /\
   counter (frame_at raise_then_return 0 1 1 10 [])
   < bytecode_len (frame_at raise_then_return 0 1 1 10 []) /\
   co_instructions (code (frame_at raise_then_return 0 1 1 10 [])) !! 5%nat
   = Some RETURN_VALUE)
    by (repeat split).
  split; [exact H |].
  destruct H as (H1 & H2 & H3 & H4).
  exact (proj1 return_value_ends_the_run 0%nat
           (frame_at raise_then_return 0 1 1 10 []) [] [] (VInt 7) 5%nat
           H1 H2 H3 H4).
Defined.

Lemma run_loop_nops (m : nat) :
  forall (k : nat) (fr : Frame) (st : Store),
    jump fr = None ->
    counter fr = 2 * Z.of_nat k ->
    bytecode_len fr = 2 * Z.of_nat (k + m) ->
    (forall i, (k <= i < k + m)%nat ->
               co_instructions (code fr) !! i = Some NOP) ->
    run_loop (S m) fr st = Ok (return_value fr, st).
Proof.
  induction m as [| m IH]; intros k fr st Hj Hc Hlen Hnop.
  - apply run_loop_exit. lia.
  - erewrite run_loop_step with (fr' := set_counter (counter fr + 2) fr);
      [| lia |].
    2:{ unfold loop_iteration. rewrite Hc, instruction_at.
        rewrite (Hnop k) by lia. cbn [dispatch]. unfold nop_op, ret.
        rewrite after_handler_next by exact Hj. rewrite Hc. reflexivity. }
    rewrite (IH (S k)); [reflexivity | exact Hj | | |].
    + cbn [counter set_counter]. lia.
    + cbn [bytecode_len set_counter]. lia.
    + intros i Hi. apply Hnop. lia.
Qed.

(** X14.  A frame that never executes [RETURN_VALUE] returns [None]:
    [VirtualMachine.run] on a code object made of [n] [NOP]
    instructions (none at all for [n = 0]) runs off the end of the
    instructions and returns the initial content of the [return_value]
    slot. *)
Theorem nops_return_none
    (n : nat) (varnames : list string) (argcount posonly kwonly : nat)
    (flags : Z) (host_builtins : gmap string Value) :
  VirtualMachine_run (S n)
    (mkCode (replicate n NOP) varnames argcount posonly kwonly flags)
    host_builtins
  = Ok VNone.
Proof.
  unfold VirtualMachine_run, VirtualMachine_frame, alloc, run.
  cbn [length app].
  rewrite (run_loop_nops n 0); [reflexivity | reflexivity | reflexivity | |].
  - cbn [bytecode_len run_prologue set_counter set_bytecode_len code
         Frame_init co_instructions].
    rewrite length_replicate. reflexivity.
  - intros i Hi. cbn [code run_prologue set_counter set_bytecode_len
                      Frame_init co_instructions].
    apply lookup_replicate_2. lia.
Qed.

Lemma self_jump_frame (fr : Frame) (target : Z) :
  jump fr = None -> counter fr = target ->
  set_counter target fr = fr.
Proof. intros Hj Hc. destruct fr; cbn in *; subst; reflexivity. Qed.

(** X15.  The loop has no bound of its own: a frame whose current
    instruction is a [JUMP_ABSOLUTE] to itself never leaves the loop,
    so no amount of fuel makes [run] return or raise. *)
Theorem self_jump_never_returns
    (fuel : nat) (fr : Frame) (st : Store) :
  jump fr = None ->
  counter fr < bytecode_len fr ->
  py_index (co_instructions (code fr)) (counter fr / 2)
  = Some (JUMP_ABSOLUTE (counter fr)) ->
  run_loop fuel fr st = OutOfFuel.
Proof.
  intros Hj Hlt Hi. induction fuel as [| fuel IH]; [reflexivity |].
  erewrite run_loop_step with (fr' := fr); [exact IH | exact Hlt |].
  unfold loop_iteration. rewrite Hi. cbn [dispatch].
  unfold jump_absolute_op. cbn [bind modify_frame ret].
  rewrite after_handler_jump by exact Hj.
  rewrite self_jump_frame by (exact Hj || reflexivity). reflexivity.
Qed.

Lemma self_jump_never_returns_witness :
  (jump (frame_at (mkCode [JUMP_ABSOLUTE 0] [] 0 0 0 0) 0 1 1 0 []) = None /\
   counter (frame_at (mkCode [JUMP_ABSOLUTE 0] [] 0 0 0 0) 0 1 1 0 [])
   < bytecode_len (frame_at (mkCode [JUMP_ABSOLUTE 0] [] 0 0 0 0) 0 1 1 0 []) /\
   py_index
     (co_instructions
        (code (frame_at (mkCode [JUMP_ABSOLUTE 0] [] 0 0 0 0) 0 1 1 0 [])))
     (counter (frame_at (mkCode [JUMP_ABSOLUTE 0] [] 0 0 0 0) 0 1 1 0 []) / 2)
   = Some (JUMP_ABSOLUTE
             (counter (frame_at (mkCode [JUMP_ABSOLUTE 0] [] 0 0 0 0) 0 1 1 0 [])))) /\
  run_loop 5 (frame_at (mkCode [JUMP_ABSOLUTE 0] [] 0 0 0 0) 0 1 1 0 []) []
  = OutOfFuel.
Proof.
  assert (H : jump (frame_at (mkCode [JUMP_ABSOLUTE 0] [] 0 0 0 0) 0 1 1 0 [])
              = None /\
   counter (frame_at (mkCode [JUMP_ABSOLUTE 0] [] 0 0 0 0) 0 1 1 0 [])
   < bytecode_len (frame_at (mkCode [JUMP_ABSOLUTE 0] [] 0 0 0 0) 0 1 1 0 []) /\
   py_index
     (co_instructions
        (code (frame_at (mkCode [JUMP_ABSOLUTE 0] [] 0 0 0 0) 0 1 1 0 [])))
     (counter (frame_at (mkCode [JUMP_ABSOLUTE 0] [] 0 0 0 0) 0 1 1 0 []) / 2)
   = Some (JUMP_ABSOLUTE
             (counter (frame_at (mkCode [JUMP_ABSOLUTE 0] [] 0 0 0 0) 0 1 1 0 []))))
    by (repeat split).
  split; [exact H |].
  destruct H as (H1 & H2 & H3).
  exact (self_jump_never_returns 5
           (frame_at (mkCode [JUMP_ABSOLUTE 0] [] 0 0 0 0) 0 1 1 0 []) []
           H1 H2 H3).
Defined.

(** ** The bindings of a call, continued *)

(** A closed list of distinct strings. *)
Lemma foldl_insert_other (pairs : list (string * Value))
    (acc : gmap string Value) (p : string) :
  p ∉ pairs.*1 ->
  foldl (fun m kv => <[kv.1 := kv.2]> m) acc pairs !! p = acc !! p.
Proof.
  revert acc. induction pairs as [| [k v] pairs IH]; intros acc Hp; cbn.
  - reflexivity.
  - cbn in Hp. apply not_elem_of_cons in Hp as [Hne Hp].
    rewrite IH by exact Hp. apply lookup_insert_ne. congruence.
Qed.

Lemma dict_zip_lookup_at (names : list string) (values : list Value)
    (i : nat) (n : string) (v : Value) :
  NoDup names -> names !! i = Some n -> values !! i = Some v ->
  dict_zip names values !! n = Some v.
Proof.
  unfold dict_zip. generalize (∅ : gmap string Value) as acc.
  revert values i. induction names as [| a names IH];
    intros values i acc Hnd Hn Hv; [discriminate Hn |].
  destruct values as [| b values]; [destruct i; discriminate Hv |].
  apply NoDup_cons in Hnd as [Ha Hnd]. cbn [zip_with foldl].
  destruct i as [| i]; cbn in Hn, Hv.
  - inversion Hn; inversion Hv; subst.
    rewrite foldl_insert_other; [apply lookup_insert_eq |].
    rewrite zip_fst_take. intros Hin. apply Ha.
    eapply subseteq_take, Hin.
  - eapply IH; eassumption.
Qed.

Lemma dict_zip_lookup_None (names : list string) (values : list Value)
    (p : string) :
  p ∉ names -> dict_zip names values !! p = None.
Proof.
  intros Hp. apply eq_None_not_Some. intros H.
  apply dict_zip_lookup in H. apply Hp. eapply subseteq_take, H.
Qed.

(** No keyword, no entry in the two keyword dictionaries. *)
Lemma distribute_kwargs_None (c : Code) (kwargs : list (string * Value))
    (p : string) :
  p ∉ kwargs.*1 ->
  (distribute_kwargs c kwargs).1.1 !! p = None /\
  (distribute_kwargs c kwargs).1.2 !! p = None.
Proof.
  intros Hp. split; apply eq_None_not_Some; intros H; apply Hp;
    apply (distribute_kwargs_keys c); [left | right]; exact H.
Qed.

Lemma NoDup_take_drop {A : Type} (n k : nat) (l : list A) :
  NoDup l -> NoDup (take n (drop k l)).
Proof.
  intros H. eapply sublist_NoDup; [exact H |].
  etransitivity; [apply sublist_take | apply sublist_drop].
Qed.

Lemma merged_args_positional (c : Code) (defaults args : list Value)
    (kwargs : list (string * Value)) (i : nat) (name : string) (v : Value) :
  NoDup (co_varnames c) ->
  (co_posonlyargcount c <= co_argcount c)%nat ->
  (i < co_argcount c)%nat ->
  co_varnames c !! i = Some name ->
  args !! i = Some v ->
  name ∉ kwargs.*1 ->
  merged_args c defaults args kwargs !! name = Some v.
Proof.
  intros Hnd Hpo Hi Hname Hv Hkw. unfold merged_args.
  destruct (distribute_kwargs_None c kwargs name Hkw) as [Hpk Hko].
  destruct (distribute_kwargs c kwargs) as [[pk ko] vk]. cbn in Hpk, Hko.
  apply lookup_union_Some_l.
  rewrite lookup_union_r by exact Hko.
  rewrite lookup_union_r by exact Hpk.
  unfold posonly_names, pos_or_kw_names.
  change 0 with (Z.of_nat 0). rewrite !py_slice_nat, !drop_0, !Nat.sub_0_r.
  destruct (Nat.lt_ge_cases i (co_posonlyargcount c)) as [Hlt | Hge].
  - rewrite lookup_union_r.
    + apply (dict_zip_lookup_at _ _ i).
      * apply (NoDup_take_drop _ 0), Hnd.
      * rewrite lookup_take_lt by exact Hlt. exact Hname.
      * rewrite lookup_take_lt by exact Hlt. exact Hv.
    + apply dict_zip_lookup_None. intros Hin.
      apply elem_of_take in Hin as (j & Hj & _). rewrite lookup_drop in Hj.
      pose proof (NoDup_lookup _ _ _ _ Hnd Hname Hj). lia.
  - apply lookup_union_Some_l.
    apply (dict_zip_lookup_at _ _ (i - co_posonlyargcount c)).
    + apply NoDup_take_drop, Hnd.
    + rewrite lookup_take_lt by lia. rewrite lookup_drop.
      replace (co_posonlyargcount c + (i - co_posonlyargcount c))%nat
        with i by lia. exact Hname.
    + rewrite lookup_take_lt by lia. rewrite lookup_drop.
      replace (co_posonlyargcount c + (i - co_posonlyargcount c))%nat
        with i by lia. exact Hv.
Qed.

(** X16.  Positional arguments are bound in order: with distinct
    parameter names, the [i]-th positional argument of a call
    ([i < co_argcount]) is the binding of the [i]-th name of
    [co_varnames], positional-only or not, unless a keyword argument
    carries that name. *)
Theorem positional_arguments_bind_in_order
    (c : Code) (defaults args : list Value) (kwargs : list (string * Value))
    (parsed : gmap string Value) (i : nat) (name : string) (v : Value) :
  NoDup (co_varnames c) ->
  (co_posonlyargcount c <= co_argcount c)%nat ->
  (i < co_argcount c)%nat ->
  co_varnames c !! i = Some name ->
  args !! i = Some v ->
  name ∉ kwargs.*1 ->
  parse_args c defaults args kwargs = Ok parsed ->
  parsed !! name = Some v.
Proof.
  intros Hnd Hpo Hi Hname Hv Hkw Hp.
  rewrite (parse_args_declared c defaults args kwargs parsed name Hnd).
  - eapply merged_args_positional; eassumption.
  - apply elem_of_take. exists i. split; [exact Hname | lia].
  - exact Hp.
Qed.

Lemma positional_arguments_bind_in_order_witness :
  (NoDup (co_varnames abc_code) /\
   (co_posonlyargcount abc_code <= co_argcount abc_code)%nat /\
   (1 < co_argcount abc_code)%nat /\
   co_varnames abc_code !! 1%nat = Some "b" /\
   [VInt 1; VInt 2; VInt 3] !! 1%nat = Some (VInt 2) /\
   ("b" ∉ [("c", VInt 9)].*1) /\
   parse_args abc_code [VInt 5] [VInt 1; VInt 2; VInt 3] [("c", VInt 9)]
   = Ok (<["a" := VInt 1]> (<["b" := VInt 2]> (<["c" := VInt 9]>
           {[ "args" := VTuple [VInt 3] ]})))) /\
  (<["a" := VInt 1]> (<["b" := VInt 2]> (<["c" := VInt 9]>
     {[ "args" := VTuple [VInt 3] ]})) : gmap string Value) !! "b"
  = Some (VInt 2).
Proof.
  assert (H : NoDup (co_varnames abc_code) /\
   (co_posonlyargcount abc_code <= co_argcount abc_code)%nat /\
   (1 < co_argcount abc_code)%nat /\
   co_varnames abc_code !! 1%nat = Some "b" /\
   [VInt 1; VInt 2; VInt 3] !! 1%nat = Some (VInt 2) /\
   ("b" ∉ [("c", VInt 9)].*1) /\
   parse_args abc_code [VInt 5] [VInt 1; VInt 2; VInt 3] [("c", VInt 9)]
   = Ok (<["a" := VInt 1]> (<["b" := VInt 2]> (<["c" := VInt 9]>
           {[ "args" := VTuple [VInt 3] ]})))).
  { split; [cbn; nodup_strings |].
    split; [cbn; lia |]. split; [cbn; lia |].
    split; [reflexivity |]. split; [reflexivity |].
    split; [cbn; not_in_strings |].
    vm_compute. reflexivity. }
  split; [exact H |].
  destruct H as (H1 & H2 & H3 & H4 & H5 & H6 & H7).
  exact (positional_arguments_bind_in_order abc_code [VInt 5]
           [VInt 1; VInt 2; VInt 3] [("c", VInt 9)] _ 1%nat "b" (VInt 2)
           H1 H2 H3 H4 H5 H6 H7).
Defined.

Lemma distribute_kwargs_snoc (c : Code) (kwargs : list (string * Value))
    (k : string) (v : Value) :
  distribute_kwargs c (kwargs ++ [(k, v)])
  = (let '(pk, ko, vk) := distribute_kwargs c kwargs in
     if bool_decide (k ∈ pos_or_kw_names c) then (<[k := v]> pk, ko, vk)
     else if bool_decide (k ∈ kwonly_names c) then (pk, <[k := v]> ko, vk)
     else (pk, ko, kw_setitem k v vk)).
Proof. unfold distribute_kwargs. rewrite foldl_app. reflexivity. Qed.

(** A keyword that names a positional-or-keyword parameter never lands
    among the keyword-only bindings. *)
Lemma distribute_kwargs_kwonly_None (c : Code)
    (kwargs : list (string * Value)) (k : string) :
  k ∈ pos_or_kw_names c -> (distribute_kwargs c kwargs).1.2 !! k = None.
Proof.
  intros Hk. induction kwargs as [| [k' v'] kwargs IH] using rev_ind.
  - apply lookup_empty.
  - rewrite distribute_kwargs_snoc.
    destruct (distribute_kwargs c kwargs) as [[pk ko] vk]. cbn in IH.
    repeat case_bool_decide; cbn; try exact IH.
    rewrite lookup_insert_ne; [exact IH | congruence].
Qed.

Lemma distribute_kwargs_lookup (c : Code) (kwargs : list (string * Value))
    (k : string) (v : Value) :
  NoDup kwargs.*1 -> (k, v) ∈ kwargs ->
  (k ∈ pos_or_kw_names c -> (distribute_kwargs c kwargs).1.1 !! k = Some v) /\
  (k ∉ pos_or_kw_names c -> k ∈ kwonly_names c ->
   (distribute_kwargs c kwargs).1.2 !! k = Some v).
Proof.
  induction kwargs as [| [k' v'] kwargs IH] using rev_ind; intros Hnd Hin.
  - apply elem_of_nil in Hin. destruct Hin.
  - rewrite fmap_app in Hnd. apply NoDup_app in Hnd as (Hnd & Hdis & _).
    rewrite distribute_kwargs_snoc.
    apply elem_of_app in Hin as [Hin | Hin].
    + assert (Hne : k' <> k).
      { intros ->. apply (Hdis k); [| apply list_elem_of_here].
        apply list_elem_of_fmap. exists (k, v). split; [reflexivity | exact Hin]. }
      destruct (IH Hnd Hin) as [IH1 IH2].
      destruct (distribute_kwargs c kwargs) as [[pk ko] vk]. cbn in IH1, IH2.
      repeat case_bool_decide; cbn; rewrite ?lookup_insert_ne by exact Hne;
        split; assumption.
    + apply list_elem_of_singleton in Hin. inversion Hin; subst.
      destruct (distribute_kwargs c kwargs) as [[pk ko] vk].
      repeat case_bool_decide; cbn; split; intros; try contradiction;
        apply lookup_insert_eq.
Qed.

Lemma keyword_name_declared (c : Code) (k : string) :
  k ∈ pos_or_kw_names c \/ k ∈ kwonly_names c ->
  k ∈ take (co_argcount c + co_kwonlyargcount c) (co_varnames c).
Proof.
  unfold pos_or_kw_names, kwonly_names.
  rewrite <- Nat2Z.inj_add, !py_slice_nat.
  intros [H | H].
  - destruct (Nat.le_gt_cases (co_argcount c) (co_posonlyargcount c)).
    + replace (co_argcount c - co_posonlyargcount c)%nat with 0%nat in H by lia.
      cbn [take] in H. apply elem_of_nil in H. destruct H.
    + apply elem_of_take_drop in H.
      eapply elem_of_take_le; [| exact H]. lia.
  - apply elem_of_take_drop in H.
    eapply elem_of_take_le; [| exact H]. lia.
Qed.

(** X17.  A keyword argument that names a positional-or-keyword or a
    keyword-only parameter is the binding of that parameter, whatever
    positional argument or default the parameter also has: a parameter
    given both by position and by keyword raises nothing and takes the
    keyword's value. *)
Theorem keyword_overrides_positional
    (c : Code) (defaults args : list Value) (kwargs : list (string * Value))
    (parsed : gmap string Value) (k : string) (v : Value) :
  NoDup (co_varnames c) ->
  NoDup kwargs.*1 ->
  (k, v) ∈ kwargs ->
  k ∈ pos_or_kw_names c \/ k ∈ kwonly_names c ->
  parse_args c defaults args kwargs = Ok parsed ->
  parsed !! k = Some v.
Proof.
  intros Hnd Hkd Hin Hk Hp.
  rewrite (parse_args_declared c defaults args kwargs parsed k Hnd
             (keyword_name_declared c k Hk) Hp).
  unfold merged_args.
  destruct (distribute_kwargs_lookup c kwargs k v Hkd Hin) as [H1 H2].
  pose proof (distribute_kwargs_kwonly_None c kwargs k) as H3.
  destruct (distribute_kwargs c kwargs) as [[pk ko] vk]. cbn in H1, H2, H3.
  apply lookup_union_Some_l.
  destruct (decide (k ∈ pos_or_kw_names c)) as [Hpk | Hnpk].
  - rewrite lookup_union_r by (apply H3, Hpk).
    apply lookup_union_Some_l, H1, Hpk.
  - apply lookup_union_Some_l, H2; [exact Hnpk |].
    destruct Hk as [Hk | Hk]; [contradiction | exact Hk].
Qed.

Lemma keyword_overrides_positional_witness :
  (NoDup (co_varnames abc_code) /\
   NoDup [("b", VInt 7)].*1 /\
   ("b", VInt 7) ∈ [("b", VInt 7)] /\
   ("b" ∈ pos_or_kw_names abc_code \/ "b" ∈ kwonly_names abc_code) /\
   parse_args abc_code [] [VInt 1; VInt 2] [("b", VInt 7)]
   = Ok (<["a" := VInt 1]> (<["b" := VInt 7]> {[ "args" := VTuple [] ]}))) /\
  (<["a" := VInt 1]> (<["b" := VInt 7]> {[ "args" := VTuple [] ]})
   : gmap string Value) !! "b" = Some (VInt 7).
Proof.
  assert (H : NoDup (co_varnames abc_code) /\
   NoDup [("b", VInt 7)].*1 /\
   ("b", VInt 7) ∈ [("b", VInt 7)] /\
   ("b" ∈ pos_or_kw_names abc_code \/ "b" ∈ kwonly_names abc_code) /\
   parse_args abc_code [] [VInt 1; VInt 2] [("b", VInt 7)]
   = Ok (<["a" := VInt 1]> (<["b" := VInt 7]> {[ "args" := VTuple [] ]}))).
  { split; [cbn; nodup_strings |].
    split; [cbn; nodup_strings |].
    split; [apply list_elem_of_here |].
    split; [left; vm_compute; apply list_elem_of_here |].
    vm_compute. reflexivity. }
  split; [exact H |].
  destruct H as (H1 & H2 & H3 & H4 & H5).
  exact (keyword_overrides_positional abc_code [] [VInt 1; VInt 2]
           [("b", VInt 7)] _ "b" (VInt 7) H1 H2 H3 H4 H5).
Defined.

Lemma distribute_kwargs_known (c : Code) (kwargs : list (string * Value)) :
  (distribute_kwargs c
     (filter (fun kv => kv.1 ∈ pos_or_kw_names c \/ kv.1 ∈ kwonly_names c)
             kwargs)).1
  = (distribute_kwargs c kwargs).1.
Proof.
  induction kwargs as [| [k v] kwargs IH] using rev_ind; [reflexivity |].
  rewrite filter_app, distribute_kwargs_snoc.
  destruct (decide (k ∈ pos_or_kw_names c \/ k ∈ kwonly_names c)) as [Hk | Hk].
  - rewrite filter_cons_True by (cbn; exact Hk).
    rewrite filter_nil, distribute_kwargs_snoc.
    destruct (distribute_kwargs c (filter _ kwargs)) as [[pk1 ko1] vk1].
    destruct (distribute_kwargs c kwargs) as [[pk ko] vk].
    cbn in IH. inversion IH; subst.
    repeat case_bool_decide; reflexivity.
  - rewrite filter_cons_False by (cbn; exact Hk).
    rewrite app_nil_r, IH.
    destruct (distribute_kwargs c kwargs) as [[pk ko] vk].
    rewrite !bool_decide_eq_false_2 by tauto. reflexivity.
Qed.

(** X18.  A function without a varkwargs slot does not reject a keyword
    argument that names none of its positional-or-keyword and
    keyword-only parameters (an unknown name, or the name of a
    positional-only parameter): such keywords are dropped, and the
    bindings and the call are those of the call without them. *)
Theorem unknown_keywords_dropped
    (c : Code) (defaults args : list Value) (kwargs : list (string * Value)) :
  has_varkwargs c = false ->
  let known :=
    filter (fun kv => kv.1 ∈ pos_or_kw_names c \/ kv.1 ∈ kwonly_names c)
           kwargs in
  parse_args c defaults args kwargs = parse_args c defaults args known /\
  forall (run : Frame -> Store -> Result (Value * Store))
         (b g l : nat) (st : Store),
    function_call run (VCode c) defaults b g l args kwargs st
    = function_call run (VCode c) defaults b g l args known st.
Proof.
  intros Hv known.
  assert (E : parse_args c defaults args kwargs
              = parse_args c defaults args known).
  { unfold parse_args, bind_varkwargs. rewrite Hv.
    assert (Em : merged_args c defaults args kwargs
                 = merged_args c defaults args known).
    { unfold merged_args. pose proof (distribute_kwargs_known c kwargs) as Hk.
      fold known in Hk.
      destruct (distribute_kwargs c known) as [[pk1 ko1] vk1].
      destruct (distribute_kwargs c kwargs) as [[pk ko] vk].
      cbn in Hk. inversion Hk; subst. reflexivity. }
    rewrite Em. reflexivity. }
  split; [exact E |].
  intros run0 b g l st. unfold function_call. rewrite E. reflexivity.
Qed.

Lemma unknown_keywords_dropped_witness :
  has_varkwargs const_zero_code = false /\
  parse_args const_zero_code [] [VInt 1] [("zz", VInt 2)]
  = parse_args const_zero_code [] [VInt 1]
      (filter (fun kv => kv.1 ∈ pos_or_kw_names const_zero_code
                         \/ kv.1 ∈ kwonly_names const_zero_code)
              [("zz", VInt 2)]).
Proof.
  assert (H : has_varkwargs const_zero_code = false) by reflexivity.
  split; [exact H |].
  exact (proj1 (unknown_keywords_dropped const_zero_code [] [VInt 1]
                  [("zz", VInt 2)] H)).
Defined.

(** X19.  A function with a varargs slot binds the name that follows
    the keyword-only names in [co_varnames] to the tuple of the
    positional arguments beyond [co_argcount] (the empty tuple when
    there are none); when [co_varnames] has no such entry the call
    raises [IndexError]. *)
Theorem varargs_collects_the_tail
    (c : Code) (defaults args : list Value) (kwargs : list (string * Value)) :
  has_varargs c = true ->
  match co_varnames c !! (co_argcount c + co_kwonlyargcount c)%nat with
  | Some name =>
      NoDup (co_varnames c) ->
      forall parsed,
        parse_args c defaults args kwargs = Ok parsed ->
        parsed !! name = Some (VTuple (drop (co_argcount c) args))
  | None => parse_args c defaults args kwargs = Raise IndexError
  end.
Proof.
  intros Hv. unfold parse_args, bind_varargs.
  rewrite Hv, py_slice_from_nat, <- Nat2Z.inj_add, py_index_nat.
  destruct (co_varnames c !! _) as [name |] eqn:Hname; [| reflexivity].
  intros Hnd parsed Hp.
  destruct (bind_varkwargs_cases c kwargs
              (<[name := VTuple (drop (co_argcount c) args)]>
                 (merged_args c defaults args kwargs)))
    as [E | [E | (n2 & v2 & Hn2 & E)]]; rewrite E in Hp; inversion Hp; subst.
  - apply lookup_insert_eq.
  - rewrite Hv in Hn2. rewrite lookup_insert_ne; [apply lookup_insert_eq |].
    intros ->. pose proof (NoDup_lookup _ _ _ _ Hnd Hname Hn2). lia.
Qed.

Lemma varargs_collects_the_tail_witness :
  has_varargs abc_code = true /\
  parse_args abc_code [] [VInt 1; VInt 2; VInt 3] []
  = Ok (<["a" := VInt 1]> (<["b" := VInt 2]>
          {[ "args" := VTuple [VInt 3] ]})) /\
  (<["a" := VInt 1]> (<["b" := VInt 2]> {[ "args" := VTuple [VInt 3] ]})
   : gmap string Value) !! "args"
  = Some (VTuple (drop (co_argcount abc_code) [VInt 1; VInt 2; VInt 3])).
Proof.
  assert (H : has_varargs abc_code = true) by reflexivity.
  assert (Hp : parse_args abc_code [] [VInt 1; VInt 2; VInt 3] []
               = Ok (<["a" := VInt 1]> (<["b" := VInt 2]>
                       {[ "args" := VTuple [VInt 3] ]})))
    by (vm_compute; reflexivity).
  split; [exact H |]. split; [exact Hp |].
  refine (varargs_collects_the_tail abc_code [] [VInt 1; VInt 2; VInt 3] []
            H _ _ Hp).
  cbn. nodup_strings.
Defined.

(** ** What a called frame writes *)

Lemma store_fast_ok (fr : Frame) (st : Store) (x : string)
    (s : list Value) (v : Value) (d : gmap string Value) :
  st !! locals fr = Some d ->
  store_fast_op x (set_data_stack (s ++ [v]) fr) st
  = Ok (VNone, set_data_stack s fr, <[locals fr := <[x := v]> d]> st).
Proof.
  intros H. unfold store_fast_op.
  unfold bind at 1. rewrite pop_snoc.
  unfold bind at 1. cbn [get_frame locals set_data_stack].
  unfold bind at 1. rewrite (read_dict_ok _ d) by exact H.
  unfold bind. rewrite (write_dict_ok _ d) by exact H. reflexivity.
Qed.

Lemma loop_iteration_at (call : Callee) (fr : Frame) (st : Store)
    (ins : Instr) (r : Value) (fr' : Frame) (st' : Store) :
  py_index (co_instructions (code fr)) (counter fr / 2) = Some ins ->
  dispatch call ins fr st = Ok (r, fr', st') ->
  loop_iteration call fr st = Ok (after_handler r fr', st').
Proof. intros Hi Hd. unfold loop_iteration. rewrite Hi, Hd. reflexivity. Qed.

(** X20.  The locals of a called frame are its own, its globals are
    the defining frame's.  A function that stores a local and returns
    it leaves every dictionary of the caller's store as it was (the
    call only adds the new locals dictionary); a function that stores a
    global writes it into the dictionary its function object refers to
    as globals, where the caller finds it after the call. *)
Theorem callee_locals_private_globals_shared
    (fuel : nat) (b g l : nat) (st : Store) (dl dg : gmap string Value)
    (x : string) (v : Value) :
  st !! l = Some dl ->
  st !! g = Some dg ->
  (x ∉ [".0"; ".1"; ".2"] ->
   function_call (run (5 + fuel)) (VCode (local_setter x v)) [] b g l [] [] st
   = Ok (v, st ++ [<[x := v]> dl])) /\
  function_call (run (5 + fuel)) (VCode (global_setter x v)) [] b g l [] [] st
  = Ok (VNone, <[g := <[x := v]> dg]> st ++ [dl]).
Proof.
  intros Hl Hg.
  change (5 + fuel)%nat with (S (S (S (S (S fuel))))).
  pose proof (lookup_lt_Some _ _ _ Hl) as Hll.
  pose proof (lookup_lt_Some _ _ _ Hg) as Hgl.
  set (n := length st).
  assert (Hn : (st ++ [dl]) !! n = Some dl)
    by (unfold n; rewrite lookup_app_r by lia; rewrite Nat.sub_diag;
        reflexivity).
  split.
  - intros Hx.
    rewrite (function_call_runs _ _ _ _ _ _ _ _ _ ∅ dl) by (reflexivity || exact Hl).
    rewrite (left_id_L ∅ (∪)). fold n. unfold run.
    change (run_prologue (Frame_init (local_setter x v) b g n))
      with (frame_at (local_setter x v) b g n 0 []).
    erewrite run_loop_step; [| reflexivity |].
    2:{ eapply loop_iteration_at; reflexivity. }
    change (after_handler _ _)
      with (set_data_stack ([] ++ [v]) (frame_at (local_setter x v) b g n 2 [])).
    erewrite run_loop_step; [| reflexivity |].
    2:{ eapply loop_iteration_at; [reflexivity |]. cbn [dispatch].
        apply (store_fast_ok _ _ _ _ _ dl). exact Hn. }
    change (after_handler _ _) with (frame_at (local_setter x v) b g n 4 []).
    cbn [locals frame_at set_data_stack set_counter run_prologue
         set_bytecode_len Frame_init].
    assert (Hst : <[n := <[x := v]> dl]> (st ++ [dl]) = st ++ [<[x := v]> dl]).
    { unfold n. rewrite insert_app_r_alt by lia. rewrite Nat.sub_diag.
      reflexivity. }
    rewrite Hst.
    erewrite run_loop_step; [| reflexivity |].
    2:{ eapply loop_iteration_at; [reflexivity |]. cbn [dispatch].
        apply (load_fast_ok _ _ _ v (<[x := v]> dl)); [exact Hx | |].
        - cbn. unfold n. rewrite lookup_app_r by lia. rewrite Nat.sub_diag.
          reflexivity.
        - apply lookup_insert_eq. }
    change (after_handler _ _)
      with (set_data_stack ([] ++ [v]) (frame_at (local_setter x v) b g n 6 [])).
    apply (run_loop_return _ _ _ _ _ 3); reflexivity.
  - rewrite (function_call_runs _ _ _ _ _ _ _ _ _ ∅ dl) by (reflexivity || exact Hl).
    rewrite (left_id_L ∅ (∪)). fold n. unfold run.
    change (run_prologue (Frame_init (global_setter x v) b g n))
      with (frame_at (global_setter x v) b g n 0 []).
    erewrite run_loop_step; [| reflexivity |].
    2:{ eapply loop_iteration_at; reflexivity. }
    change (after_handler _ _)
      with (set_data_stack ([] ++ [v]) (frame_at (global_setter x v) b g n 2 [])).
    erewrite run_loop_step; [| reflexivity |].
    2:{ eapply loop_iteration_at; [reflexivity |]. cbn [dispatch].
        apply (store_global_ok _ _ _ _ _ dg). cbn.
        rewrite lookup_app_l by exact Hgl. exact Hg. }
    change (after_handler _ _) with (frame_at (global_setter x v) b g n 4 []).
    cbn [globals frame_at set_data_stack set_counter run_prologue
         set_bytecode_len Frame_init].
    rewrite insert_app_l by exact Hgl.
    erewrite run_loop_step; [| reflexivity |].
    2:{ eapply loop_iteration_at; reflexivity. }
    change (after_handler _ _)
      with (set_data_stack ([] ++ [VNone])
              (frame_at (global_setter x v) b g n 6 [])).
    apply (run_loop_return _ _ _ _ _ 3); reflexivity.
Qed.

Lemma callee_locals_private_globals_shared_witness :
  (store_with_x !! 1%nat = Some ({[ "x" := VInt 1 ]} : gmap string Value) /\
   store_with_x !! 1%nat = Some ({[ "x" := VInt 1 ]} : gmap string Value)) /\
  function_call (run (5 + 0)) (VCode (global_setter "y" (VInt 2))) []
    0 1 1 [] [] store_with_x
  = Ok (VNone,
        <[1%nat := <["y" := VInt 2]> {[ "x" := VInt 1 ]}]> store_with_x
        ++ [{[ "x" := VInt 1 ]}]).
Proof.
  assert (H : store_with_x !! 1%nat
              = Some ({[ "x" := VInt 1 ]} : gmap string Value))
    by reflexivity.
  split; [split; exact H |].
  exact (proj2 (callee_locals_private_globals_shared 0 0 1 1 store_with_x
                  _ _ "y" (VInt 2) H H)).
Defined.

(** ** Calls *)

Lemma popn_app (returned rest : list Value) (fr : Frame) (st : Store) :
  popn (Z.of_nat (length returned)) (set_data_stack (rest ++ returned) fr) st
  = Ok (returned, set_data_stack rest fr, st).
Proof.
  destruct returned as [| v returned].
  - rewrite app_nil_r. reflexivity.
  - apply popn_snoc. discriminate.
Qed.

Lemma invoke_result (call : Callee) (f : Value) (args : list Value)
    (kwargs : list (string * Value)) (fr : Frame) (st : Store) :
  (let! r := invoke call f args kwargs in do! push [r] in ret VNone) fr st
  = match call f args kwargs st with
    | Ok (r, st') =>
        Ok (VNone, set_data_stack (data_stack fr ++ [r]) fr, st')
    | Raise e => Raise e
    | OutOfFuel => OutOfFuel
    end.
Proof.
  unfold bind, invoke.
  destruct (call f args kwargs st) as [[r st'] | |]; reflexivity.
Qed.

(** X21.  [call_function_op(n)] takes the [n] values on top of the
    stack as positional arguments, in the order they were pushed, and
    the value below them as the callable; it calls it without keyword
    arguments and leaves the result in place of all of them.  An
    exception of the call leaves the handler as it is.  A value that is
    neither a function object nor an exception class is not callable:
    [TypeError]. *)
Theorem call_function_pops_callable_and_arguments
    (call : Callee) (fr : Frame) (st : Store)
    (s : list Value) (f : Value) (args : list Value) :
  call_function_op call (Z.of_nat (length args))
    (set_data_stack (s ++ f :: args) fr) st
  = match call f args [] st with
    | Ok (r, st') => Ok (VNone, set_data_stack (s ++ [r]) fr, st')
    | Raise e => Raise e
    | OutOfFuel => OutOfFuel
    end /\
  (forall run : Frame -> Store -> Result (Value * Store),
      (forall q fc d b g l, f <> VFunc q fc d b g l) ->
      (forall cls, f <> VExcClass cls) ->
      call_value run f args [] st = Raise TypeError).
Proof.
  split.
  - unfold call_function_op. unfold bind at 1.
    change (s ++ f :: args) with (s ++ [f] ++ args).
    rewrite app_assoc, popn_app.
    unfold bind at 1. rewrite pop_snoc.
    rewrite invoke_result. reflexivity.
  - intros run0 Hf He. destruct f; try reflexivity.
    + exfalso. eapply He. reflexivity.
    + exfalso. eapply Hf. reflexivity.
Qed.

Lemma call_function_pops_callable_and_arguments_witness :
  ((forall q fc d b g l, VNone <> VFunc q fc d b g l) /\
   (forall cls, VNone <> VExcClass cls)) /\
  call_value (run 0) VNone [VInt 1] [] [] = Raise TypeError.
Proof.
  assert (H : (forall q fc d b g l, VNone <> VFunc q fc d b g l) /\
              (forall cls, VNone <> VExcClass cls))
    by (split; intros; discriminate).
  split; [exact H |].
  exact (proj2 (call_function_pops_callable_and_arguments (callee 0)
                  (frame_with_stack []) [] [] VNone [VInt 1])
           (run 0) (proj1 H) (proj2 H)).
Defined.

(** Dictionaries with string keys. *)
Lemma dict_setitem_fresh (k : string) (v : Value) (d : list (string * Value)) :
  k ∉ d.*1 ->
  dict_setitem (VStr k) v (map (fun kv => (VStr kv.1, kv.2)) d)
  = map (fun kv => (VStr kv.1, kv.2)) (d ++ [(k, v)]).
Proof.
  induction d as [| [k' v'] d IH]; intros Hk; cbn; [reflexivity |].
  cbn in Hk. apply not_elem_of_cons in Hk as [Hne Hk].
  destruct (String.eqb_spec k' k) as [-> | _]; [congruence |].
  rewrite IH by exact Hk. reflexivity.
Qed.

Lemma dict_of_pairs_strings (pairs d : list (string * Value)) :
  NoDup (d.*1 ++ pairs.*1) ->
  dict_of_pairs (map (fun kv => (VStr kv.1, kv.2)) pairs)
                (map (fun kv => (VStr kv.1, kv.2)) d)
  = Ok (map (fun kv => (VStr kv.1, kv.2)) (d ++ pairs)).
Proof.
  revert d. induction pairs as [| [k v] pairs IH]; intros d Hnd; cbn.
  - rewrite app_nil_r. reflexivity.
  - cbn in Hnd.
    assert (Hk : k ∉ d.*1).
    { apply NoDup_app in Hnd as (_ & Hdis & _). intros Hin.
      apply (Hdis k Hin). apply list_elem_of_here. }
    rewrite dict_setitem_fresh by exact Hk.
    rewrite IH.
    + rewrite <- app_assoc. reflexivity.
    + rewrite fmap_app. cbn. rewrite <- app_assoc. exact Hnd.
Qed.

Lemma keywords_of_dict_strings (d : list (string * Value)) :
  keywords_of_dict (map (fun kv => (VStr kv.1, kv.2)) d) = Ok d.
Proof.
  induction d as [| [k v] d IH]; cbn; [reflexivity |].
  rewrite IH. reflexivity.
Qed.

Lemma zip_string_keys (names : list string) (values : list Value) :
  zip (map VStr names) values
  = map (fun kv => (VStr kv.1, kv.2)) (zip names values).
Proof.
  revert values. induction names as [| n names IH]; intros [| v values];
    cbn; try reflexivity.
  rewrite IH. reflexivity.
Qed.

Lemma NoDup_zip_keys (names : list string) (values : list Value) :
  NoDup names -> NoDup (zip names values).*1.
Proof.
  intros H. rewrite zip_fst_take.
  eapply sublist_NoDup; [exact H | apply sublist_take].
Qed.

(** X22.  [call_function_kw_op(n)] reads the tuple of keyword names on
    top of the stack, takes as many values below it as keyword values,
    then the remaining [n - len(names)] values as positional arguments
    and the value below them as the callable, and calls it with the
    keyword names paired in order with the keyword values; the result
    replaces all of them. *)
Theorem call_function_kw_splits_arguments
    (call : Callee) (fr : Frame) (st : Store) (s : list Value) (f : Value)
    (posargs kwvalues : list Value) (names : list string) :
  NoDup names ->
  length kwvalues = length names ->
  call_function_kw_op call (Z.of_nat (length posargs + length names))
    (set_data_stack
       (s ++ f :: posargs ++ kwvalues ++ [VTuple (map VStr names)]) fr) st
  = match call f posargs (zip names kwvalues) st with
    | Ok (r, st') => Ok (VNone, set_data_stack (s ++ [r]) fr, st')
    | Raise e => Raise e
    | OutOfFuel => OutOfFuel
    end.
Proof.
  intros Hnd Hlen. unfold call_function_kw_op.
  unfold bind at 1.
  replace (s ++ f :: posargs ++ kwvalues ++ [VTuple (map VStr names)])
    with (((s ++ [f]) ++ posargs) ++ kwvalues ++ [VTuple (map VStr names)])
    by (rewrite <- !app_assoc; reflexivity).
  rewrite app_assoc, pop_snoc.
  unfold bind at 1. cbn [py_iter lift_result].
  unfold bind at 1. rewrite length_map, <- Hlen, popn_app.
  unfold bind at 1. rewrite zip_string_keys.
  rewrite (dict_of_pairs_strings _ []) by (apply NoDup_zip_keys, Hnd).
  cbn [lift_result app].
  unfold bind at 1.
  replace (Z.of_nat (length posargs + length kwvalues)
           - Z.of_nat (length kwvalues))
    with (Z.of_nat (length posargs)) by lia.
  rewrite popn_app.
  unfold bind at 1. rewrite pop_snoc.
  unfold bind at 1. rewrite keywords_of_dict_strings. cbn [lift_result].
  rewrite invoke_result. reflexivity.
Qed.

Lemma call_function_kw_splits_arguments_witness :
  (NoDup ["c"] /\ length [VInt 9] = length ["c"]) /\
  call_function_kw_op (callee 0) (Z.of_nat (length [VInt 1] + length ["c"]))
    (set_data_stack
       ([] ++ VNone :: [VInt 1] ++ [VInt 9] ++ [VTuple (map VStr ["c"])])
       (frame_with_stack [])) []
  = Raise TypeError.
Proof.
  assert (H : NoDup ["c"] /\ length [VInt 9] = length ["c"])
    by (split; [nodup_strings | reflexivity]).
  split; [exact H |].
  exact (call_function_kw_splits_arguments (callee 0) (frame_with_stack []) []
           [] VNone [VInt 1] [VInt 9] ["c"] (proj1 H) (proj2 H)).
Defined.

(** X23.  [build_const_key_map_op(count)] pairs the strings of the key
    tuple on top of the stack, when they are distinct, with the [count]
    values below it, in order, and pushes the dictionary of these
    pairs; a key tuple longer than [count] loses its extra keys
    silently, and a top of stack that cannot be iterated raises
    [TypeError]. *)
Theorem build_const_key_map_pairs_in_order
    (fr : Frame) (st : Store) (s values : list Value) (names : list string) :
  NoDup names ->
  build_const_key_map_op (Z.of_nat (length values))
    (set_data_stack (s ++ values ++ [VTuple (map VStr names)]) fr) st
  = Ok (VNone,
        set_data_stack (s ++ [VDict (zip (map VStr names) values)]) fr, st) /\
  build_const_key_map_op (Z.of_nat (length values))
    (set_data_stack (s ++ values ++ [VNone]) fr) st
  = Raise TypeError.
Proof.
  intros Hnd. unfold build_const_key_map_op.
  split; unfold bind at 1; rewrite app_assoc, pop_snoc;
    unfold bind at 1; rewrite popn_app; [| reflexivity].
  unfold bind at 1. cbn [py_iter lift_result].
  unfold bind at 1. rewrite zip_string_keys.
  rewrite (dict_of_pairs_strings _ []) by (apply NoDup_zip_keys, Hnd).
  reflexivity.
Qed.

Lemma build_const_key_map_pairs_in_order_witness :
  NoDup ["a"; "b"] /\
  build_const_key_map_op (Z.of_nat (length [VInt 1; VInt 2]))
    (set_data_stack ([] ++ [VInt 1; VInt 2] ++ [VTuple (map VStr ["a"; "b"])])
       (frame_with_stack [])) []
  = Ok (VNone,
        set_data_stack
          ([] ++ [VDict (zip (map VStr ["a"; "b"]) [VInt 1; VInt 2])])
          (frame_with_stack []), []).
Proof.
  assert (H : NoDup ["a"; "b"]) by nodup_strings.
  split; [exact H |].
  exact (proj1 (build_const_key_map_pairs_in_order (frame_with_stack []) []
                  [] [VInt 1; VInt 2] ["a"; "b"] H)).
Defined.

(** ** Tuples, dictionaries, arithmetic *)

(** X24.  [build_tuple_op(n)] replaces the [n] top values by the tuple
    of them, deepest first; [unpack_sequence_op] replaces a tuple by
    its items pushed last to first, so that popping them afterwards
    yields the items first to last.  A value that cannot be sliced
    raises [TypeError]. *)
Theorem build_tuple_unpack_sequence
    (fr : Frame) (st : Store) (s items : list Value) :
  build_tuple_op (Z.of_nat (length items))
    (set_data_stack (s ++ items) fr) st
  = Ok (VNone, set_data_stack (s ++ [VTuple items]) fr, st) /\
  unpack_sequence_op (set_data_stack (s ++ [VTuple items]) fr) st
  = Ok (VNone, set_data_stack (s ++ rev items) fr, st) /\
  (do! unpack_sequence_op in pop_times (length items))
    (set_data_stack (s ++ [VTuple items]) fr) st
  = Ok (items, set_data_stack s fr, st) /\
  (forall z : Z,
      unpack_sequence_op (set_data_stack (s ++ [VInt z]) fr) st
      = Raise TypeError).
Proof.
  assert (U : unpack_sequence_op (set_data_stack (s ++ [VTuple items]) fr) st
              = Ok (VNone, set_data_stack (s ++ rev items) fr, st)).
  { unfold unpack_sequence_op. unfold bind at 1. rewrite pop_snoc.
    reflexivity. }
  split; [| split; [exact U | split]].
  - unfold build_tuple_op. unfold bind at 1. rewrite popn_app. reflexivity.
  - unfold bind. rewrite U.
    rewrite <- (length_rev items), pop_times_snoc, rev_involutive.
    reflexivity.
  - intros z. unfold unpack_sequence_op. unfold bind at 1. rewrite pop_snoc.
    reflexivity.
Qed.

(** X25.  [build_map_op] at the counts where it pairs correctly: with a
    count of zero or less it pops nothing and pushes an empty
    dictionary; with count 1 it replaces a hashable key and its value by
    the dictionary of that pair, and raises [TypeError] when the key is
    a dictionary.  With count 1 on a stack of a single value it raises
    [IndexError], the stack having been emptied. *)
Theorem build_map_small_counts
    (fr : Frame) (st : Store) (s : list Value) (k v : Value) :
  (forall count : Z,
      count <= 0 ->
      build_map_op count (set_data_stack s fr) st
      = Ok (VNone, set_data_stack (s ++ [VDict []]) fr, st)) /\
  (check_hashable k = Ok tt ->
   build_map_op 1 (set_data_stack (s ++ [k; v]) fr) st
   = Ok (VNone, set_data_stack (s ++ [VDict [(k, v)]]) fr, st)) /\
  (forall d : list (Value * Value),
      build_map_op 1 (set_data_stack (s ++ [VDict d; v]) fr) st
      = Raise TypeError) /\
  build_map_op 1 (set_data_stack [k] fr) st = Raise IndexError.
Proof.
  unfold build_map_op. repeat split.
  - intros count Hc. unfold bind at 1.
    rewrite popn_nonpositive by lia.
    unfold py_range. replace (Z.to_nat (2 * count - 1)) with 0%nat by lia.
    reflexivity.
  - intros Hk. unfold bind at 1. rewrite popn2_snoc.
    change (py_range (2 * 1 - 1)) with [0].
    cbn [map_comprehension].
    change (py_index [k; v] 0) with (Some k).
    change (py_index [k; v] (0 + 1)) with (Some v).
    cbn iota. rewrite Hk. reflexivity.
  - intros d. unfold bind at 1. rewrite popn2_snoc. reflexivity.
Qed.

Lemma build_map_small_counts_witness :
  check_hashable (VStr "a") = Ok tt /\
  build_map_op 1 (set_data_stack ([] ++ [VStr "a"; VInt 1]) (frame_with_stack []))
    []
  = Ok (VNone,
        set_data_stack ([] ++ [VDict [(VStr "a", VInt 1)]]) (frame_with_stack []),
        []).
Proof.
  assert (H : check_hashable (VStr "a") = Ok tt) by reflexivity.
  split; [exact H |].
  exact (proj1 (proj2 (build_map_small_counts (frame_with_stack []) []
                         [] (VStr "a") (VInt 1))) H).
Defined.

(** X26.  The binary handlers take the value below the top as left
    operand: [binary_subtract_op] on [a] and [b] pushes [a - b],
    [binary_add_op] pushes the sum of two integers and the
    concatenation, left before right, of two strings or two tuples.
    Operands of kinds that do not add up raise [TypeError], and a stack
    with a single value raises [ValueError] (the popped list does not
    unpack into two), that value being consumed. *)
Theorem binary_operands_left_to_right
    (fr : Frame) (st : Store) (s : list Value)
    (a b : Z) (x y : string) (l r : list Value) :
  binary_subtract_op (set_data_stack (s ++ [VInt a; VInt b]) fr) st
  = Ok (VNone, set_data_stack (s ++ [VInt (a - b)]) fr, st) /\
  binary_add_op (set_data_stack (s ++ [VInt a; VInt b]) fr) st
  = Ok (VNone, set_data_stack (s ++ [VInt (a + b)]) fr, st) /\
  binary_add_op (set_data_stack (s ++ [VStr x; VStr y]) fr) st
  = Ok (VNone, set_data_stack (s ++ [VStr (String.append x y)]) fr, st) /\
  binary_add_op (set_data_stack (s ++ [VTuple l; VTuple r]) fr) st
  = Ok (VNone, set_data_stack (s ++ [VTuple (l ++ r)]) fr, st) /\
  binary_add_op (set_data_stack (s ++ [VInt a; VStr x]) fr) st
  = Raise TypeError /\
  binary_subtract_op (set_data_stack (s ++ [VStr x; VStr y]) fr) st
  = Raise TypeError /\
  binary_add_op (set_data_stack [VInt a] fr) st = Raise ValueError.
Proof.
  unfold binary_add_op, binary_subtract_op.
  repeat split; unfold bind at 1; rewrite ?popn2_snoc; reflexivity.
Qed.

(** ** Raising, continued *)

(** X27.  [raise_varargs_op(0)] re-raises: after a raise with
    operands, it records the same three values again and returns the
    same outcome, popping nothing; in a frame that has raised nothing
    it fails with [ValueError] (the empty [last_exception] does not
    unpack).  With an [argc] outside 0..3 the handler pops nothing,
    records three [None] and returns ["exception"]. *)
Theorem bare_raise_repeats_last_exception
    (fr : Frame) (st : Store) (s : list Value) (exctype val tb : Value) :
  (do! raise_varargs_op 3 in raise_varargs_op 0)
    (set_data_stack (s ++ [exctype; val; tb]) fr) st
  = raise_varargs_op 3 (set_data_stack (s ++ [exctype; val; tb]) fr) st /\
  raise_varargs_op 0 (set_last_exception [] fr) st = Raise ValueError /\
  (forall argc : Z,
      argc < 0 \/ 3 < argc ->
      raise_varargs_op argc fr st
      = Ok (VStr "exception", set_last_exception [VNone; VNone; VNone] fr, st)).
Proof.
  split; [| split].
  - unfold bind at 1.
    assert (R3 : raise_varargs_op 3
                   (set_data_stack (s ++ [exctype; val; tb]) fr) st
                 = Ok (VStr (if truthy tb then "reraise" else "exception"),
                       set_last_exception
                         [if is_exception_instance exctype
                          then type_of_instance exctype else exctype;
                          if is_exception_instance exctype
                          then exctype else val; tb]
                         (set_data_stack s fr), st)).
    { unfold raise_varargs_op. cbn [Z.eqb Pos.eqb].
      unfold bind. rewrite pop_snoc3, pop_snoc2, pop_snoc. cbn.
      destruct (is_exception_instance exctype), (truthy tb); reflexivity. }
    rewrite R3.
    destruct exctype, (truthy tb) eqn:Htb; cbn; rewrite ?Htb; reflexivity.
  - reflexivity.
  - intros argc Hargc. unfold raise_varargs_op.
    destruct (Z.eqb_spec argc 0); [lia |].
    destruct (Z.eqb_spec argc 1); [lia |].
    destruct (Z.eqb_spec argc 2); [lia |].
    destruct (Z.eqb_spec argc 3); [lia |].
    reflexivity.
Qed.

Lemma bare_raise_repeats_last_exception_witness :
  (7 < 0 \/ 3 < 7) /\
  raise_varargs_op 7 (frame_with_stack [VInt 1]) []
  = Ok (VStr "exception",
        set_last_exception [VNone; VNone; VNone] (frame_with_stack [VInt 1]),
        []).
Proof.
  assert (H : 7 < 0 \/ 3 < 7) by (right; lia).
  split; [exact H |].
  exact (proj2 (proj2 (bare_raise_repeats_last_exception
                         (frame_with_stack [VInt 1]) [] [] VNone VNone VNone))
           7 H).
Defined.

(** X28.  [make_function_op] checks its name operand only: a name that
    is not a string raises [TypeError], while any value is accepted as
    the code of the function.  A function object whose code is not a
    code object fails when it is called, with [AttributeError],
    whatever the arguments. *)
Theorem function_code_checked_at_call
    (fr : Frame) (st : Store) (s : list Value) (fcode name : Value) :
  ((forall q, name <> VStr q) ->
   make_function_op 0 (set_data_stack (s ++ [fcode; name]) fr) st
   = Raise TypeError) /\
  (forall q : string,
      make_function_op 0 (set_data_stack (s ++ [fcode; VStr q]) fr) st
      = Ok (VNone,
            set_data_stack
              (s ++ [VFunc q fcode [] (builtins fr) (globals fr) (locals fr)])
              fr, st)) /\
  ((forall c, fcode <> VCode c) ->
   forall (run : Frame -> Store -> Result (Value * Store)) (q : string)
          (defaults : list Value) (b g l : nat)
          (args : list Value) (kwargs : list (string * Value)) (st' : Store),
     call_value run (VFunc q fcode defaults b g l) args kwargs st'
     = Raise AttributeError).
Proof.
  split; [| split].
  - intros Hn. unfold make_function_op.
    unfold bind at 1. rewrite pop_snoc2.
    unfold bind at 1. rewrite pop_snoc.
    unfold bind at 1. cbn.
    destruct name; try reflexivity. exfalso. eapply Hn. reflexivity.
  - intros q. unfold make_function_op.
    unfold bind at 1. rewrite pop_snoc2.
    unfold bind at 1. rewrite pop_snoc. reflexivity.
  - intros Hc run0 q defaults b g l args kwargs st'.
    cbn [call_value]. unfold function_call.
    destruct fcode; try reflexivity. exfalso. eapply Hc. reflexivity.
Qed.

Lemma function_code_checked_at_call_witness :
  (forall c, VInt 3 <> VCode c) /\
  call_value (run 0) (VFunc "f" (VInt 3) [] 0 1 1) [] [] []
  = Raise AttributeError.
Proof.
  assert (H : forall c, VInt 3 <> VCode c) by (intros; discriminate).
  split; [exact H |].
  exact (proj2 (proj2 (function_code_checked_at_call (frame_with_stack []) []
                         [] (VInt 3) VNone))
           H (run 0) "f" [] 0%nat 1%nat 1%nat [] [] []).
Defined.

(** ** Storing and loading *)

(** X29.  A stored name reads back: [store_name_op x] followed by
    [load_name_op x] leaves the stack as it was, with the popped value
    pushed again, whatever the globals and the builtins hold for [x];
    the same for [store_fast_op] and [load_fast_op]; and the locals
    agree with the former locals on every other name. *)
Theorem store_then_load_round_trip
    (fr : Frame) (st : Store) (l : gmap string Value)
    (x : string) (v : Value) (s : list Value) :
  st !! locals fr = Some l ->
  let st' := <[locals fr := <[x := v]> l]> st in
  (do! store_name_op x in load_name_op x) (set_data_stack (s ++ [v]) fr) st
  = Ok (VNone, set_data_stack (s ++ [v]) fr, st') /\
  (x ∉ [".0"; ".1"; ".2"] ->
   (do! store_fast_op x in load_fast_op x) (set_data_stack (s ++ [v]) fr) st
   = Ok (VNone, set_data_stack (s ++ [v]) fr, st')) /\
  (forall y, y <> x ->
     exists l', st' !! locals fr = Some l' /\ l' !! y = l !! y).
Proof.
  intros Hl st'.
  assert (Hl' : st' !! locals fr = Some (<[x := v]> l))
    by (eapply store_lookup_insert, Hl).
  split; [| split].
  - unfold bind at 1. rewrite (store_name_ok _ _ _ _ _ l) by exact Hl.
    fold st'. unfold load_name_op.
    unfold bind at 1. cbn [get_frame].
    unfold bind at 1. cbn [locals set_data_stack].
    rewrite (read_dict_ok _ (<[x := v]> l)) by exact Hl'.
    rewrite lookup_insert_eq. reflexivity.
  - intros Hx. unfold bind at 1.
    rewrite (store_fast_ok _ _ _ _ _ l) by exact Hl. fold st'.
    rewrite (load_fast_ok _ _ _ v (<[x := v]> l));
      [reflexivity | exact Hx | exact Hl' | apply lookup_insert_eq].
  - intros y Hy. exists (<[x := v]> l). split; [exact Hl' |].
    apply lookup_insert_ne. congruence.
Qed.

Lemma store_then_load_round_trip_witness :
  store_with_x !! locals (frame_with_stack []) = Some {[ "x" := VInt 1 ]} /\
  (do! store_name_op "x" in load_name_op "x")
    (set_data_stack ([] ++ [VInt 5]) (frame_with_stack [])) store_with_x
  = Ok (VNone, set_data_stack ([] ++ [VInt 5]) (frame_with_stack []),
        <[locals (frame_with_stack []) := <["x" := VInt 5]> {[ "x" := VInt 1 ]}]>
          store_with_x).
Proof.
  assert (H : store_with_x !! locals (frame_with_stack [])
              = Some {[ "x" := VInt 1 ]}) by reflexivity.
  split; [exact H |].
  exact (proj1 (store_then_load_round_trip (frame_with_stack []) store_with_x
                  _ "x" (VInt 5) [] H)).
Defined.

(** X30.  At top level the globals start empty, so a program that
    loads a name and returns it gets the value the host's builtins
    give the name, and [NameError] when they give none. *)
Theorem toplevel_name_comes_from_builtins
    (fuel : nat) (x : string) (rest : list Instr)
    (varnames : list string) (argcount posonly kwonly : nat) (flags : Z)
    (host_builtins : gmap string Value) :
  VirtualMachine_run (S (S (S fuel)))
    (mkCode (LOAD_NAME x :: RETURN_VALUE :: rest)
            varnames argcount posonly kwonly flags)
    host_builtins
  = match host_builtins !! x with
    | Some v => Ok v
    | None => Raise NameError
    end.
Proof.
  unfold VirtualMachine_run, VirtualMachine_frame, alloc, run.
  cbn [length app].
  set (code_obj := mkCode (LOAD_NAME x :: RETURN_VALUE :: rest)
                          varnames argcount posonly kwonly flags).
  set (fr0 := run_prologue (Frame_init code_obj 0 1 1)).
  set (st0 := [host_builtins; ∅]).
  assert (Hlen : bytecode_len fr0 = 2 * Z.of_nat (S (S (length rest))))
    by reflexivity.
  assert (Hi : py_index (co_instructions (code fr0)) (counter fr0 / 2)
               = Some (LOAD_NAME x)).
  { change (counter fr0 / 2) with (2 * Z.of_nat 0 / 2).
    rewrite instruction_at. reflexivity. }
  assert (Hload : load_name_op x fr0 st0
                  = match host_builtins !! x with
                    | Some v =>
                        Ok (VNone, set_data_stack ([] ++ [v]) fr0, st0)
                    | None => Raise NameError
                    end).
  { unfold load_name_op.
    unfold bind at 1. cbn [get_frame].
    unfold bind at 1.
    rewrite (read_dict_ok _ ∅) by reflexivity. rewrite lookup_empty.
    unfold bind at 1.
    rewrite (read_dict_ok _ ∅) by reflexivity. rewrite lookup_empty.
    unfold bind at 1.
    rewrite (read_dict_ok _ host_builtins) by reflexivity.
    destruct (host_builtins !! x); reflexivity. }
  destruct (host_builtins !! x) as [v |] eqn:Hx.
  - erewrite run_loop_step
      with (fr' := set_data_stack ([] ++ [v]) (set_counter 2 fr0));
      [| rewrite Hlen; cbn [counter fr0 run_prologue set_counter]; lia |].
    2:{ unfold loop_iteration. rewrite Hi. cbn [dispatch].
        rewrite Hload. reflexivity. }
    rewrite (run_loop_return fuel (set_counter 2 fr0) _ [] v 1);
      [reflexivity | reflexivity | reflexivity | | reflexivity].
    cbn [counter set_counter bytecode_len]. rewrite Hlen. lia.
  - cbn [run_loop].
    destruct (Z.ltb_spec (counter fr0) (bytecode_len fr0)) as [_ | Hge];
      [| rewrite Hlen in Hge; cbn [counter fr0 run_prologue set_counter] in Hge;
         lia].
    unfold loop_iteration. rewrite Hi. cbn [dispatch].
    rewrite Hload. reflexivity.
Qed.

